(** * Meta-transaction relayer for the Lisk escrow platform

    A shallow embedding of the relayer service ([relayer/src/index.js],
    [relayer/src/services/relayer.js], [relayer/src/services/contracts.js])
    and the properties of its relay pipeline.

    The service is asynchronous JavaScript.  Every [await] of a request is
    sequential, so one request is modelled as a computation in a small
    monad that threads the list of external calls performed so far and may
    throw.  The chain, the [viem] library and the clock are oracles
    gathered in a record [World]: the model fixes what the relayer asks
    them and in which order, never what they answer.  Within one request
    no chain operation is asked twice, so a [World] that answers by
    function loses nothing.

    What is taken from outside the repository:
    - Numbers are binary64 floats ([PrimFloat]); BigInts are [Z].
    - [express.json()] leaves in [req.body] the parsed object, [{}] when
      the request has no body: a finite map from property names to values.
      A body it cannot parse is an error passed to the error-handling
      middleware, past every middleware and route in between.
    - [cors()] answers an [OPTIONS] request itself, with 204 and no body;
      [helmet()] and [cors()] otherwise only add response headers, which
      the model of a response does not carry.
    - Express routing is case-insensitive and tolerates a trailing slash,
      while [req.path === '/health'] is exact; a route parameter is
      URI-decoded, and a failure to decode it is an error of the request.
    - [RateLimiterMemory] counts points per key in a fixed window that
      opens at the first [consume] and rejects once the count exceeds
      [points]. *)

From Stdlib Require Import ZArith Lia Bool List Ascii String.
From Stdlib Require Import Floats.PrimFloat Floats.SpecFloat Floats.FloatOps.
From stdpp Require Import base option list strings gmap pretty.

Import ListNotations.
Set Warnings "-register-all".
Local Open Scope string_scope.
Local Open Scope Z_scope.

(** ** JavaScript values *)

(** The values a parsed JSON body can hold, plus [undefined] for an absent
    property.  A [string] stands for a JavaScript string whose code units
    are all below 256, so that [String.length] is [.length]. *)
Inductive JsVal :=
| JUndefined
| JNull
| JBool (b : bool)
| JNum (x : float)
| JStr (s : string)
| JArr (elems : list JsVal)
| JObj (props : list (string * JsVal)).

(** A thrown exception: constructor name and [message]. *)
Record JsError := MkError { errName : string; errMessage : string }.

Definition Error (msg : string) : JsError := MkError "Error" msg.
Definition TypeError (msg : string) : JsError := MkError "TypeError" msg.
Definition RangeError (msg : string) : JsError := MkError "RangeError" msg.

Inductive result (A : Type) :=
| Ok (a : A)
| Throw (e : JsError).
Arguments Ok {A} a.
Arguments Throw {A} e.

(** [ToBoolean]: the falsy values are [undefined], [null], [false], [+0],
    [-0], [NaN] and the empty string; arrays and objects are truthy. *)
Definition isNaN (x : float) : bool := negb (PrimFloat.eqb x x).

Definition truthy (v : JsVal) : bool :=
  match v with
  | JUndefined | JNull => false
  | JBool b => b
  | JNum x => negb (PrimFloat.eqb x 0%float || isNaN x)
  | JStr s => negb (String.eqb s "")
  | JArr _ | JObj _ => true
  end.

Definition falsy (v : JsVal) : bool := negb (truthy v).

(** [s.startsWith(p)] and [s.length] on strings. *)
Definition startsWith (s p : string) : bool := String.prefix p s.
Definition strlen (s : string) : Z := Z.of_nat (String.length s).

(** [v.startsWith(p)] on an arbitrary value: only strings have the method;
    on [undefined] and [null] the property access itself throws, on any
    other value the call of a non-function does. *)
Definition js_startsWith (v : JsVal) (p : string) : result bool :=
  match v with
  | JStr s => Ok (startsWith s p)
  | JUndefined | JNull => Throw (TypeError "Cannot read properties of undefined")
  | _ => Throw (TypeError "startsWith is not a function")
  end.

(** [ToString(v)] returns: the conversion a template literal applies to an
    interpolated value.  On a parsed JSON value it throws a [TypeError] in
    one case, an object that holds a property named [toString]: that
    property is no function, and [valueOf] is either shadowed likewise or
    returns the object.  An array joins the conversions of its elements. *)
Fixpoint has_string (v : JsVal) : bool :=
  match v with
  | JArr elems => forallb has_string elems
  | JObj props => negb (existsb (fun p => String.eqb (fst p) "toString") props)
  | _ => true
  end.

(** [`${v}`], for the exception it may raise; the text is not used. *)
Definition template_literal (v : JsVal) : result unit :=
  if has_string v then Ok tt
  else Throw (TypeError "Cannot convert object to primitive value").

(** ** Numbers *)

(** The integer [floor x] of a finite double, [None] on [NaN] and the
    infinities. *)
Definition floorZ (x : float) : option Z :=
  match Prim2SF x with
  | S754_zero _ => Some 0
  | S754_finite neg m e =>
      let v := if neg then Z.neg m else Z.pos m in
      Some (if 0 <=? e then v * 2 ^ e else v / 2 ^ (- e))
  | S754_infinity _ | S754_nan => None
  end.

(** [BigInt(Math.floor(x))]: [BigInt] of a non-integral Number is a
    [RangeError], and [Math.floor] keeps [NaN] and the infinities. *)
Definition BigInt_floor (x : float) : result Z :=
  match floorZ x with
  | Some z => Ok z
  | None => Throw (RangeError "cannot be converted to a BigInt because it is not an integer")
  end.

(** BigInt division truncates towards zero. *)
Definition bigint_div (a b : Z) : Z := Z.quot a b.

(** [parseEther] of [viem] on a plain decimal literal: the value scaled
    by [10^18]; more than 18 fractional digits are not handled here. *)
Definition digit_of (c : Ascii.ascii) : option Z :=
  let n := Z.of_N (Ascii.N_of_ascii c) in
  if (48 <=? n) && (n <=? 57) then Some (n - 48) else None.

Fixpoint digits_value (s : string) (acc : Z) : option Z :=
  match s with
  | EmptyString => Some acc
  | String c rest =>
      match digit_of c with
      | Some d => digits_value rest (10 * acc + d)
      | None => None
      end
  end.

Fixpoint split_dot (s : string) : string * option string :=
  match s with
  | EmptyString => (EmptyString, None)
  | String c rest =>
      if Ascii.eqb c "."%char then (EmptyString, Some rest)
      else let '(i, f) := split_dot rest in (String c i, f)
  end.

Definition parseUnits (value : string) (decimals : nat) : option Z :=
  let '(int_part, frac) := split_dot value in
  let frac_part := default EmptyString frac in
  if (decimals <? String.length frac_part)%nat then None
  else
    i ← digits_value int_part 0;
    f ← digits_value frac_part 0;
    Some (i * 10 ^ Z.of_nat decimals
          + f * 10 ^ Z.of_nat (decimals - String.length frac_part)).

Definition parseEther (ether : string) : option Z := parseUnits ether 18.


(** ** Chain data *)

(** EIP-712 domain of [RelayerService]. *)
Record Domain := {
  domainName : string;
  domainVersion : string;
  chainId : Z;
  verifyingContract : string;
}.

(** The message rebuilt on the server for each of the four schemas of
    [this.types]; the constructor is the [primaryType]. *)
Inductive TypedMessage :=
| CreateEscrowMsg (seller : string) (amount : Z) (token : string)
                  (deliveryDeadline : Z) (nonce : Z)
| FundEscrowMsg (escrowId : JsVal) (nonce : Z)
| ConfirmDeliveryMsg (escrowId : JsVal) (nonce : Z)
| StoreDocumentMsg (escrowId documentHash : JsVal) (nonce : Z).

Definition messageNonce (m : TypedMessage) : Z :=
  match m with
  | CreateEscrowMsg _ _ _ _ n => n
  | FundEscrowMsg _ n => n
  | ConfirmDeliveryMsg _ n => n
  | StoreDocumentMsg _ _ n => n
  end.

(** The tuple returned by [getEscrowDetails(bytes32)], already named. *)
Record EscrowDetails := {
  escrowBuyer : string;
  escrowSeller : string;
  escrowAmount : Z;
  escrowDeadline : Z;
  escrowStatus : Z;
  escrowToken : string;
  fundedAt : Z;
  settledAt : Z;
  disputeResolved : bool;
}.

Record Log := {
  logAddress : string;
  topics : list string;
  logData : string;
}.

Record Receipt := {
  transactionHash : string;
  gasUsed : Z;
  logs : list Log;
}.

(** A call of the relayer contract as given to [simulateContract] and, as
    [simulation.request], to [writeContract]. *)
Record ContractCall := {
  functionName : string;
  callArgs : list JsVal;
  callGas : Z;
  callGasPrice : Z;
}.

(** ** The outside world *)

(** Every external operation the service performs, as it appears in the
    trace of a request. *)
Inductive Call :=
| ReadNonces (address : JsVal)
| ReadEscrowDetails (escrowId : JsVal)
| ReadBalanceOf (address : JsVal)
| ReadAllowance (owner : JsVal) (spender : string)
| GetBalance
| EstimateContractGas (fn : string) (args : list JsVal)
| GetGasPrice
| SimulateContract (c : ContractCall)
| WriteContract (c : ContractCall)
| WaitForTransactionReceipt (hash : string)
| VerifyTypedData (address : JsVal) (message : TypedMessage) (signature : JsVal).

(** What the chain and the [viem] library answer.  Each field is the
    outcome of the call of the same name; a [Throw] is a rejected promise
    or a thrown exception. *)
Record World := {
  readNonces : JsVal -> result Z;
  readEscrowDetails : JsVal -> result EscrowDetails;
  readBalanceOf : JsVal -> result Z;
  readAllowance : JsVal -> string -> result Z;
  getBalance : result Z;
  estimateContractGas : string -> list JsVal -> result Z;
  getGasPrice : result Z;
  simulateContract : ContractCall -> result ContractCall;
  writeContract : ContractCall -> result string;
  waitForTransactionReceipt : string -> result Receipt;
  verifyTypedData : JsVal -> Domain -> TypedMessage -> JsVal -> result bool;
  getAddress : JsVal -> result string;
  BigInt : JsVal -> result Z;
  keccak256 : string -> string;
  date_now : Z;
  now_iso : string;
  uptime : float;
}.

(** [process.env]: the variables the service reads.  [GAS_PRICE_MULTIPLIER]
    holds the Number its string converts to in [* 100]; [None] stands for
    an unset or empty variable, which [||] replaces by the default. *)
Record Env := {
  CHAIN_ID : Z;
  ESCROW_CONTRACT : string;
  RELAYER_CONTRACT : string;
  USDC_CONTRACT : string;
  API_KEY : option string;
  RATE_LIMIT : option nat;
  GAS_PRICE_MULTIPLIER : option float;
}.

(** ** The request monad *)

(** A computation receives the calls made so far and returns its outcome
    with the calls made up to its end; the trace survives a throw. *)
Definition M (A : Type) : Type := list Call -> result A * list Call.

#[global] Instance M_ret : MRet M := fun A a tr => (Ok a, tr).

#[global] Instance M_bind : MBind M := fun A B f m tr =>
  match m tr with
  | (Ok a, tr') => f a tr'
  | (Throw e, tr') => (Throw e, tr')
  end.

Definition throw {A} (e : JsError) : M A := fun tr => (Throw e, tr).

(** [try { m } catch (e) { h e }] *)
Definition try_catch {A} (m : M A) (h : JsError -> M A) : M A := fun tr =>
  match m tr with
  | (Throw e, tr') => h e tr'
  | ok => ok
  end.

(** Perform the external call [c], whose outcome is [r]. *)
Definition call {A} (c : Call) (r : result A) : M A := fun tr => (r, (tr ++ [c])%list).

(** A pure library function that may throw. *)
Definition lift {A} (r : result A) : M A := fun tr => (r, tr).

Definition run {A} (m : M A) : result A * list Call := m [].

(** ** [ContractService] ([services/contracts.js]) *)

Definition methodMap : gmap string string :=
  list_to_map [ ("relayCreateEscrow", "relayCreateEscrow");
                ("relayFundEscrow", "relayFundEscrow");
                ("relayConfirmDelivery", "relayConfirmDelivery");
                ("relayStoreDocument", "relayStoreDocument") ].

(** The literal [1.1], that is the double nearest to it. *)
Definition default_multiplier : float := 0x1.199999999999ap+0%float.

Section ContractService.
Variable w : World.
Variable env : Env.

Definition getNonce (address : JsVal) : M Z :=
  call (ReadNonces address) (readNonces w address).

Definition getEscrowDetails (escrowId : JsVal) : M EscrowDetails :=
  call (ReadEscrowDetails escrowId) (readEscrowDetails w escrowId).

Definition getUserBalance (address : JsVal) : M Z :=
  call (ReadBalanceOf address) (readBalanceOf w address).

Definition getUserAllowance (address : JsVal) : M Z :=
  call (ReadAllowance address (ESCROW_CONTRACT env))
       (readAllowance w address (ESCROW_CONTRACT env)).

Definition getRelayerBalance : M Z := call GetBalance (getBalance w).

Definition estimateGas (method : string) (params : list JsVal) : M Z :=
  try_catch
    (match methodMap !! method with
     | None => throw (Error ("Unknown method: " ++ method))
     | Some fn =>
         gas ← call (EstimateContractGas fn params) (estimateContractGas w fn params);
         mret gas
     end)
    (fun error => throw error).

(** [gasPrice * BigInt(Math.floor((GAS_PRICE_MULTIPLIER || 1.1) * 100)) / BigInt(100)] *)
Definition adjustedGasPrice (gasPrice : Z) : result Z :=
  match BigInt_floor (default default_multiplier (GAS_PRICE_MULTIPLIER env) * 100)%float with
  | Ok factor => Ok (bigint_div (gasPrice * factor) 100)
  | Throw e => Throw e
  end.

Definition executeTransaction (method : string) (params : list JsVal)
    (gasLimit : Z) : M Receipt :=
  try_catch
    (gasPrice ← call GetGasPrice (getGasPrice w);
     adjusted ← lift (adjustedGasPrice gasPrice);
     match methodMap !! method with
     | None => throw (Error ("Unknown method: " ++ method))
     | Some fn =>
         let c := {| functionName := fn; callArgs := params;
                     callGas := gasLimit; callGasPrice := adjusted |} in
         request ← try_catch (call (SimulateContract c) (simulateContract w c))
                             (fun simError => throw simError);
         hash ← try_catch (call (WriteContract request) (writeContract w request))
                          (fun writeError => throw writeError);
         receipt ← call (WaitForTransactionReceipt hash)
                        (waitForTransactionReceipt w hash);
         mret receipt
     end)
    (fun error => throw error).

End ContractService.


(** ** [RelayerService] ([services/relayer.js]) *)

(** The result object of a relay operation; only [relayCreateEscrow] sets
    the [escrowId] property. *)
Record RelayResult := {
  success : bool;
  escrowId : option JsVal;
  resultTransactionHash : string;
  resultGasUsed : string;
}.

(** [if (c) throw e] *)
Definition throw_if (c : bool) (e : JsError) : M unit :=
  if c then throw e else mret tt.

(** [v.length], read after [v.startsWith] returned: [None] is [undefined]. *)
Definition js_length (v : JsVal) : option Z :=
  match v with
  | JStr s => Some (strlen s)
  | JArr l => Some (Z.of_nat (length l))
  | _ => None
  end.

(** [!v.startsWith('0x') || v.length !== len] *)
Definition bad_hex_format (v : JsVal) (len : Z) : result bool :=
  match js_startsWith v "0x" with
  | Ok p => Ok (negb p || negb (bool_decide (js_length v = Some len)))
  | Throw e => Throw e
  end.

(** [toHex] of [viem] on a string: the bytes in lower-case hex. *)
Definition hex_digit (n : N) : ascii :=
  ascii_of_N (if (n <? 10)%N then 48 + n else 87 + n)%N.

Fixpoint hex_of_bytes (s : string) : string :=
  match s with
  | EmptyString => EmptyString
  | String c rest =>
      let n := N_of_ascii c in
      String (hex_digit (n / 16)%N) (String (hex_digit (n mod 16)%N) (hex_of_bytes rest))
  end.

Definition toHex (s : string) : string := String.append "0x" (hex_of_bytes s).

(** [console.log(`... ${v}`)]: the line is built before it is printed, and
    printing changes nothing for the request. *)
Definition console_log (v : JsVal) : M unit := lift (template_literal v).

Definition parseEther_or_throw (ether : string) : result Z :=
  match parseEther ether with
  | Some wei => Ok wei
  | None => Throw (Error "InvalidDecimalNumberError")
  end.

Section RelayerService.
Variable w : World.
Variable env : Env.

Definition domain : Domain :=
  {| domainName := "LiskEscrow"; domainVersion := "1";
     chainId := CHAIN_ID env; verifyingContract := ESCROW_CONTRACT env |}.

Definition verify (address : JsVal) (message : TypedMessage) (signature : JsVal) : M bool :=
  call (VerifyTypedData address message signature)
       (verifyTypedData w address domain message signature).

Definition eventSig : string :=
  keccak256 w (toHex "EscrowCreated(bytes32,address,address,uint256,uint256)").

Fixpoint extractEscrowIdFromLogs (logs : list Log) : result JsVal :=
  match logs with
  | [] => Throw (Error "EscrowCreated event not found in transaction logs")
  | log :: rest =>
      match topics log with
      | t0 :: _ =>
          if String.eqb t0 eventSig
          then Ok (from_option JStr JUndefined (topics log !! 1%nat))
          else extractEscrowIdFromLogs rest
      | [] => extractEscrowIdFromLogs rest
      end
  end.

(** Of the log lines, those of [relayConfirmDelivery] and
    [relayStoreDocument] are modelled ([console_log]): they convert a
    field of the request to a string before the field is used.  Those of
    [relayCreateEscrow] (on [buyer]) and of [relayFundEscrow] (on
    [escrowId], then on [buyer]) are not: the two definitions below are
    those operations on requests whose [buyer] and [escrowId] have a
    string conversion ([has_string]), as every string has. *)
Definition relayCreateEscrow
    (seller amount token deliveryDeadline buyer signature : JsVal) : M RelayResult :=
  bad ← lift (bad_hex_format signature 132);
  throw_if bad (Error "Invalid signature format");;
  nonce ← getNonce w buyer;
  seller' ← lift (getAddress w seller);
  amount' ← lift (BigInt w amount);
  token' ← lift (getAddress w token);
  deadline' ← lift (BigInt w deliveryDeadline);
  let message := CreateEscrowMsg seller' amount' token' deadline' nonce in
  isValid ← verify buyer message signature;
  throw_if (negb isValid) (Error "Invalid signature");;
  balance ← getRelayerBalance w;
  floor ← lift (parseEther_or_throw "0.01");
  throw_if (balance <? floor) (Error "Relayer balance too low");;
  let params := [seller; amount; token; deliveryDeadline; buyer; signature] in
  gasLimit ← estimateGas w "relayCreateEscrow" params;
  receipt ← executeTransaction w env "relayCreateEscrow" params gasLimit;
  id ← try_catch (lift (extractEscrowIdFromLogs (logs receipt)))
                 (fun error => mret (JStr (transactionHash receipt)));
  mret {| success := true; escrowId := Some id;
          resultTransactionHash := transactionHash receipt;
          resultGasUsed := pretty (gasUsed receipt) |}.

Definition relayFundEscrow (escrowId buyer signature : JsVal) : M RelayResult :=
  nonce ← getNonce w buyer;
  let message := FundEscrowMsg escrowId nonce in
  isValid ← verify buyer message signature;
  throw_if (negb isValid) (Error "Invalid signature");;
  escrowDetails ← getEscrowDetails w escrowId;
  userBalance ← getUserBalance w buyer;
  userAllowance ← getUserAllowance w env buyer;
  throw_if (userBalance <? escrowAmount escrowDetails) (Error "Insufficient USDC balance");;
  throw_if (userAllowance <? escrowAmount escrowDetails) (Error "Insufficient USDC allowance");;
  let params := [escrowId; buyer; signature] in
  gasLimit ← estimateGas w "relayFundEscrow" params;
  receipt ← executeTransaction w env "relayFundEscrow" params gasLimit;
  mret {| success := true; escrowId := None;
          resultTransactionHash := transactionHash receipt;
          resultGasUsed := pretty (gasUsed receipt) |}.

Definition relayConfirmDelivery (escrowId buyer signature : JsVal) : M RelayResult :=
  console_log escrowId;;
  nonce ← getNonce w buyer;
  let message := ConfirmDeliveryMsg escrowId nonce in
  isValid ← verify buyer message signature;
  throw_if (negb isValid) (Error "Invalid signature");;
  console_log buyer;;
  let params := [escrowId; buyer; signature] in
  gasLimit ← estimateGas w "relayConfirmDelivery" params;
  receipt ← executeTransaction w env "relayConfirmDelivery" params gasLimit;
  mret {| success := true; escrowId := None;
          resultTransactionHash := transactionHash receipt;
          resultGasUsed := pretty (gasUsed receipt) |}.

Definition relayStoreDocument (escrowId documentHash seller signature : JsVal)
    : M RelayResult :=
  console_log escrowId;;
  bad ← lift (bad_hex_format documentHash 66);
  throw_if bad (Error "Invalid document hash format");;
  nonce ← getNonce w seller;
  let message := StoreDocumentMsg escrowId documentHash nonce in
  isValid ← verify seller message signature;
  throw_if (negb isValid) (Error "Invalid signature");;
  console_log seller;;
  let params := [escrowId; documentHash; seller; signature] in
  gasLimit ← estimateGas w "relayStoreDocument" params;
  receipt ← executeTransaction w env "relayStoreDocument" params gasLimit;
  mret {| success := true; escrowId := None;
          resultTransactionHash := transactionHash receipt;
          resultGasUsed := pretty (gasUsed receipt) |}.

End RelayerService.


(** ** The rate limiter ([RateLimiterMemory] of rate-limiter-flexible) *)

(** Per key: the points consumed in the current window and the time, in
    milliseconds, at which the window expires. *)
Record LimiterRecord := { consumedPoints : nat; expiresAt : Z }.

Inductive LimiterVerdict :=
| Resolved
| Rejected (msBeforeNext : Z).

Definition duration : Z := 3600.

(** [points: process.env.RATE_LIMIT || 100] *)
Definition limiterPoints (env : Env) : nat := default 100%nat (RATE_LIMIT env).

(** [MemoryStorage.incrby(key, 1, duration)]: add a point to a live record,
    or open a new window. *)
Definition incrby (st : gmap string LimiterRecord) (key : string) (now : Z)
    : LimiterRecord * Z :=
  match st !! key with
  | Some r =>
      if 0 <? expiresAt r - now
      then ({| consumedPoints := S (consumedPoints r); expiresAt := expiresAt r |},
            expiresAt r - now)
      else ({| consumedPoints := 1; expiresAt := now + duration * 1000 |}, duration * 1000)
  | None => ({| consumedPoints := 1; expiresAt := now + duration * 1000 |}, duration * 1000)
  end.

(** [rateLimiter.consume(key)]: the point is counted even when the call is
    rejected. *)
Definition consume (env : Env) (st : gmap string LimiterRecord) (key : string) (now : Z)
    : LimiterVerdict * gmap string LimiterRecord :=
  let '(r, ms) := incrby st key now in
  (if (limiterPoints env <? consumedPoints r)%nat then Rejected ms else Resolved,
   <[key := r]> st).

(** [Math.round(ms / 1000)] on a non-negative integer [ms]. *)
Definition round_seconds (ms : Z) : Z := (ms + 500) / 1000.

(** ** The HTTP surface ([index.js]) *)

Record Request := {
  reqMethod : string;
  reqPath : string;
  reqHeaders : gmap string string;
  reqIp : string;
  reqBody : gmap string JsVal;
}.

Inductive ResponseBody :=
| EmptyBody
| HealthBody (status timestamp : string) (up : float)
| NonceBody (nonce : string)
| RelayBody (r : RelayResult)
| ErrorBody (error : string)
| ErrorDetailsBody (error details : string)
| TooManyBody (error : string) (retryAfter : Z).

Record Response := { statusCode : Z; responseBody : ResponseBody }.

(** [res.json(b)] and [res.status(c).json(b)] *)
Definition json (b : ResponseBody) : Response := {| statusCode := 200; responseBody := b |}.
Definition status_json (c : Z) (b : ResponseBody) : Response :=
  {| statusCode := c; responseBody := b |}.

(** Destructuring [const { k } = req.body]: an absent property is
    [undefined]. *)
Definition field (body : gmap string JsVal) (k : string) : JsVal :=
  default JUndefined (body !! k).

(** Express matches a route path without regard to case and with an
    optional trailing slash (its default, non-strict routing). *)
Definition lower_ascii (c : ascii) : ascii :=
  let n := N_of_ascii c in
  if ((65 <=? n) && (n <=? 90))%N then ascii_of_N (n + 32) else c.

Fixpoint lower (s : string) : string :=
  match s with
  | EmptyString => EmptyString
  | String c rest => String (lower_ascii c) (lower rest)
  end.

Definition route_matches (route path : string) : bool :=
  String.eqb (lower path) route || String.eqb (lower path) (String.append route "/").

(** [/nonce/:address]: one non-empty segment after the prefix. *)
Fixpoint no_slash (s : string) : bool :=
  match s with
  | EmptyString => true
  | String c rest => negb (Ascii.eqb c "/"%char) && no_slash rest
  end.

Fixpoint strip_trailing_slash (s : string) : string :=
  match s with
  | EmptyString => EmptyString
  | String c EmptyString => if Ascii.eqb c "/"%char then EmptyString else s
  | String c rest => String c (strip_trailing_slash rest)
  end.

(** The segment of the path that [:address] captures, as it is written in
    the URL. *)
Definition nonce_route_segment (path : string) : option string :=
  if String.prefix "/nonce/" (lower path)
  then
    let seg := strip_trailing_slash (String.substring 7 (String.length path - 7) path) in
    if negb (String.eqb seg "") && no_slash seg then Some seg else None
  else None.

(** [decodeURIComponent]: every [%XX] stands for an octet, and the octets
    of a character for its UTF-8 encoding; an incomplete escape, digits
    that are not hexadecimal and octets that are no well-formed UTF-8 are
    a [URIError]. *)
Definition URIError (msg : string) : JsError := MkError "URIError" msg.

Definition hex_value (c : ascii) : option N :=
  let n := N_of_ascii c in
  if ((48 <=? n) && (n <=? 57))%N then Some (n - 48)%N
  else if ((65 <=? n) && (n <=? 70))%N then Some (n - 55)%N
  else if ((97 <=? n) && (n <=? 102))%N then Some (n - 87)%N
  else None.

(** [%XX] at the head of [s]: the octet, and what follows it. *)
Definition percent_octet (s : string) : option (N * string) :=
  match s with
  | String c (String h (String l rest)) =>
      if Ascii.eqb c "%"%char
      then match hex_value h, hex_value l with
           | Some a, Some b => Some (16 * a + b, rest)%N
           | _, _ => None
           end
      else None
  | _ => None
  end.

Fixpoint percent_octets (k : nat) (s : string) : option (list N * string) :=
  match k with
  | O => Some ([], s)
  | S k' =>
      match percent_octet s with
      | Some (b, rest) =>
          match percent_octets k' rest with
          | Some (bs, rest') => Some (b :: bs, rest')
          | None => None
          end
      | None => None
      end
  end.

(** The number of octets the first octet of a character announces: its
    leading one bits. *)
Definition announced_octets (b : N) : nat :=
  if (b <? 128)%N then 0
  else if (b <? 192)%N then 1
  else if (b <? 224)%N then 2
  else if (b <? 240)%N then 3
  else if (b <? 248)%N then 4
  else 5.

Definition continuation (b : N) : bool := ((128 <=? b) && (b <=? 191))%N.

(** The code point of a well-formed UTF-8 sequence of two to four octets
    (no overlong form, no surrogate, nothing above U+10FFFF). *)
Definition utf8_code_point (octets : list N) : option N :=
  match octets with
  | [b1; b2] =>
      if ((194 <=? b1) && (b1 <=? 223))%N && continuation b2
      then Some ((b1 - 192) * 64 + (b2 - 128))%N
      else None
  | [b1; b2; b3] =>
      if (((b1 =? 224) && (160 <=? b2) && (b2 <=? 191))
          || ((225 <=? b1) && (b1 <=? 236) && continuation b2)
          || ((b1 =? 237) && (128 <=? b2) && (b2 <=? 159))
          || ((238 <=? b1) && (b1 <=? 239) && continuation b2))%N
         && continuation b3
      then Some ((b1 - 224) * 4096 + (b2 - 128) * 64 + (b3 - 128))%N
      else None
  | [b1; b2; b3; b4] =>
      if (((b1 =? 240) && (144 <=? b2) && (b2 <=? 191))
          || ((241 <=? b1) && (b1 <=? 243) && continuation b2)
          || ((b1 =? 244) && (128 <=? b2) && (b2 <=? 143)))%N
         && continuation b3 && continuation b4
      then Some ((b1 - 240) * 262144 + (b2 - 128) * 4096 + (b3 - 128) * 64
                 + (b4 - 128))%N
      else None
  | _ => None
  end.

(** The code units of a decoded character.  A [string] holds code units
    below 256 only: a unit above is written ['?'], which every test of the
    service refuses like the unit it stands for; a character beyond the
    basic plane takes two units. *)
Definition code_units (v : N) : string :=
  if (v <? 256)%N then String (ascii_of_N v) EmptyString
  else if (v <? 65536)%N then "?"
  else "??".

Fixpoint decode (fuel : nat) (s : string) : result string :=
  match fuel, s with
  | O, _ | _, EmptyString => Ok EmptyString
  | S fuel', String c rest =>
      if Ascii.eqb c "%"%char
      then
        match percent_octet s with
        | None => Throw (URIError "URI malformed")
        | Some (b, rest1) =>
            match announced_octets b with
            | O =>
                match decode fuel' rest1 with
                | Ok t => Ok (String (ascii_of_N b) t)
                | Throw e => Throw e
                end
            | S (S k) =>
                match percent_octets (S k) rest1 with
                | Some (bs, rest2) =>
                    match utf8_code_point (b :: bs) with
                    | Some v =>
                        match decode fuel' rest2 with
                        | Ok t => Ok (String.append (code_units v) t)
                        | Throw e => Throw e
                        end
                    | None => Throw (URIError "URI malformed")
                    end
                | None => Throw (URIError "URI malformed")
                end
            | _ => Throw (URIError "URI malformed")
            end
        end
      else
        match decode fuel' rest with
        | Ok t => Ok (String c t)
        | Throw e => Throw e
        end
  end.

Definition decodeURIComponent (s : string) : result string :=
  decode (String.length s) s.

(** [req.params.address] of [/nonce/:address]: Express decodes the
    captured segment when it matches the route; [None] when the path is
    not of the route. *)
Definition nonce_route_param (path : string) : option (result string) :=
  decodeURIComponent <$> nonce_route_segment path.

(** [/^0x[a-fA-F0-9]{40}$/] *)
Definition is_hex_char (c : ascii) : bool :=
  let n := N_of_ascii c in
  ((48 <=? n) && (n <=? 57) || (65 <=? n) && (n <=? 70) || (97 <=? n) && (n <=? 102))%N.

Fixpoint all_hex (s : string) : bool :=
  match s with
  | EmptyString => true
  | String c rest => is_hex_char c && all_hex rest
  end.

Definition is_address (s : string) : bool :=
  String.prefix "0x" s && (String.length s =? 42)%nat
  && all_hex (String.substring 2 40 s).

Definition is_get (m : string) : bool := String.eqb m "GET" || String.eqb m "HEAD".
Definition is_post (m : string) : bool := String.eqb m "POST".

(** [req.method.toUpperCase() === 'OPTIONS'], the test of [cors()]. *)
Definition upper_ascii (c : ascii) : ascii :=
  let n := N_of_ascii c in
  if ((97 <=? n) && (n <=? 122))%N then ascii_of_N (n - 32) else c.

Fixpoint upper (s : string) : string :=
  match s with
  | EmptyString => EmptyString
  | String c rest => String (upper_ascii c) (upper rest)
  end.

Definition is_options (m : string) : bool := String.eqb (upper m) "OPTIONS".

(** A request as it reaches the application: [express.json()] either
    accepts its body, which is then [req.body], or fails on it (a body
    that is no JSON object or array, too large, in an unknown encoding).
    A [Request] is read as an accepted one. *)
Inductive Incoming :=
| Accepted (req : Request)
| Malformed (method path : string) (headers : gmap string string) (ip : string).

Coercion Accepted : Request >-> Incoming.

Definition incomingMethod (x : Incoming) : string :=
  match x with
  | Accepted req => reqMethod req
  | Malformed method _ _ _ => method
  end.

Definition incomingPath (x : Incoming) : string :=
  match x with
  | Accepted req => reqPath req
  | Malformed _ path _ _ => path
  end.

Definition incomingIp (x : Incoming) : string :=
  match x with
  | Accepted req => reqIp req
  | Malformed _ _ _ ip => ip
  end.

Section App.
Variable w : World.
Variable env : Env.

(** [process.env.API_KEY && apiKey !== process.env.API_KEY] *)
Definition api_key_rejected (req : Request) : bool :=
  match API_KEY env with
  | Some key =>
      negb (String.eqb key "")
      && negb (bool_decide (reqHeaders req !! "x-api-key" = Some key))
  | None => false
  end.

Definition healthHandler : M Response :=
  mret (json (HealthBody "healthy" (now_iso w) (uptime w))).

Definition nonceHandler (address : string) : M Response :=
  try_catch
    (if negb (is_address address)
     then mret (status_json 400 (ErrorBody "Invalid address format"))
     else
       nonce ← getNonce w (JStr address);
       mret (json (NonceBody (pretty nonce))))
    (fun error => mret (status_json 500 (ErrorBody "Failed to get nonce"))).

Definition relay_failed (error : JsError) : M Response :=
  mret (status_json 500 (ErrorDetailsBody "Failed to relay transaction" (errMessage error))).

Definition missing_fields : M Response :=
  mret (status_json 400 (ErrorBody "Missing required fields")).

Definition createEscrowHandler (body : gmap string JsVal) : M Response :=
  try_catch
    (let seller := field body "seller" in
     let amount := field body "amount" in
     let token := field body "token" in
     let deliveryDeadline := field body "deliveryDeadline" in
     let buyer := field body "buyer" in
     let signature := field body "signature" in
     if falsy seller || falsy amount || falsy token || falsy deliveryDeadline
        || falsy buyer || falsy signature
     then missing_fields
     else
       result ← relayCreateEscrow w env seller amount token deliveryDeadline buyer signature;
       mret (json (RelayBody result)))
    relay_failed.

Definition fundEscrowHandler (body : gmap string JsVal) : M Response :=
  try_catch
    (let escrowId := field body "escrowId" in
     let buyer := field body "buyer" in
     let signature := field body "signature" in
     if falsy escrowId || falsy buyer || falsy signature
     then missing_fields
     else
       result ← relayFundEscrow w env escrowId buyer signature;
       mret (json (RelayBody result)))
    relay_failed.

Definition confirmDeliveryHandler (body : gmap string JsVal) : M Response :=
  try_catch
    (let escrowId := field body "escrowId" in
     let buyer := field body "buyer" in
     let signature := field body "signature" in
     if falsy escrowId || falsy buyer || falsy signature
     then missing_fields
     else
       result ← relayConfirmDelivery w env escrowId buyer signature;
       mret (json (RelayBody result)))
    relay_failed.

Definition storeDocumentHandler (body : gmap string JsVal) : M Response :=
  try_catch
    (let escrowId := field body "escrowId" in
     let documentHash := field body "documentHash" in
     let seller := field body "seller" in
     let signature := field body "signature" in
     if falsy escrowId || falsy documentHash || falsy seller || falsy signature
     then missing_fields
     else
       result ← relayStoreDocument w env escrowId documentHash seller signature;
       mret (json (RelayBody result)))
    relay_failed.

Definition not_found : M Response :=
  mret (status_json 404 (ErrorBody "Endpoint not found")).

(** The routes in registration order, then the 404 handler.  A path of
    the form [/nonce/:address] has its parameter decoded whatever the
    method, and a parameter that does not decode is an error of the
    request; no other route matches such a path. *)
Definition routes (req : Request) : M Response :=
  if is_get (reqMethod req) && route_matches "/health" (reqPath req) then healthHandler
  else
    match nonce_route_param (reqPath req) with
    | Some param =>
        address ← lift param;
        if is_get (reqMethod req) then nonceHandler address else not_found
    | None =>
        if is_post (reqMethod req) && route_matches "/relay/create-escrow" (reqPath req)
        then createEscrowHandler (reqBody req)
        else if is_post (reqMethod req) && route_matches "/relay/fund-escrow" (reqPath req)
        then fundEscrowHandler (reqBody req)
        else if is_post (reqMethod req)
                && route_matches "/relay/confirm-delivery" (reqPath req)
        then confirmDeliveryHandler (reqBody req)
        else if is_post (reqMethod req) && route_matches "/relay/store-document" (reqPath req)
        then storeDocumentHandler (reqBody req)
        else not_found
    end.

(** [(error, req, res, next) => res.status(500).json(...)] *)
Definition internal_error : Response :=
  status_json 500 (ErrorBody "Internal server error").

(** One request through the application: [cors()], [express.json()], the
    API-key middleware, the rate-limiting middleware and the routes, with
    the error-handling middleware for whatever error one of them passes
    on.  The result is the response, the calls made for it and the
    limiter's state afterwards. *)
Definition app (st : gmap string LimiterRecord) (x : Incoming)
    : Response * list Call * gmap string LimiterRecord :=
  if is_options (incomingMethod x)
  then ({| statusCode := 204; responseBody := EmptyBody |}, [], st)
  else
    match x with
    | Malformed _ _ _ _ => (internal_error, [], st)
    | Accepted req =>
        if negb (String.eqb (reqPath req) "/health") && api_key_rejected req
        then (status_json 401 (ErrorBody "Invalid API key"), [], st)
        else
          match consume env st (reqIp req) (date_now w) with
          | (Rejected ms, st') =>
              (status_json 429 (TooManyBody "Too many requests" (round_seconds ms)), [], st')
          | (Resolved, st') =>
              match run (routes req) with
              | (Ok res, tr) => (res, tr, st')
              | (Throw _, tr) => (internal_error, tr, st')
              end
          end
    end.

End App.


(** ** The four relay requests as one type *)

Inductive RelayRequest :=
| CreateEscrow (seller amount token deliveryDeadline buyer signature : JsVal)
| FundEscrow (escrowId buyer signature : JsVal)
| ConfirmDelivery (escrowId buyer signature : JsVal)
| StoreDocument (escrowId documentHash seller signature : JsVal).

(** The service method each endpoint hands its request to. *)
Definition relay (w : World) (env : Env) (req : RelayRequest) : M RelayResult :=
  match req with
  | CreateEscrow seller amount token deadline buyer signature =>
      relayCreateEscrow w env seller amount token deadline buyer signature
  | FundEscrow id buyer signature => relayFundEscrow w env id buyer signature
  | ConfirmDelivery id buyer signature => relayConfirmDelivery w env id buyer signature
  | StoreDocument id hash seller signature =>
      relayStoreDocument w env id hash seller signature
  end.

(** The address whose nonce and signature the request is checked against. *)
Definition actor (req : RelayRequest) : JsVal :=
  match req with
  | CreateEscrow _ _ _ _ buyer _ => buyer
  | FundEscrow _ buyer _ => buyer
  | ConfirmDelivery _ buyer _ => buyer
  | StoreDocument _ _ seller _ => seller
  end.

Definition signatureOf (req : RelayRequest) : JsVal :=
  match req with
  | CreateEscrow _ _ _ _ _ s => s
  | FundEscrow _ _ s => s
  | ConfirmDelivery _ _ s => s
  | StoreDocument _ _ _ s => s
  end.

(** ** Reading traces *)

Definition is_write (c : Call) : bool :=
  match c with WriteContract _ => true | _ => false end.


Definition is_preflight_read (c : Call) : bool :=
  match c with
  | ReadEscrowDetails _ | ReadBalanceOf _ | ReadAllowance _ _ | GetBalance => true
  | _ => false
  end.

(** Number of on-chain writes in a trace. *)
Definition submissions (tr : list Call) : nat := length (List.filter is_write tr).

(** ** A concrete world

    A chain on which every call succeeds: the actor's nonce is
    [chainNonce], a 65-byte signature verifies exactly when the rebuilt
    message carries nonce [signedNonce], recovery throws on any other
    signature, and the receipt holds [receiptLogs]. *)

Definition sampleHash : string :=
  "0x9f2c51d2a8f0c7e4b3a1d6e5f4c3b2a1908f7e6d5c4b3a291807f6e5d4c3b2a1".

Definition sampleEscrow (amount : Z) : EscrowDetails :=
  {| escrowBuyer := "0x70997970C51812dc3A010C7d01b50e0d17dc79C8";
     escrowSeller := "0x3C44CdDdB6a900fa2b585dd299e03d12FA4293BC";
     escrowAmount := amount; escrowDeadline := 1900000000; escrowStatus := 0;
     escrowToken := "0x5FbDB2315678afecb367f032d93F642f64180aa3";
     fundedAt := 0; settledAt := 0; disputeResolved := false |}.

Definition sampleBigInt (v : JsVal) : result Z :=
  match v with
  | JStr s => from_option Ok (Throw (MkError "SyntaxError" "Cannot convert to a BigInt"))
                          (digits_value s 0)
  | JNum x => BigInt_floor x
  | _ => Throw (TypeError "Cannot convert to a BigInt")
  end.

Definition sampleGetAddress (v : JsVal) : result string :=
  match v with
  | JStr s => if is_address s then Ok s else Throw (Error "InvalidAddressError")
  | _ => Throw (Error "InvalidAddressError")
  end.

Definition sampleWorld (chainNonce signedNonce relayerBalance escrowAmt userBalance
    userAllowance : Z) (receiptLogs : list Log) : World :=
  {| readNonces := fun _ => Ok chainNonce;
     readEscrowDetails := fun _ => Ok (sampleEscrow escrowAmt);
     readBalanceOf := fun _ => Ok userBalance;
     readAllowance := fun _ _ => Ok userAllowance;
     getBalance := Ok relayerBalance;
     estimateContractGas := fun _ _ => Ok 150000;
     getGasPrice := Ok 20000000000;
     simulateContract := fun c => Ok c;
     writeContract := fun _ => Ok sampleHash;
     waitForTransactionReceipt := fun h =>
       Ok {| transactionHash := h; gasUsed := 120000; logs := receiptLogs |};
     verifyTypedData := fun _ _ m s =>
       match bad_hex_format s 132 with
       | Ok false => Ok (messageNonce m =? signedNonce)
       | _ => Throw (Error "invalid signature length")
       end;
     getAddress := sampleGetAddress;
     BigInt := sampleBigInt;
     keccak256 := fun _ => "0x5a1c0f1e5d3b2a4968778695a4b3c2d1e0f1a2b3c4d5e6f708192a3b4c5d6e7f";
     date_now := 1700000000000;
     now_iso := "2023-11-14T22:13:20.000Z";
     uptime := 12%float |}.

Definition sampleEnv : Env :=
  {| CHAIN_ID := 31337;
     ESCROW_CONTRACT := "0xe7f1725E7734CE288F8367e1Bb143E90bb3F0512";
     RELAYER_CONTRACT := "0x9fE46736679d2D9a65F0992F2272dE9f3c7fa6e0";
     USDC_CONTRACT := "0x5FbDB2315678afecb367f032d93F642f64180aa3";
     API_KEY := None; RATE_LIMIT := None; GAS_PRICE_MULTIPLIER := None |}.

(** A chain in good standing: nonce 7, matching signatures, a funded
    relayer and a buyer holding and allowing more than the escrow amount. *)
Definition goodWorld : World :=
  sampleWorld 7 7 1000000000000000000 1000000000 5000000000 5000000000 [].

Definition sig65 : string :=
  "0x1b2a3c4d5e6f708192a3b4c5d6e7f8091a2b3c4d5e6f708192a3b4c5d6e7f8091a2b3c4d5e6f708192a3b4c5d6e7f8091a2b3c4d5e6f708192a3b4c5d6e7f8091c".

Definition sampleId : string :=
  "0x3d5a1f0e9c8b7a695847362514f0e1d2c3b4a5968778695a4b3c2d1e0f9e8d7c".

Definition buyerAddr : string := "0x70997970C51812dc3A010C7d01b50e0d17dc79C8".
Definition sellerAddr : string := "0x3C44CdDdB6a900fa2b585dd299e03d12FA4293BC".
Definition tokenAddr : string := "0x5FbDB2315678afecb367f032d93F642f64180aa3".

Definition sampleCreate : RelayRequest :=
  CreateEscrow (JStr sellerAddr) (JStr "1000000000") (JStr tokenAddr)
               (JNum 1900000000%float) (JStr buyerAddr) (JStr sig65).
Definition sampleFund : RelayRequest :=
  FundEscrow (JStr sampleId) (JStr buyerAddr) (JStr sig65).
Definition sampleConfirm : RelayRequest :=
  ConfirmDelivery (JStr sampleId) (JStr buyerAddr) (JStr sig65).
Definition sampleStore : RelayRequest :=
  StoreDocument (JStr sampleId) (JStr sampleHash) (JStr sellerAddr) (JStr sig65).

(** ** Replay protection *)

(** A signature commits to the nonce it was made over: for one signer it
    never verifies against two messages that carry different nonces. *)
Definition nonce_binding (w : World) : Prop :=
  forall a d m1 m2 s,
    verifyTypedData w a d m1 s = Ok true ->
    verifyTypedData w a d m2 s = Ok true ->
    messageNonce m1 = messageNonce m2.

(** The signature of [req] was produced by its actor over nonce [N]. *)
Definition signed_over_nonce (w : World) (env : Env) (req : RelayRequest) (N : Z) : Prop :=
  exists m, messageNonce m = N
            /\ verifyTypedData w (actor req) (domain env) m (signatureOf req) = Ok true.

(** A world with a stale signature: the chain's nonce is 8, the signature
    was made over nonce 7. *)
Definition staleWorld : World :=
  sampleWorld 8 7 1000000000000000000 1000000000 5000000000 5000000000 [].

(** ** The steps before submission, stated apart from the code *)

Definition methodName (req : RelayRequest) : string :=
  match req with
  | CreateEscrow _ _ _ _ _ _ => "relayCreateEscrow"
  | FundEscrow _ _ _ => "relayFundEscrow"
  | ConfirmDelivery _ _ _ => "relayConfirmDelivery"
  | StoreDocument _ _ _ _ => "relayStoreDocument"
  end.

Definition params (req : RelayRequest) : list JsVal :=
  match req with
  | CreateEscrow seller amount token deadline buyer signature =>
      [seller; amount; token; deadline; buyer; signature]
  | FundEscrow id buyer signature => [id; buyer; signature]
  | ConfirmDelivery id buyer signature => [id; buyer; signature]
  | StoreDocument id hash seller signature => [id; hash; seller; signature]
  end.






(** A relayer holding 0.005 ETH. *)
Definition poorRelayerWorld : World :=
  sampleWorld 7 7 5000000000000000 1000000000 5000000000 5000000000 [].

(** ** Serving several requests *)

(** Requests handled one after the other by the same process: the
    limiter's state is carried from each to the next. *)
Fixpoint serve (w : World) (env : Env) (st : gmap string LimiterRecord)
    (reqs : list Request) : list Response * gmap string LimiterRecord :=
  match reqs with
  | [] => ([], st)
  | req :: rest =>
      let '(res, _, st') := app w env st req in
      let '(rs, st'') := serve w env st' rest in
      (res :: rs, st'')
  end.

Definition healthRequest : Request :=
  {| reqMethod := "GET"; reqPath := "/health"; reqHeaders := ∅;
     reqIp := "203.0.113.9"; reqBody := ∅ |}.

(** An environment that requires an API key. *)
Definition keyedEnv : Env :=
  {| CHAIN_ID := 31337;
     ESCROW_CONTRACT := "0xe7f1725E7734CE288F8367e1Bb143E90bb3F0512";
     RELAYER_CONTRACT := "0x9fE46736679d2D9a65F0992F2272dE9f3c7fa6e0";
     USDC_CONTRACT := "0x5FbDB2315678afecb367f032d93F642f64180aa3";
     API_KEY := Some "s3cret"; RATE_LIMIT := None; GAS_PRICE_MULTIPLIER := None |}.

(** ** The escrow-created event *)



Definition createdLog : Log :=
  {| logAddress := "0xe7f1725E7734CE288F8367e1Bb143E90bb3F0512";
     topics := ["0x5a1c0f1e5d3b2a4968778695a4b3c2d1e0f1a2b3c4d5e6f708192a3b4c5d6e7f";
                sampleId;
                "0x00000000000000000000000070997970c51812dc3a010c7d01b50e0d17dc79c8"];
     logData := "0x" |}.

Definition otherLog : Log :=
  {| logAddress := "0x9fE46736679d2D9a65F0992F2272dE9f3c7fa6e0";
     topics := ["0x8c5be1e5ebec7d5bd14f71427d1e84f3dd0314c0f7b2291e5b200ac8c7c3b925"];
     logData := "0x" |}.

(** A chain whose receipt carries the event after another log. *)
Definition eventWorld : World :=
  sampleWorld 7 7 1000000000000000000 1000000000 5000000000 5000000000
              [otherLog; createdLog].


(** ** Identifiers *)

(** An escrow id one hex digit short of 32 bytes. *)
Definition shortId : string :=
  "0x3d5a1f0e9c8b7a695847362514f0e1d2c3b4a5968778695a4b3c2d1e0f9e8d7".

(** ** The POST endpoints *)

Inductive Endpoint :=
| CreateEscrowEndpoint
| FundEscrowEndpoint
| ConfirmDeliveryEndpoint
| StoreDocumentEndpoint.

Definition handler (w : World) (env : Env) (ep : Endpoint)
    : gmap string JsVal -> M Response :=
  match ep with
  | CreateEscrowEndpoint => createEscrowHandler w env
  | FundEscrowEndpoint => fundEscrowHandler w env
  | ConfirmDeliveryEndpoint => confirmDeliveryHandler w env
  | StoreDocumentEndpoint => storeDocumentHandler w env
  end.

(** The fields each handler tests before calling the service. *)
Definition required (ep : Endpoint) : list string :=
  match ep with
  | CreateEscrowEndpoint =>
      ["seller"; "amount"; "token"; "deliveryDeadline"; "buyer"; "signature"]
  | FundEscrowEndpoint => ["escrowId"; "buyer"; "signature"]
  | ConfirmDeliveryEndpoint => ["escrowId"; "buyer"; "signature"]
  | StoreDocumentEndpoint => ["escrowId"; "documentHash"; "seller"; "signature"]
  end.

Definition endpointPath (ep : Endpoint) : string :=
  match ep with
  | CreateEscrowEndpoint => "/relay/create-escrow"
  | FundEscrowEndpoint => "/relay/fund-escrow"
  | ConfirmDeliveryEndpoint => "/relay/confirm-delivery"
  | StoreDocumentEndpoint => "/relay/store-document"
  end.

Definition postRequest (ep : Endpoint) (body : gmap string JsVal) : Request :=
  {| reqMethod := "POST"; reqPath := endpointPath ep; reqHeaders := ∅;
     reqIp := "203.0.113.9"; reqBody := body |}.

Definition createBody : gmap string JsVal :=
  list_to_map [ ("seller", JStr sellerAddr); ("amount", JNum 0%float);
                ("token", JStr tokenAddr); ("deliveryDeadline", JNum 1900000000%float);
                ("buyer", JStr buyerAddr); ("signature", JStr sig65) ].

Definition storeBody : gmap string JsVal :=
  list_to_map [ ("escrowId", JStr ""); ("documentHash", JStr sampleHash);
                ("seller", JStr sellerAddr); ("signature", JStr sig65) ].

(** ** From a body to a service request *)

(** The arguments each handler passes to its service method. *)
Definition requestOf (ep : Endpoint) (body : gmap string JsVal) : RelayRequest :=
  match ep with
  | CreateEscrowEndpoint =>
      CreateEscrow (field body "seller") (field body "amount") (field body "token")
                   (field body "deliveryDeadline") (field body "buyer")
                   (field body "signature")
  | FundEscrowEndpoint =>
      FundEscrow (field body "escrowId") (field body "buyer") (field body "signature")
  | ConfirmDeliveryEndpoint =>
      ConfirmDelivery (field body "escrowId") (field body "buyer") (field body "signature")
  | StoreDocumentEndpoint =>
      StoreDocument (field body "escrowId") (field body "documentHash")
                    (field body "seller") (field body "signature")
  end.

(** What a handler answers for an outcome of the service. *)
Definition relayResponse (outcome : result RelayResult) : Response :=
  match outcome with
  | Ok r => json (RelayBody r)
  | Throw e => status_json 500 (ErrorDetailsBody "Failed to relay transaction" (errMessage e))
  end.

Definition fundBody : gmap string JsVal :=
  list_to_map [ ("escrowId", JStr sampleId); ("buyer", JStr buyerAddr);
                ("signature", JStr sig65) ].

(** ** The limiter over time *)

(** [consume] for one key at the successive times [ts]. *)
Fixpoint consume_all (env : Env) (st : gmap string LimiterRecord) (key : string)
    (ts : list Z) : list LimiterVerdict * gmap string LimiterRecord :=
  match ts with
  | [] => ([], st)
  | t :: rest =>
      let '(v, st') := consume env st key t in
      let '(vs, st'') := consume_all env st' key rest in
      (v :: vs, st'')
  end.

(** The verdict of the [i]-th request of a window that expires at [exp]. *)
Definition window_verdict (env : Env) (exp : Z) (i : nat) (t : Z) : LimiterVerdict :=
  if (i <? limiterPoints env)%nat then Resolved else Rejected (exp - t).

Definition otherIpRequest : Request :=
  {| reqMethod := "POST"; reqPath := "/relay/fund-escrow"; reqHeaders := ∅;
     reqIp := "198.51.100.7"; reqBody := fundBody |}.

(** The path is of the route [/nonce/:address] and its parameter does not
    decode. *)
Definition undecodable (path : string) : Prop :=
  exists seg e, nonce_route_segment path = Some seg /\ decodeURIComponent seg = Throw e.

Definition is_malformed (x : Incoming) : bool :=
  match x with
  | Malformed _ _ _ _ => true
  | Accepted _ => false
  end.

(** What [cors()] answers to a preflight. *)
Definition no_content : Response := {| statusCode := 204; responseBody := EmptyBody |}.

(** A preflight for a relay endpoint, without API key. *)
Definition preflightRequest : Request :=
  {| reqMethod := "OPTIONS"; reqPath := "/relay/fund-escrow"; reqHeaders := ∅;
     reqIp := "203.0.113.9"; reqBody := ∅ |}.

(** A nonce request whose parameter is a bad escape, and one whose
    parameter is the buyer's address with its first digits escaped. *)
Definition badEscapeRequest : Request :=
  {| reqMethod := "GET"; reqPath := "/nonce/%zz"; reqHeaders := ∅;
     reqIp := "203.0.113.9"; reqBody := ∅ |}.

Definition escapedNonceRequest : Request :=
  {| reqMethod := "GET";
     reqPath := "/nonce/%30x%37%30997970C51812dc3A010C7d01b50e0d17dc79C8";
     reqHeaders := ∅; reqIp := "203.0.113.9"; reqBody := ∅ |}.

(** A window of the limiter in which the client has used its 100 points. *)
Definition fullWindow : gmap string LimiterRecord :=
  {[ "203.0.113.9" := {| consumedPoints := 100; expiresAt := 1700003600000 |} ]}.

(** The condition under which the API-key middleware answers itself: a
    non-empty key is configured and the [x-api-key] header is not it. *)
Definition wrong_api_key (env : Env) (req : Request) : Prop :=
  exists key, API_KEY env = Some key /\ key <> ""
              /\ reqHeaders req !! "x-api-key" <> Some key.

Definition keylessFundRequest : Request :=
  {| reqMethod := "POST"; reqPath := "/relay/fund-escrow"; reqHeaders := ∅;
     reqIp := "203.0.113.9"; reqBody := fundBody |}.

(** No record of the limiter expires more than one window after [now]. *)
Definition limiter_wf (st : gmap string LimiterRecord) (now : Z) : Prop :=
  forall key r, st !! key = Some r -> expiresAt r <= now + duration * 1000.

(** The strings [/^0x[a-fA-F0-9]{40}$/] matches. *)
Definition hex_address (s : string) : Prop :=
  exists h, s = String.append "0x" h /\ String.length h = 40%nat /\ all_hex h = true.

(** The calls that spend resources on a request: everything but the nonce
    read and the signature verification. *)
Definition after_verification (c : Call) : bool :=
  match c with
  | ReadNonces _ | VerifyTypedData _ _ _ => false
  | _ => true
  end.

(** An environment whose gas price multiplier is not a number, as when the
    variable holds text. *)
Definition nanEnv : Env :=
  {| CHAIN_ID := 31337;
     ESCROW_CONTRACT := "0xe7f1725E7734CE288F8367e1Bb143E90bb3F0512";
     RELAYER_CONTRACT := "0x9fE46736679d2D9a65F0992F2272dE9f3c7fa6e0";
     USDC_CONTRACT := "0x5FbDB2315678afecb367f032d93F642f64180aa3";
     API_KEY := None; RATE_LIMIT := None; GAS_PRICE_MULTIPLIER := Some nan |}.

Definition is_simulate (c : Call) : bool :=
  match c with SimulateContract _ => true | _ => false end.

Definition is_string (v : JsVal) : bool :=
  match v with JStr _ => true | _ => false end.

(** ** The contracts ([LiskEscrow.sol], [EscrowRelayer.sol], [MockUSDC.sol])

    One state holds the storage of the three contracts.  A transaction is
    a function from the caller, the block time and the state to an
    [outcome]: the new state, or a revert that leaves the state as it was.
    Addresses, [bytes32] values and [uint256] values are integers.

    Taken from outside the repository: the OpenZeppelin contracts the
    sources inherit ([ERC20], [SafeERC20], [Ownable], [ECDSA], [EIP712]).
    Every token is an [ERC20] of that kind, as [MockUSDC] is, so a token
    transfer never calls back and [nonReentrant] never fires.  Hashing and
    signature recovery are oracles of the [Deployment].
    [MockUSDC.approveAndCall], which performs an arbitrary call, is not
    modelled. *)
Module Contracts.

Definition MAX_UINT256 : Z := 2 ^ 256 - 1.

Inductive outcome (A : Type) :=
| Done (a : A)
| Revert (reason : string).
Arguments Done {A} a.
Arguments Revert {A} reason.

#[global] Instance outcome_ret : MRet outcome := fun A a => Done a.

#[global] Instance outcome_bind : MBind outcome := fun A B f m =>
  match m with
  | Done a => f a
  | Revert reason => Revert reason
  end.

(** [require(c, reason)] *)
Definition require (c : bool) (reason : string) : outcome unit :=
  if c then Done tt else Revert reason.

(** Checked addition of Solidity 0.8. *)
Definition checked_add (a b : Z) : outcome Z :=
  if a + b <=? MAX_UINT256 then Done (a + b) else Revert "Panic(0x11)".

Inductive EscrowStatus :=
| CREATED
| FUNDED
| DOCUMENTS_PENDING
| SETTLED
| CANCELLED
| DISPUTED.

#[global] Instance EscrowStatus_eq_dec : EqDecision EscrowStatus.
Proof. solve_decision. Defined.

Record Escrow := {
  buyer : Z;
  seller : Z;
  amount : Z;
  deliveryDeadline : Z;
  status : EscrowStatus;
  token : Z;
  createdAt : Z;
  fundedAt : Z;
  documentsUploaded : bool;
}.

(** The value of an unset [escrows] entry. *)
Definition zeroEscrow : Escrow :=
  {| buyer := 0; seller := 0; amount := 0; deliveryDeadline := 0; status := CREATED;
     token := 0; createdAt := 0; fundedAt := 0; documentsUploaded := false |}.

Inductive Event :=
| EscrowCreated (escrowId buyer seller amount deliveryDeadline : Z)
| EscrowFunded (escrowId timestamp : Z)
| DocumentsUploaded (escrowId documentHash timestamp : Z)
| DeliveryConfirmed (escrowId timestamp : Z)
| PaymentReleased (escrowId recipient amount : Z)
| EscrowCancelled (escrowId : Z)
| DisputeInitiated (escrowId initiator : Z) (reason : string)
| RelayerAuthorized (relayer : Z)
| RelayerRevoked (relayer : Z)
| TransactionRelayed (user : Z) (action : string).

(** The struct a meta-transaction signature is made over, one per type
    hash. *)
Inductive MetaMessage :=
| CreateEscrowData (seller amount token deliveryDeadline nonce : Z)
| FundEscrowData (escrowId nonce : Z)
| ConfirmDeliveryData (escrowId nonce : Z)
| StoreDocumentData (escrowId documentHash nonce : Z).

Definition dataNonce (m : MetaMessage) : Z :=
  match m with
  | CreateEscrowData _ _ _ _ n => n
  | FundEscrowData _ n => n
  | ConfirmDeliveryData _ n => n
  | StoreDocumentData _ _ n => n
  end.

(** Storage of an [ERC20] with the additions of [MockUSDC]. *)
Record Token := {
  balances : gmap Z Z;
  allowances : gmap (Z * Z) Z;
  totalSupply : Z;
  lastFaucetClaim : gmap Z Z;
  tokenOwner : Z;
}.

Record State := {
  escrows : gmap Z Escrow;
  escrowDocuments : gmap Z (list Z);
  disputeReasons : gmap Z string;
  nonces : gmap Z Z;
  trustedForwarder : Z;
  owner : Z;
  relayerOwner : Z;
  authorizedRelayers : gmap Z bool;
  tokens : gmap Z Token;
  events : list Event;
}.

(** Where the contracts live and what their cryptography computes:
    [escrowIdOf] is [keccak256(abi.encodePacked(buyer, seller, amount,
    block.timestamp))], [recoverSigner] is [ECDSA.recover] of the EIP-712
    digest of a struct ([None] when recovery reverts). *)
Record Deployment := {
  escrowAddress : Z;
  relayerAddress : Z;
  escrowIdOf : Z -> Z -> Z -> Z -> Z;
  recoverSigner : MetaMessage -> string -> option Z;
}.

(** *** Storage reads and writes *)

Definition escrowOf (st : State) (id : Z) : Escrow := default zeroEscrow (escrows st !! id).
Definition nonceOf (st : State) (a : Z) : Z := default 0 (nonces st !! a).
Definition documentsOf (st : State) (id : Z) : list Z := default [] (escrowDocuments st !! id).
Definition isAuthorized (st : State) (a : Z) : bool := default false (authorizedRelayers st !! a).
Definition balanceOf (tk : Token) (a : Z) : Z := default 0 (balances tk !! a).
Definition allowance (tk : Token) (holder spender : Z) : Z :=
  default 0 (allowances tk !! (holder, spender)).
Definition lastClaimOf (tk : Token) (a : Z) : Z := default 0 (lastFaucetClaim tk !! a).

Definition set_escrow (st : State) (id : Z) (e : Escrow) : State :=
  {| escrows := <[id := e]> (escrows st); escrowDocuments := escrowDocuments st;
     disputeReasons := disputeReasons st; nonces := nonces st;
     trustedForwarder := trustedForwarder st; owner := owner st;
     relayerOwner := relayerOwner st; authorizedRelayers := authorizedRelayers st;
     tokens := tokens st; events := events st |}.

Definition set_documents (st : State) (id : Z) (docs : list Z) : State :=
  {| escrows := escrows st; escrowDocuments := <[id := docs]> (escrowDocuments st);
     disputeReasons := disputeReasons st; nonces := nonces st;
     trustedForwarder := trustedForwarder st; owner := owner st;
     relayerOwner := relayerOwner st; authorizedRelayers := authorizedRelayers st;
     tokens := tokens st; events := events st |}.

Definition set_disputeReason (st : State) (id : Z) (reason : string) : State :=
  {| escrows := escrows st; escrowDocuments := escrowDocuments st;
     disputeReasons := <[id := reason]> (disputeReasons st); nonces := nonces st;
     trustedForwarder := trustedForwarder st; owner := owner st;
     relayerOwner := relayerOwner st; authorizedRelayers := authorizedRelayers st;
     tokens := tokens st; events := events st |}.

Definition set_nonce (st : State) (a n : Z) : State :=
  {| escrows := escrows st; escrowDocuments := escrowDocuments st;
     disputeReasons := disputeReasons st; nonces := <[a := n]> (nonces st);
     trustedForwarder := trustedForwarder st; owner := owner st;
     relayerOwner := relayerOwner st; authorizedRelayers := authorizedRelayers st;
     tokens := tokens st; events := events st |}.

Definition set_trustedForwarder (st : State) (a : Z) : State :=
  {| escrows := escrows st; escrowDocuments := escrowDocuments st;
     disputeReasons := disputeReasons st; nonces := nonces st;
     trustedForwarder := a; owner := owner st;
     relayerOwner := relayerOwner st; authorizedRelayers := authorizedRelayers st;
     tokens := tokens st; events := events st |}.

Definition set_owner (st : State) (a : Z) : State :=
  {| escrows := escrows st; escrowDocuments := escrowDocuments st;
     disputeReasons := disputeReasons st; nonces := nonces st;
     trustedForwarder := trustedForwarder st; owner := a;
     relayerOwner := relayerOwner st; authorizedRelayers := authorizedRelayers st;
     tokens := tokens st; events := events st |}.

Definition set_relayerOwner (st : State) (a : Z) : State :=
  {| escrows := escrows st; escrowDocuments := escrowDocuments st;
     disputeReasons := disputeReasons st; nonces := nonces st;
     trustedForwarder := trustedForwarder st; owner := owner st;
     relayerOwner := a; authorizedRelayers := authorizedRelayers st;
     tokens := tokens st; events := events st |}.

Definition set_authorized (st : State) (a : Z) (b : bool) : State :=
  {| escrows := escrows st; escrowDocuments := escrowDocuments st;
     disputeReasons := disputeReasons st; nonces := nonces st;
     trustedForwarder := trustedForwarder st; owner := owner st;
     relayerOwner := relayerOwner st;
     authorizedRelayers := <[a := b]> (authorizedRelayers st);
     tokens := tokens st; events := events st |}.

Definition set_token (st : State) (tok : Z) (tk : Token) : State :=
  {| escrows := escrows st; escrowDocuments := escrowDocuments st;
     disputeReasons := disputeReasons st; nonces := nonces st;
     trustedForwarder := trustedForwarder st; owner := owner st;
     relayerOwner := relayerOwner st; authorizedRelayers := authorizedRelayers st;
     tokens := <[tok := tk]> (tokens st); events := events st |}.

Definition emit (st : State) (ev : Event) : State :=
  {| escrows := escrows st; escrowDocuments := escrowDocuments st;
     disputeReasons := disputeReasons st; nonces := nonces st;
     trustedForwarder := trustedForwarder st; owner := owner st;
     relayerOwner := relayerOwner st; authorizedRelayers := authorizedRelayers st;
     tokens := tokens st; events := (events st ++ [ev])%list |}.

Definition with_status (e : Escrow) (s : EscrowStatus) : Escrow :=
  {| buyer := buyer e; seller := seller e; amount := amount e;
     deliveryDeadline := deliveryDeadline e; status := s; token := token e;
     createdAt := createdAt e; fundedAt := fundedAt e;
     documentsUploaded := documentsUploaded e |}.

Definition with_fundedAt (e : Escrow) (t : Z) : Escrow :=
  {| buyer := buyer e; seller := seller e; amount := amount e;
     deliveryDeadline := deliveryDeadline e; status := status e; token := token e;
     createdAt := createdAt e; fundedAt := t;
     documentsUploaded := documentsUploaded e |}.

Definition with_documentsUploaded (e : Escrow) (b : bool) : Escrow :=
  {| buyer := buyer e; seller := seller e; amount := amount e;
     deliveryDeadline := deliveryDeadline e; status := status e; token := token e;
     createdAt := createdAt e; fundedAt := fundedAt e;
     documentsUploaded := b |}.

(** *** [ERC20] and [MockUSDC] *)

Definition set_balances (tk : Token) (m : gmap Z Z) : Token :=
  {| balances := m; allowances := allowances tk; totalSupply := totalSupply tk;
     lastFaucetClaim := lastFaucetClaim tk; tokenOwner := tokenOwner tk |}.

(** [_transfer(from, to, value)] *)
Definition erc20_transfer (tk : Token) (from to value : Z) : outcome Token :=
  require (negb (from =? 0)) "ERC20InvalidSender";;
  require (negb (to =? 0)) "ERC20InvalidReceiver";;
  require (value <=? balanceOf tk from) "ERC20InsufficientBalance";;
  let debited := <[from := balanceOf tk from - value]> (balances tk) in
  let credited := <[to := default 0 (debited !! to) + value]> debited in
  mret (set_balances tk credited).

(** [_approve(holder, spender, value)] *)
Definition erc20_approve (tk : Token) (holder spender value : Z) : outcome Token :=
  require (negb (holder =? 0)) "ERC20InvalidApprover";;
  require (negb (spender =? 0)) "ERC20InvalidSpender";;
  mret {| balances := balances tk;
          allowances := <[(holder, spender) := value]> (allowances tk);
          totalSupply := totalSupply tk; lastFaucetClaim := lastFaucetClaim tk;
          tokenOwner := tokenOwner tk |}.

(** [transferFrom(from, to, value)] called by [spender]: an allowance of
    [type(uint256).max] is not spent. *)
Definition erc20_transferFrom (tk : Token) (spender from to value : Z) : outcome Token :=
  tk1 ← (if allowance tk from spender <? MAX_UINT256
         then require (value <=? allowance tk from spender) "ERC20InsufficientAllowance";;
              erc20_approve tk from spender (allowance tk from spender - value)
         else mret tk);
  erc20_transfer tk1 from to value.

(** [_mint(account, value)] *)
Definition erc20_mint (tk : Token) (account value : Z) : outcome Token :=
  require (negb (account =? 0)) "ERC20InvalidReceiver";;
  supply ← checked_add (totalSupply tk) value;
  mret {| balances := <[account := balanceOf tk account + value]> (balances tk);
          allowances := allowances tk; totalSupply := supply;
          lastFaucetClaim := lastFaucetClaim tk; tokenOwner := tokenOwner tk |}.

Definition FAUCET_AMOUNT : Z := 1000 * 10 ^ 6.
Definition FAUCET_COOLDOWN : Z := 86400.
Definition decimals : Z := 6.

(** The storage [MockUSDC]'s constructor leaves. *)
Definition mockUSDC_deployed (deployer : Z) : Token :=
  {| balances := {[deployer := 1000000 * 10 ^ 6]}; allowances := ∅;
     totalSupply := 1000000 * 10 ^ 6; lastFaucetClaim := ∅; tokenOwner := deployer |}.

Definition faucet (sender now : Z) (tk : Token) : outcome Token :=
  due ← checked_add (lastClaimOf tk sender) FAUCET_COOLDOWN;
  require (due <=? now) "Faucet cooldown not met";;
  erc20_mint {| balances := balances tk; allowances := allowances tk;
                totalSupply := totalSupply tk;
                lastFaucetClaim := <[sender := now]> (lastFaucetClaim tk);
                tokenOwner := tokenOwner tk |}
             sender FAUCET_AMOUNT.

Definition mint (sender : Z) (to value : Z) (tk : Token) : outcome Token :=
  require (sender =? tokenOwner tk) "OwnableUnauthorizedAccount";;
  erc20_mint tk to value.

(** [token.safeTransfer(to, value)] and [token.safeTransferFrom(from, to,
    value)] issued by the escrow contract. *)
Definition safeTransfer (d : Deployment) (st : State) (tok to value : Z) : outcome State :=
  match tokens st !! tok with
  | None => Revert "AddressEmptyCode"
  | Some tk =>
      tk' ← erc20_transfer tk (escrowAddress d) to value;
      mret (set_token st tok tk')
  end.

Definition safeTransferFrom (d : Deployment) (st : State) (tok from to value : Z)
    : outcome State :=
  match tokens st !! tok with
  | None => Revert "AddressEmptyCode"
  | Some tk =>
      tk' ← erc20_transferFrom tk (escrowAddress d) from to value;
      mret (set_token st tok tk')
  end.

(** *** [LiskEscrow] *)

Definition createEscrow (d : Deployment) (sender now : Z)
    (_seller _amount _token _deliveryDeadline : Z) (st : State) : outcome (Z * State) :=
  require (negb (_seller =? 0)) "Invalid seller address";;
  require (negb (_seller =? sender)) "Cannot escrow with yourself";;
  require (0 <? _amount) "Amount must be greater than 0";;
  require (now <? _deliveryDeadline) "Deadline must be in future";;
  let escrowId := escrowIdOf d sender _seller _amount now in
  require (buyer (escrowOf st escrowId) =? 0) "Escrow already exists";;
  let st1 := set_escrow st escrowId
               {| buyer := sender; seller := _seller; amount := _amount;
                  deliveryDeadline := _deliveryDeadline; status := CREATED;
                  token := _token; createdAt := now; fundedAt := 0;
                  documentsUploaded := false |} in
  mret (escrowId, emit st1 (EscrowCreated escrowId sender _seller _amount _deliveryDeadline)).

Definition fundEscrow (d : Deployment) (sender now _escrowId : Z) (st : State)
    : outcome State :=
  let escrow := escrowOf st _escrowId in
  require (buyer escrow =? sender) "Only buyer can fund";;
  require (bool_decide (status escrow = CREATED)) "Invalid escrow status";;
  require (now <=? deliveryDeadline escrow) "Deadline has passed";;
  st1 ← safeTransferFrom d st (token escrow) sender (escrowAddress d) (amount escrow);
  let st2 := set_escrow st1 _escrowId
               (with_fundedAt (with_status (escrowOf st1 _escrowId) FUNDED) now) in
  mret (emit st2 (EscrowFunded _escrowId now)).

Definition storeDocumentHash (sender now _escrowId _documentHash : Z) (st : State)
    : outcome State :=
  let escrow := escrowOf st _escrowId in
  require (seller escrow =? sender) "Only seller can upload documents";;
  require (bool_decide (status escrow = FUNDED)
           || bool_decide (status escrow = DOCUMENTS_PENDING))
          "Invalid escrow status for document upload";;
  require (negb (_documentHash =? 0)) "Invalid document hash";;
  let st1 := set_documents st _escrowId (documentsOf st _escrowId ++ [_documentHash])%list in
  let st2 := if documentsUploaded escrow then st1
             else set_escrow st1 _escrowId
                    (with_status (with_documentsUploaded escrow true) DOCUMENTS_PENDING) in
  mret (emit st2 (DocumentsUploaded _escrowId _documentHash now)).

Definition confirmDelivery (d : Deployment) (sender now _escrowId : Z) (st : State)
    : outcome State :=
  let escrow := escrowOf st _escrowId in
  require (buyer escrow =? sender) "Only buyer can confirm";;
  require (bool_decide (status escrow = DOCUMENTS_PENDING)) "Invalid status";;
  let st1 := set_escrow st _escrowId (with_status escrow SETTLED) in
  st2 ← safeTransfer d st1 (token escrow) (seller escrow) (amount escrow);
  mret (emit (emit st2 (DeliveryConfirmed _escrowId now))
             (PaymentReleased _escrowId (seller escrow) (amount escrow))).

Definition initiateDispute (sender _escrowId : Z) (_reason : string) (st : State)
    : outcome State :=
  let escrow := escrowOf st _escrowId in
  require ((buyer escrow =? sender) || (seller escrow =? sender))
          "Only buyer or seller can dispute";;
  require (bool_decide (status escrow = FUNDED)
           || bool_decide (status escrow = DOCUMENTS_PENDING))
          "Cannot dispute in current status";;
  let st1 := set_escrow st _escrowId (with_status escrow DISPUTED) in
  let st2 := set_disputeReason st1 _escrowId _reason in
  mret (emit st2 (DisputeInitiated _escrowId sender _reason)).

Definition cancelEscrow (sender _escrowId : Z) (st : State) : outcome State :=
  let escrow := escrowOf st _escrowId in
  require ((buyer escrow =? sender) || (seller escrow =? sender))
          "Only buyer or seller can cancel";;
  require (bool_decide (status escrow = CREATED)) "Can only cancel before funding";;
  let st1 := set_escrow st _escrowId (with_status escrow CANCELLED) in
  mret (emit st1 (EscrowCancelled _escrowId)).

Definition resolveDispute (d : Deployment) (sender _escrowId : Z) (_refundBuyer : bool)
    (st : State) : outcome State :=
  require (sender =? owner st) "OwnableUnauthorizedAccount";;
  let escrow := escrowOf st _escrowId in
  require (bool_decide (status escrow = DISPUTED)) "Not in dispute";;
  let st1 := set_escrow st _escrowId (with_status escrow SETTLED) in
  if _refundBuyer
  then
    st2 ← safeTransfer d st1 (token escrow) (buyer escrow) (amount escrow);
    mret (emit st2 (PaymentReleased _escrowId (buyer escrow) (amount escrow)))
  else
    st2 ← safeTransfer d st1 (token escrow) (seller escrow) (amount escrow);
    mret (emit st2 (PaymentReleased _escrowId (seller escrow) (amount escrow))).

Definition getEscrowDetails (st : State) (_escrowId : Z)
    : Z * Z * Z * Z * EscrowStatus * Z * Z * Z * bool :=
  let escrow := escrowOf st _escrowId in
  (buyer escrow, seller escrow, amount escrow, deliveryDeadline escrow, status escrow,
   token escrow, createdAt escrow, fundedAt escrow, documentsUploaded escrow).

Definition getDocumentHashes (st : State) (_escrowId : Z) : list Z :=
  documentsOf st _escrowId.

(** [hash.recover(_signature)] on the struct [data], then
    [require(signer == actor, "Invalid signature")]. *)
Definition requireSigner (d : Deployment) (data : MetaMessage) (_signature : string)
    (actor : Z) : outcome unit :=
  match recoverSigner d data _signature with
  | None => Revert "ECDSAInvalidSignature"
  | Some signer => require (signer =? actor) "Invalid signature"
  end.

Definition createEscrowMeta (d : Deployment) (sender now : Z)
    (_seller _amount _token _deliveryDeadline _buyer : Z) (_signature : string)
    (st : State) : outcome (Z * State) :=
  require (sender =? trustedForwarder st) "Only trusted forwarder";;
  requireSigner d (CreateEscrowData _seller _amount _token _deliveryDeadline
                                    (nonceOf st _buyer)) _signature _buyer;;
  n ← checked_add (nonceOf st _buyer) 1;
  let st0 := set_nonce st _buyer n in
  let escrowId := escrowIdOf d _buyer _seller _amount now in
  require (buyer (escrowOf st0 escrowId) =? 0) "Escrow already exists";;
  let st1 := set_escrow st0 escrowId
               {| buyer := _buyer; seller := _seller; amount := _amount;
                  deliveryDeadline := _deliveryDeadline; status := CREATED;
                  token := _token; createdAt := now; fundedAt := 0;
                  documentsUploaded := false |} in
  mret (escrowId, emit st1 (EscrowCreated escrowId _buyer _seller _amount _deliveryDeadline)).

Definition fundEscrowMeta (d : Deployment) (sender now _escrowId _buyer : Z)
    (_signature : string) (st : State) : outcome State :=
  require (sender =? trustedForwarder st) "Only trusted forwarder";;
  requireSigner d (FundEscrowData _escrowId (nonceOf st _buyer)) _signature _buyer;;
  n ← checked_add (nonceOf st _buyer) 1;
  let st0 := set_nonce st _buyer n in
  let escrow := escrowOf st0 _escrowId in
  require (buyer escrow =? _buyer) "Only buyer can fund";;
  require (bool_decide (status escrow = CREATED)) "Invalid escrow status";;
  require (now <=? deliveryDeadline escrow) "Deadline has passed";;
  st1 ← safeTransferFrom d st0 (token escrow) _buyer (escrowAddress d) (amount escrow);
  let st2 := set_escrow st1 _escrowId
               (with_fundedAt (with_status (escrowOf st1 _escrowId) FUNDED) now) in
  mret (emit st2 (EscrowFunded _escrowId now)).

Definition confirmDeliveryMeta (d : Deployment) (sender now _escrowId _buyer : Z)
    (_signature : string) (st : State) : outcome State :=
  require (sender =? trustedForwarder st) "Only trusted forwarder";;
  requireSigner d (ConfirmDeliveryData _escrowId (nonceOf st _buyer)) _signature _buyer;;
  n ← checked_add (nonceOf st _buyer) 1;
  let st0 := set_nonce st _buyer n in
  let escrow := escrowOf st0 _escrowId in
  require (buyer escrow =? _buyer) "Only buyer can confirm";;
  require (bool_decide (status escrow = DOCUMENTS_PENDING)) "Invalid status";;
  let st1 := set_escrow st0 _escrowId (with_status escrow SETTLED) in
  st2 ← safeTransfer d st1 (token escrow) (seller escrow) (amount escrow);
  mret (emit (emit st2 (DeliveryConfirmed _escrowId now))
             (PaymentReleased _escrowId (seller escrow) (amount escrow))).

Definition storeDocumentHashMeta (d : Deployment) (sender now _escrowId _documentHash
    _seller : Z) (_signature : string) (st : State) : outcome State :=
  require (sender =? trustedForwarder st) "Only trusted forwarder";;
  requireSigner d (StoreDocumentData _escrowId _documentHash (nonceOf st _seller))
                _signature _seller;;
  n ← checked_add (nonceOf st _seller) 1;
  let st0 := set_nonce st _seller n in
  let escrow := escrowOf st0 _escrowId in
  require (seller escrow =? _seller) "Only seller can upload documents";;
  require (bool_decide (status escrow = FUNDED)
           || bool_decide (status escrow = DOCUMENTS_PENDING))
          "Invalid escrow status for document upload";;
  require (negb (_documentHash =? 0)) "Invalid document hash";;
  let st1 := set_documents st0 _escrowId
               (documentsOf st0 _escrowId ++ [_documentHash])%list in
  let st2 := if documentsUploaded escrow then st1
             else set_escrow st1 _escrowId
                    (with_status (with_documentsUploaded escrow true) DOCUMENTS_PENDING) in
  mret (emit st2 (DocumentsUploaded _escrowId _documentHash now)).

Definition updateTrustedForwarder (sender _newForwarder : Z) (st : State) : outcome State :=
  require (sender =? owner st) "OwnableUnauthorizedAccount";;
  require (negb (_newForwarder =? 0)) "Invalid address";;
  mret (set_trustedForwarder st _newForwarder).

(** [Ownable]'s own entry points. *)
Definition transferOwnership (sender newOwner : Z) (st : State) : outcome State :=
  require (sender =? owner st) "OwnableUnauthorizedAccount";;
  require (negb (newOwner =? 0)) "OwnableInvalidOwner";;
  mret (set_owner st newOwner).

Definition renounceOwnership (sender : Z) (st : State) : outcome State :=
  require (sender =? owner st) "OwnableUnauthorizedAccount";;
  mret (set_owner st 0).

(** *** [EscrowRelayer]

    Its calls reach the escrow contract with the relayer contract as
    [msg.sender]. *)

Definition authorizeRelayer (sender relayer : Z) (st : State) : outcome State :=
  require (sender =? relayerOwner st) "Only owner";;
  mret (emit (set_authorized st relayer true) (RelayerAuthorized relayer)).

Definition revokeRelayer (sender relayer : Z) (st : State) : outcome State :=
  require (sender =? relayerOwner st) "Only owner";;
  mret (emit (set_authorized st relayer false) (RelayerRevoked relayer)).

Definition relayCreateEscrow (d : Deployment) (sender now : Z)
    (seller amount token deliveryDeadline buyer : Z) (signature : string) (st : State)
    : outcome (Z * State) :=
  require (isAuthorized st sender) "Not authorized relayer";;
  '(escrowId, st1) ← createEscrowMeta d (relayerAddress d) now seller amount token
                        deliveryDeadline buyer signature st;
  mret (escrowId, emit st1 (TransactionRelayed buyer "createEscrow")).

Definition relayFundEscrow (d : Deployment) (sender now escrowId buyer : Z)
    (signature : string) (st : State) : outcome State :=
  require (isAuthorized st sender) "Not authorized relayer";;
  st1 ← fundEscrowMeta d (relayerAddress d) now escrowId buyer signature st;
  mret (emit st1 (TransactionRelayed buyer "fundEscrow")).

Definition relayConfirmDelivery (d : Deployment) (sender now escrowId buyer : Z)
    (signature : string) (st : State) : outcome State :=
  require (isAuthorized st sender) "Not authorized relayer";;
  st1 ← confirmDeliveryMeta d (relayerAddress d) now escrowId buyer signature st;
  mret (emit st1 (TransactionRelayed buyer "confirmDelivery")).

Definition relayStoreDocument (d : Deployment) (sender now escrowId documentHash
    seller : Z) (signature : string) (st : State) : outcome State :=
  require (isAuthorized st sender) "Not authorized relayer";;
  st1 ← storeDocumentHashMeta d (relayerAddress d) now escrowId documentHash seller
          signature st;
  mret (emit st1 (TransactionRelayed seller "storeDocument")).

Definition relayerTransferOwnership (sender newOwner : Z) (st : State) : outcome State :=
  require (sender =? relayerOwner st) "Only owner";;
  require (negb (newOwner =? 0)) "Invalid address";;
  mret (set_relayerOwner st newOwner).

(** The state after deployment: the escrow contract by [escrowDeployer]
    with its forwarder, the relayer contract by [relayerDeployer], who is
    its first authorized relayer. *)
Definition deployed (escrowDeployer forwarder relayerDeployer : Z) : State :=
  {| escrows := ∅; escrowDocuments := ∅; disputeReasons := ∅; nonces := ∅;
     trustedForwarder := forwarder; owner := escrowDeployer;
     relayerOwner := relayerDeployer;
     authorizedRelayers := {[relayerDeployer := true]};
     tokens := ∅; events := [] |}.

(** *** Transactions *)

(** Every entry point of the three contracts that changes state. *)
Inductive Transaction :=
| CreateEscrow (_seller _amount _token _deliveryDeadline : Z)
| FundEscrow (_escrowId : Z)
| StoreDocumentHash (_escrowId _documentHash : Z)
| ConfirmDelivery (_escrowId : Z)
| InitiateDispute (_escrowId : Z) (_reason : string)
| CancelEscrow (_escrowId : Z)
| ResolveDispute (_escrowId : Z) (_refundBuyer : bool)
| CreateEscrowMeta (_seller _amount _token _deliveryDeadline _buyer : Z) (_signature : string)
| FundEscrowMeta (_escrowId _buyer : Z) (_signature : string)
| ConfirmDeliveryMeta (_escrowId _buyer : Z) (_signature : string)
| StoreDocumentHashMeta (_escrowId _documentHash _seller : Z) (_signature : string)
| UpdateTrustedForwarder (_newForwarder : Z)
| TransferOwnership (newOwner : Z)
| RenounceOwnership
| AuthorizeRelayer (relayer : Z)
| RevokeRelayer (relayer : Z)
| RelayCreateEscrow (seller amount token deliveryDeadline buyer : Z) (signature : string)
| RelayFundEscrow (escrowId buyer : Z) (signature : string)
| RelayConfirmDelivery (escrowId buyer : Z) (signature : string)
| RelayStoreDocument (escrowId documentHash seller : Z) (signature : string)
| RelayerTransferOwnership (newOwner : Z)
| TokenTransfer (tok to value : Z)
| TokenApprove (tok spender value : Z)
| TokenTransferFrom (tok from to value : Z)
| TokenFaucet (tok : Z)
| TokenMint (tok to value : Z).

(** A call of a token's own entry point by [sender]. *)
Definition onToken (st : State) (tok : Z) (f : Token -> outcome Token) : outcome State :=
  match tokens st !! tok with
  | None => Revert "AddressEmptyCode"
  | Some tk => tk' ← f tk; mret (set_token st tok tk')
  end.

(** The state a transaction leaves, its return value dropped. *)
Definition stateOf {A} (o : outcome (A * State)) : outcome State :=
  match o with
  | Done (_, st) => Done st
  | Revert reason => Revert reason
  end.

Definition exec (d : Deployment) (sender now : Z) (tx : Transaction) (st : State)
    : outcome State :=
  match tx with
  | CreateEscrow s a t dl => stateOf (createEscrow d sender now s a t dl st)
  | FundEscrow id => fundEscrow d sender now id st
  | StoreDocumentHash id h => storeDocumentHash sender now id h st
  | ConfirmDelivery id => confirmDelivery d sender now id st
  | InitiateDispute id r => initiateDispute sender id r st
  | CancelEscrow id => cancelEscrow sender id st
  | ResolveDispute id b => resolveDispute d sender id b st
  | CreateEscrowMeta s a t dl b sig =>
      stateOf (createEscrowMeta d sender now s a t dl b sig st)
  | FundEscrowMeta id b sig => fundEscrowMeta d sender now id b sig st
  | ConfirmDeliveryMeta id b sig => confirmDeliveryMeta d sender now id b sig st
  | StoreDocumentHashMeta id h s sig => storeDocumentHashMeta d sender now id h s sig st
  | UpdateTrustedForwarder a => updateTrustedForwarder sender a st
  | TransferOwnership a => transferOwnership sender a st
  | RenounceOwnership => renounceOwnership sender st
  | AuthorizeRelayer r => authorizeRelayer sender r st
  | RevokeRelayer r => revokeRelayer sender r st
  | RelayCreateEscrow s a t dl b sig =>
      stateOf (relayCreateEscrow d sender now s a t dl b sig st)
  | RelayFundEscrow id b sig => relayFundEscrow d sender now id b sig st
  | RelayConfirmDelivery id b sig => relayConfirmDelivery d sender now id b sig st
  | RelayStoreDocument id h s sig => relayStoreDocument d sender now id h s sig st
  | RelayerTransferOwnership a => relayerTransferOwnership sender a st
  | TokenTransfer tok to v => onToken st tok (fun tk => erc20_transfer tk sender to v)
  | TokenApprove tok sp v => onToken st tok (fun tk => erc20_approve tk sender sp v)
  | TokenTransferFrom tok from to v =>
      onToken st tok (fun tk => erc20_transferFrom tk sender from to v)
  | TokenFaucet tok => onToken st tok (faucet sender now)
  | TokenMint tok to v => onToken st tok (mint sender to v)
  end.

(** A history: transactions with their senders and block times, each
    applied to the state the previous one left; a reverted transaction
    leaves the state unchanged. *)
Fixpoint replay (d : Deployment) (txs : list (Z * Z * Transaction)) (st : State) : State :=
  match txs with
  | [] => st
  | (sender, now, tx) :: rest =>
      match exec d sender now tx st with
      | Done st' => replay d rest st'
      | Revert _ => replay d rest st
      end
  end.

(** The actor whose nonce a transaction consumes. *)
Definition metaActor (tx : Transaction) : option Z :=
  match tx with
  | CreateEscrowMeta _ _ _ _ b _ | FundEscrowMeta _ b _ | ConfirmDeliveryMeta _ b _
  | RelayCreateEscrow _ _ _ _ b _ | RelayFundEscrow _ b _ | RelayConfirmDelivery _ b _ =>
      Some b
  | StoreDocumentHashMeta _ _ s _ | RelayStoreDocument _ _ s _ => Some s
  | _ => None
  end.

(** How many transactions of a history consume a nonce of [a]. *)
Fixpoint consumed (d : Deployment) (txs : list (Z * Z * Transaction)) (st : State) (a : Z)
    : Z :=
  match txs with
  | [] => 0
  | (sender, now, tx) :: rest =>
      match exec d sender now tx st with
      | Done st' => (if decide (metaActor tx = Some a) then 1 else 0) + consumed d rest st' a
      | Revert _ => consumed d rest st a
      end
  end.

Definition metaSignature (tx : Transaction) : string :=
  match tx with
  | CreateEscrowMeta _ _ _ _ _ sig | FundEscrowMeta _ _ sig | ConfirmDeliveryMeta _ _ sig
  | StoreDocumentHashMeta _ _ _ sig | RelayCreateEscrow _ _ _ _ _ sig
  | RelayFundEscrow _ _ sig | RelayConfirmDelivery _ _ sig
  | RelayStoreDocument _ _ _ sig => sig
  | _ => ""
  end.

(** The struct a meta-transaction is signed over, for the nonce [n]. *)
Definition metaData (tx : Transaction) (n : Z) : option MetaMessage :=
  match tx with
  | CreateEscrowMeta s a t dl _ _ | RelayCreateEscrow s a t dl _ _ =>
      Some (CreateEscrowData s a t dl n)
  | FundEscrowMeta id _ _ | RelayFundEscrow id _ _ => Some (FundEscrowData id n)
  | ConfirmDeliveryMeta id _ _ | RelayConfirmDelivery id _ _ =>
      Some (ConfirmDeliveryData id n)
  | StoreDocumentHashMeta id h _ _ | RelayStoreDocument id h _ _ =>
      Some (StoreDocumentData id h n)
  | _ => None
  end.

(** The meta-transactions of the escrow contract and their wrappers in the
    relayer contract. *)
Definition isMeta (tx : Transaction) : bool :=
  match tx with
  | CreateEscrowMeta _ _ _ _ _ _ | FundEscrowMeta _ _ _ | ConfirmDeliveryMeta _ _ _
  | StoreDocumentHashMeta _ _ _ _ => true
  | _ => false
  end.

Definition isRelay (tx : Transaction) : bool :=
  match tx with
  | RelayCreateEscrow _ _ _ _ _ _ | RelayFundEscrow _ _ _ | RelayConfirmDelivery _ _ _
  | RelayStoreDocument _ _ _ _ => true
  | _ => false
  end.

(** A signature commits to its nonce: for one signer it never recovers
    from two structs that carry different nonces. *)
Definition nonce_bound (d : Deployment) : Prop :=
  forall m1 m2 sig a,
    recoverSigner d m1 sig = Some a -> recoverSigner d m2 sig = Some a ->
    dataNonce m1 = dataNonce m2.

(** The transitions of an escrow's status. *)
Inductive status_step : EscrowStatus -> EscrowStatus -> Prop :=
| step_fund : status_step CREATED FUNDED
| step_cancel : status_step CREATED CANCELLED
| step_documents : status_step FUNDED DOCUMENTS_PENDING
| step_dispute_funded : status_step FUNDED DISPUTED
| step_confirm : status_step DOCUMENTS_PENDING SETTLED
| step_dispute_documents : status_step DOCUMENTS_PENDING DISPUTED
| step_resolve : status_step DISPUTED SETTLED.

(** The parties and terms of an escrow. *)
Definition terms (e : Escrow) : Z * Z * Z * Z * Z * Z :=
  (buyer e, seller e, amount e, deliveryDeadline e, token e, createdAt e).

(** The escrow a transaction funds, and for whom. *)
Definition funding (tx : Transaction) (sender : Z) : option (Z * Z) :=
  match tx with
  | FundEscrow id => Some (id, sender)
  | FundEscrowMeta id b _ | RelayFundEscrow id b _ => Some (id, b)
  | _ => None
  end.

(** The escrow a transaction pays out, and to whom. *)
Definition payout (tx : Transaction) (st : State) : option (Z * Z) :=
  match tx with
  | ConfirmDelivery id | ConfirmDeliveryMeta id _ _ | RelayConfirmDelivery id _ _ =>
      Some (id, seller (escrowOf st id))
  | ResolveDispute id refundBuyer =>
      Some (id, if refundBuyer then buyer (escrowOf st id) else seller (escrowOf st id))
  | _ => None
  end.

(** *** Custody *)

(** The statuses in which the contract holds the amount of an escrow. *)
Definition holding (s : EscrowStatus) : bool :=
  match s with
  | FUNDED | DOCUMENTS_PENDING | DISPUTED => true
  | _ => false
  end.

(** What the contract owes for escrow [id] in token [tok]. *)
Definition held (st : State) (tok id : Z) : Z :=
  let e := escrowOf st id in
  if holding (status e) && (token e =? tok) then amount e else 0.

Definition total (f : Z -> Z) (ids : list Z) : Z := fold_right Z.add 0 (map f ids).

(** The contract's balance of every token covers the escrows it holds in
    that token; nobody has an allowance on the contract's tokens; amounts
    are not negative. *)
Definition solvent (d : Deployment) (st : State) : Prop :=
  (forall tok tk ids, tokens st !! tok = Some tk -> NoDup ids ->
     total (held st tok) ids <= balanceOf tk (escrowAddress d))
  /\ (forall tok tk spender, tokens st !! tok = Some tk ->
        allowance tk (escrowAddress d) spender = 0)
  /\ (forall id, 0 <= amount (escrowOf st id)).

(** The [uint256] arguments of a transaction are not negative. *)
Definition amounts_valid (tx : Transaction) : Prop :=
  match tx with
  | CreateEscrow _ a _ _ | CreateEscrowMeta _ a _ _ _ _ | RelayCreateEscrow _ a _ _ _ _ =>
      0 <= a
  | TokenTransfer _ _ v | TokenApprove _ _ v | TokenTransferFrom _ _ _ v
  | TokenMint _ _ v => 0 <= v
  | _ => True
  end.

(** *** A sample deployment

    Token 7000 is a [MockUSDC] deployed by 1; the escrow contract lives at
    5000 and trusts the relayer contract at 6000, whose deployer 2 is the
    relayer.  1001 is a buyer and 1002 a seller; their signatures are the
    strings below, each good for one nonce; over any other struct a
    signature recovers to an address of nobody, one per nonce. *)

Definition sampleRecover (m : MetaMessage) (sig : string) : option Z :=
  let n := dataNonce m in
  if String.eqb sig "" then None
  else if String.eqb sig "buyer-signature-0" && (n =? 0) then Some 1001
  else if String.eqb sig "buyer-signature-1" && (n =? 1) then Some 1001
  else if String.eqb sig "buyer-signature-2" && (n =? 2) then Some 1001
  else if String.eqb sig "seller-signature-0" && (n =? 0) then Some 1002
  else Some (20000 + 2 * Z.abs n + (if n <? 0 then 1 else 0)).

Definition sampleDeployment : Deployment :=
  {| escrowAddress := 5000; relayerAddress := 6000;
     escrowIdOf := fun b s a t => 1 + b + 10000 * s + 100000000 * a + t;
     recoverSigner := sampleRecover |}.

Definition genesis : State :=
  set_token (deployed 1 6000 2) 7000 (mockUSDC_deployed 1).

(** The buyer claims from the faucet and approves the escrow contract. *)
Definition funded_buyer : State :=
  replay sampleDeployment
    [ (1001, 100000, TokenFaucet 7000);
      (1001, 100010, TokenApprove 7000 5000 (600 * 10 ^ 6)) ]
    genesis.

Definition sampleEscrowId : Z :=
  escrowIdOf sampleDeployment 1001 1002 (500 * 10 ^ 6) 100020.

(** An escrow of 500 USDC is created through the relayer. *)
Definition escrow_created : State :=
  replay sampleDeployment
    [ (2, 100020, RelayCreateEscrow 1002 (500 * 10 ^ 6) 7000 200000 1001
                    "buyer-signature-0") ]
    funded_buyer.

Definition escrow_funded : State :=
  replay sampleDeployment
    [ (2, 100030, RelayFundEscrow sampleEscrowId 1001 "buyer-signature-1") ]
    escrow_created.

Definition escrow_documented : State :=
  replay sampleDeployment
    [ (2, 100040, RelayStoreDocument sampleEscrowId 77 1002 "seller-signature-0") ]
    escrow_funded.

Definition escrow_settled : State :=
  replay sampleDeployment
    [ (2, 100050, RelayConfirmDelivery sampleEscrowId 1001 "buyer-signature-2") ]
    escrow_documented.

(** The whole history, from the deployment on. *)
Definition sampleHistory : list (Z * Z * Transaction) :=
  [ (1001, 100000, TokenFaucet 7000);
    (1001, 100010, TokenApprove 7000 5000 (600 * 10 ^ 6));
    (2, 100020, RelayCreateEscrow 1002 (500 * 10 ^ 6) 7000 200000 1001 "buyer-signature-0");
    (2, 100030, RelayFundEscrow sampleEscrowId 1001 "buyer-signature-1");
    (2, 100040, RelayStoreDocument sampleEscrowId 77 1002 "seller-signature-0");
    (2, 100050, RelayConfirmDelivery sampleEscrowId 1001 "buyer-signature-2") ].

End Contracts.

(** ** Proof automation *)

Ltac unfold_service :=
  unfold relay, relayCreateEscrow, relayFundEscrow, relayConfirmDelivery,
    relayStoreDocument, executeTransaction, estimateGas, verify, getNonce,
    getEscrowDetails, getUserBalance, getUserAllowance, getRelayerBalance,
    console_log, template_literal.

Ltac unfold_monad :=
  unfold throw_if;
  unfold run, try_catch, call, lift, throw, mbind, M_bind, mret, M_ret;
  cbn beta iota.

(** The scrutinee at the head of a nest of matches. *)
Ltac head_scrutinee t :=
  lazymatch t with
  | match ?x with _ => _ end => head_scrutinee x
  | negb ?b => head_scrutinee b
  | ?f _ =>
      lazymatch f with
      | match ?x with _ => _ end => head_scrutinee x
      | _ => t
      end
  | _ => t
  end.

(** Split on the next outcome the computation depends on. *)
Ltac step :=
  lazymatch goal with
  | |- match ?x with _ => _ end =>
      let s := head_scrutinee x in
      first [ match goal with H : s = _ |- _ => rewrite H end
            | destruct s eqn:? ]
  end; cbn beta iota; cbn [Datatypes.app negb].

(** The same anywhere in the goal, for statements that project a run. *)
Ltac step_inside :=
  match goal with
  | H : ?x = _ |- context [match ?x with _ => _ end] => rewrite H
  | |- context [match ?x with _ => _ end] =>
      lazymatch x with
      | context [match _ with _ => _ end] => fail
      | _ => destruct x eqn:?
      end
  end; cbn beta iota; cbn [Datatypes.app fst snd].

Lemma relayer_floor : parseEther_or_throw "0.01" = Ok 10000000000000000.
Proof. reflexivity. Qed.

Lemma methodMap_create : methodMap !! "relayCreateEscrow" = Some "relayCreateEscrow".
Proof. reflexivity. Qed.
Lemma methodMap_fund : methodMap !! "relayFundEscrow" = Some "relayFundEscrow".
Proof. reflexivity. Qed.
Lemma methodMap_confirm : methodMap !! "relayConfirmDelivery" = Some "relayConfirmDelivery".
Proof. reflexivity. Qed.
Lemma methodMap_store : methodMap !! "relayStoreDocument" = Some "relayStoreDocument".
Proof. reflexivity. Qed.

Ltac known_constants :=
  rewrite ?methodMap_create, ?methodMap_fund, ?methodMap_confirm, ?methodMap_store,
    ?relayer_floor.

(** ** Gas price *)

Lemma default_factor : floorZ (default_multiplier * 100)%float = Some 110.
Proof. vm_compute. reflexivity. Qed.

Lemma adjustedGasPrice_ok env gp factor :
  floorZ (default default_multiplier (GAS_PRICE_MULTIPLIER env) * 100)%float = Some factor ->
  adjustedGasPrice env gp = Ok (Z.quot (gp * factor) 100).
Proof. intros H. unfold adjustedGasPrice, BigInt_floor. now rewrite H. Qed.

(** C9. [executeTransaction] simulates the call at the network gas price
    times [floor(multiplier * 100)], divided by 100 with BigInt
    (truncating) division; with the default multiplier the factor is 110
    and, for a non-negative gas price, the result is
    [floor(gasPrice * 110 / 100)]. *)
Theorem executeTransaction_gas_price w env method fn params gasLimit gp factor :
  getGasPrice w = Ok gp ->
  methodMap !! method = Some fn ->
  floorZ (default default_multiplier (GAS_PRICE_MULTIPLIER env) * 100)%float = Some factor ->
  let p := Z.quot (gp * factor) 100 in
  adjustedGasPrice env gp = Ok p
  /\ snd (run (executeTransaction w env method params gasLimit)) !! 1%nat
     = Some (SimulateContract {| functionName := fn; callArgs := params;
                                 callGas := gasLimit; callGasPrice := p |})
  /\ (GAS_PRICE_MULTIPLIER env = None ->
      factor = 110 /\ (0 <= gp -> p = gp * 110 / 100)).
Proof.
  intros Hgp Hfn Hfloor p.
  pose proof (adjustedGasPrice_ok env gp factor Hfloor) as Hadj.
  split; [exact Hadj|]. split.
  - unfold_service. unfold_monad. rewrite Hfn. repeat step_inside; reflexivity.
  - intros Hnone. rewrite Hnone in Hfloor. cbn [default] in Hfloor.
    rewrite default_factor in Hfloor. injection Hfloor as <-.
    split; [reflexivity|]. intros Hpos. subst p.
    apply Z.quot_div_nonneg; lia.
Qed.

Lemma executeTransaction_gas_price_witness :
  snd (run (executeTransaction goodWorld sampleEnv "relayFundEscrow"
              [JStr sampleId; JStr buyerAddr; JStr sig65] 150000)) !! 1%nat
  = Some (SimulateContract {| functionName := "relayFundEscrow";
                              callArgs := [JStr sampleId; JStr buyerAddr; JStr sig65];
                              callGas := 150000; callGasPrice := 22000000000 |}).
Proof.
  apply (executeTransaction_gas_price goodWorld sampleEnv "relayFundEscrow"
           "relayFundEscrow" [JStr sampleId; JStr buyerAddr; JStr sig65]
           150000 20000000000 110);
    [reflexivity | reflexivity | exact default_factor].
Defined.

(** ** Replay rejection *)

Ltac trace_mem :=
  repeat match goal with
  | H : _ ∈ [] |- _ => inversion H
  | H : _ ∈ _ :: _ |- _ => inversion H; subst; clear H
  end.

(** C1. In each of the four relay operations the message handed to
    signature verification carries the nonce read from the chain by the
    first call of the same request.  Hence a signature made over nonce [N]
    is refused once the chain's nonce differs from [N]: the operation
    throws without any submission, and with ['Invalid signature'] whenever
    the verification call was reached and returned. *)
Theorem stale_nonce_rejected w env req N n :
  nonce_binding w ->
  signed_over_nonce w env req N ->
  readNonces w (actor req) = Ok n ->
  n <> N ->
  let '(r, tr) := run (relay w env req) in
  (forall a m s, VerifyTypedData a m s ∈ tr ->
     messageNonce m = n
     /\ exists rest, tr = ReadNonces (actor req)
                          :: VerifyTypedData (actor req) m (signatureOf req) :: rest)
  /\ (exists e, r = Throw e)
  /\ submissions tr = 0%nat
  /\ (forall a m s b, VerifyTypedData a m s ∈ tr ->
        verifyTypedData w a (domain env) m s = Ok b ->
        r = Throw (Error "Invalid signature")).
Proof.
  intros Hbind (m0 & Hm0 & Hsig) Hn Hne.
  assert (Hstale : forall m, messageNonce m = n ->
            verifyTypedData w (actor req) (domain env) m (signatureOf req) <> Ok true).
  { intros m Hm Hv. pose proof (Hbind _ _ _ _ _ Hsig Hv). congruence. }
  destruct req; cbn [actor signatureOf] in *; unfold_service; unfold_monad;
    known_constants;
    repeat (step;
            try match goal with
                | H : verifyTypedData _ _ _ ?m _ = Ok true |- _ =>
                    exfalso; exact (Hstale m eq_refl H)
                end);
    (split; [intros a' m' s' Hin; trace_mem; eauto|]);
    (split; [eauto|]); (split; [reflexivity|]);
    intros a' m' s' b' Hin Hb; trace_mem; congruence.
Qed.

Lemma staleWorld_binding : nonce_binding staleWorld.
Proof.
  intros a d m1 m2 s. cbn.
  destruct (bad_hex_format s 132) as [[]|]; try discriminate.
  intros H1 H2. injection H1 as H1. injection H2 as H2. lia.
Qed.

Lemma stale_nonce_rejected_witness :
  let '(r, tr) := run (relay staleWorld sampleEnv sampleFund) in
  (forall a m s, VerifyTypedData a m s ∈ tr ->
     messageNonce m = 8
     /\ exists rest, tr = ReadNonces (actor sampleFund)
                          :: VerifyTypedData (actor sampleFund) m (signatureOf sampleFund)
                          :: rest)
  /\ (exists e, r = Throw e)
  /\ submissions tr = 0%nat
  /\ (forall a m s b, VerifyTypedData a m s ∈ tr ->
        verifyTypedData staleWorld a (domain sampleEnv) m s = Ok b ->
        r = Throw (Error "Invalid signature")).
Proof.
  apply (stale_nonce_rejected staleWorld sampleEnv sampleFund 7 8).
  - exact staleWorld_binding.
  - exists (FundEscrowMsg (JStr sampleId) 7). split; vm_compute; reflexivity.
  - reflexivity.
  - lia.
Defined.

(** ** One submission per request *)




Example good_request_submits_once :
  submissions (snd (run (relay goodWorld sampleEnv sampleFund))) = 1%nat
  /\ submissions (snd (run (relay goodWorld sampleEnv sampleCreate))) = 1%nat
  /\ submissions (snd (run (relay staleWorld sampleEnv sampleConfirm))) = 0%nat
  /\ submissions (snd (run (relay poorRelayerWorld sampleEnv sampleCreate))) = 0%nat.
Proof. vm_compute. repeat split. Qed.

(** ** Structural validation of the signature *)

(** C3 (the code departs from the specification). Only [relayCreateEscrow] checks
    the shape of the signature.  On the two-byte signature ["0x1234"] it
    fails at once, without any call; the three other operations read the
    nonce and hand the same signature to [verifyTypedData]. *)
Theorem malformed_signature_reaches_recovery :
  run (relay goodWorld sampleEnv
         (CreateEscrow (JStr sellerAddr) (JStr "1000000000") (JStr tokenAddr)
                       (JNum 1900000000%float) (JStr buyerAddr) (JStr "0x1234")))
  = (Throw (Error "Invalid signature format"), [])
  /\ run (relay goodWorld sampleEnv
            (FundEscrow (JStr sampleId) (JStr buyerAddr) (JStr "0x1234")))
     = (Throw (Error "invalid signature length"),
        [ReadNonces (JStr buyerAddr);
         VerifyTypedData (JStr buyerAddr) (FundEscrowMsg (JStr sampleId) 7) (JStr "0x1234")])
  /\ run (relay goodWorld sampleEnv
            (ConfirmDelivery (JStr sampleId) (JStr buyerAddr) (JStr "0x1234")))
     = (Throw (Error "invalid signature length"),
        [ReadNonces (JStr buyerAddr);
         VerifyTypedData (JStr buyerAddr) (ConfirmDeliveryMsg (JStr sampleId) 7)
                         (JStr "0x1234")])
  /\ run (relay goodWorld sampleEnv
            (StoreDocument (JStr sampleId) (JStr sampleHash) (JStr sellerAddr)
                           (JStr "0x1234")))
     = (Throw (Error "invalid signature length"),
        [ReadNonces (JStr sellerAddr);
         VerifyTypedData (JStr sellerAddr)
                         (StoreDocumentMsg (JStr sampleId) (JStr sampleHash) 7)
                         (JStr "0x1234")]).
Proof. repeat split; vm_compute; reflexivity. Qed.

(** Whatever the signature, [relayFundEscrow] asks for its verification
    as soon as the nonce is read. *)
Lemma fund_verifies_any_signature w env id buyer signature n :
  readNonces w buyer = Ok n ->
  exists rest,
    snd (run (relayFundEscrow w env id buyer signature))
    = ReadNonces buyer :: VerifyTypedData buyer (FundEscrowMsg id n) signature :: rest.
Proof.
  intros Hn. unfold_service. unfold_monad. rewrite Hn. known_constants.
  repeat step_inside; eauto.
Qed.

(** ** Preflight *)






(** ** The health endpoint *)

(** C6 does not hold as the specification states it: the rate-limiting
    middleware runs before every
    route, [/health] included.  One client asking for [/health] 101 times
    within the hour is answered 200 a hundred times, then 429. *)
Lemma health_is_rate_limited :
  statusCode <$> fst (serve goodWorld sampleEnv ∅ (replicate 101 healthRequest))
  = (replicate 100 200 ++ [429])%list.
Proof. vm_compute. reflexivity. Qed.

Lemma is_get_not_options m : is_get m = true -> is_options m = false.
Proof.
  unfold is_get. intros H. apply orb_prop in H as [H|H];
    apply String.eqb_eq in H; subst m; reflexivity.
Qed.

(** C6 (amended). A GET of the path [/health] is never refused for its
    API key and makes no chain call; it consumes a point of the rate
    limiter like any other request, is answered with
    [{status, timestamp, uptime}] when the limiter resolves and with 429
    when it rejects. *)
Theorem health_skips_api_key_only w env st req :
  reqPath req = "/health" ->
  is_get (reqMethod req) = true ->
  let '(res, tr, st') := app w env st req in
  statusCode res <> 401
  /\ tr = []
  /\ st' = snd (consume env st (reqIp req) (date_now w))
  /\ match fst (consume env st (reqIp req) (date_now w)) with
     | Resolved => res = json (HealthBody "healthy" (now_iso w) (uptime w))
     | Rejected ms =>
         res = status_json 429 (TooManyBody "Too many requests" (round_seconds ms))
     end.
Proof.
  intros Hpath Hget. unfold app, routes. cbn [incomingMethod].
  rewrite (is_get_not_options _ Hget), Hpath, Hget.
  cbn [String.eqb Ascii.eqb Bool.eqb negb andb].
  change (route_matches "/health" "/health") with true. cbn [andb].
  destruct (consume env st (reqIp req) (date_now w)) as [[|ms] st'];
    cbn; repeat split; discriminate.
Qed.

Lemma health_skips_api_key_only_witness :
  let '(res, tr, st') := app goodWorld keyedEnv ∅ healthRequest in
  statusCode res <> 401
  /\ tr = []
  /\ st' = snd (consume keyedEnv ∅ (reqIp healthRequest) (date_now goodWorld))
  /\ match fst (consume keyedEnv ∅ (reqIp healthRequest) (date_now goodWorld)) with
     | Resolved => res = json (HealthBody "healthy" (now_iso goodWorld) (uptime goodWorld))
     | Rejected ms =>
         res = status_json 429 (TooManyBody "Too many requests" (round_seconds ms))
     end.
Proof.
  apply (health_skips_api_key_only goodWorld keyedEnv ∅ healthRequest); reflexivity.
Defined.

(** ** The escrow id of a created escrow *)





Example create_escrow_id_from_event :
  fst (run (relay eventWorld sampleEnv sampleCreate))
  = Ok {| success := true; escrowId := Some (JStr sampleId);
          resultTransactionHash := sampleHash; resultGasUsed := "120000" |}.
Proof. vm_compute. reflexivity. Qed.

(** ** Identifiers of confirm-delivery and store-document *)

(** C8 does not hold as the specification states it: the escrow id is
    never inspected.  An id of 63
    hex digits, which fails the very test the code applies to the document
    hash, goes through gas estimation and is submitted, for both
    operations. *)
Lemma malformed_escrow_id_is_submitted :
  bad_hex_format (JStr shortId) 66 = Ok true
  /\ (let '(r, tr) := run (relay goodWorld sampleEnv
                             (ConfirmDelivery (JStr shortId) (JStr buyerAddr) (JStr sig65))) in
      (exists res, r = Ok res)
      /\ EstimateContractGas "relayConfirmDelivery"
           [JStr shortId; JStr buyerAddr; JStr sig65] ∈ tr
      /\ submissions tr = 1%nat)
  /\ (let '(r, tr) := run (relay goodWorld sampleEnv
                             (StoreDocument (JStr shortId) (JStr sampleHash)
                                            (JStr sellerAddr) (JStr sig65))) in
      (exists res, r = Ok res)
      /\ EstimateContractGas "relayStoreDocument"
           [JStr shortId; JStr sampleHash; JStr sellerAddr; JStr sig65] ∈ tr
      /\ submissions tr = 1%nat).
Proof.
  split; [vm_compute; reflexivity|].
  split.
  all: match goal with |- context [run ?m] => set (x := run m) end;
    vm_compute in x; subst x; cbn beta iota.
  all: split; [eexists; reflexivity|]; split; [|reflexivity].
  all: repeat first [apply list_elem_of_here | apply list_elem_of_further].
Qed.

Lemma no_preflight_in l :
  forallb (fun c => negb (is_preflight_read c)) l = true ->
  forall c, c ∈ l -> is_preflight_read c = false.
Proof.
  intros H c Hin. apply list_elem_of_In in Hin.
  rewrite forallb_forall in H. specialize (H c Hin).
  now apply negb_true_iff in H.
Qed.

(** C8 (amended). [relayStoreDocument] checks the document hash (a string
    that starts with [0x] and has length 66) before any call: a hash that
    fails the test throws ['Invalid document hash format'] with an empty
    trace.  The escrow id is not checked for its form: both operations
    only interpolate it in their first log line.  Whatever id has a string
    conversion, well-formed or not, [relayConfirmDelivery] starts by
    reading the nonce, and so does [relayStoreDocument] once the hash is
    accepted; an id without one (an object holding a [toString] property)
    ends either operation with a [TypeError] before any call.  Neither
    operation reads a balance, an allowance or the escrow. *)
Theorem store_checks_hash_only w env id hash actor signature :
  (has_string id = true ->
   (bad_hex_format hash 66 = Ok true ->
    run (relayStoreDocument w env id hash actor signature)
    = (Throw (Error "Invalid document hash format"), []))
   /\ (forall e, bad_hex_format hash 66 = Throw e ->
       run (relayStoreDocument w env id hash actor signature) = (Throw e, []))
   /\ (bad_hex_format hash 66 = Ok false ->
       snd (run (relayStoreDocument w env id hash actor signature)) !! 0%nat
       = Some (ReadNonces actor))
   /\ snd (run (relayConfirmDelivery w env id actor signature)) !! 0%nat
      = Some (ReadNonces actor))
  /\ (has_string id = false ->
      run (relayStoreDocument w env id hash actor signature)
      = (Throw (TypeError "Cannot convert object to primitive value"), [])
      /\ run (relayConfirmDelivery w env id actor signature)
         = (Throw (TypeError "Cannot convert object to primitive value"), []))
  /\ (forall c, c ∈ snd (run (relayStoreDocument w env id hash actor signature)) ->
      is_preflight_read c = false)
  /\ (forall c, c ∈ snd (run (relayConfirmDelivery w env id actor signature)) ->
      is_preflight_read c = false).
Proof.
  split; [|split; [|split]].
  - intros Hid. split; [|split; [|split]].
    + intros H. unfold_service. unfold_monad. now rewrite Hid, H.
    + intros e H. unfold_service. unfold_monad. now rewrite Hid, H.
    + intros H. unfold_service. unfold_monad. known_constants. rewrite Hid, H.
      repeat step_inside; reflexivity.
    + unfold_service. unfold_monad. known_constants. rewrite Hid.
      repeat step_inside; reflexivity.
  - intros Hid. unfold_service. unfold_monad. rewrite Hid. split; reflexivity.
  - apply no_preflight_in. unfold_service. unfold_monad. known_constants.
    repeat step_inside; reflexivity.
  - apply no_preflight_in. unfold_service. unfold_monad. known_constants.
    repeat step_inside; reflexivity.
Qed.

Lemma store_checks_hash_only_witness :
  run (relayStoreDocument goodWorld sampleEnv (JStr sampleId) (JStr "0x1234")
         (JStr sellerAddr) (JStr sig65))
  = (Throw (Error "Invalid document hash format"), []).
Proof.
  apply (proj1 (proj1 (store_checks_hash_only goodWorld sampleEnv (JStr sampleId)
                         (JStr "0x1234") (JStr sellerAddr) (JStr sig65))
                      eq_refl)).
  vm_compute. reflexivity.
Defined.

(** An escrow id that is a JSON object with a [toString] property stops
    both operations at their first log line. *)
Example unprintable_escrow_id :
  run (relay goodWorld sampleEnv
         (ConfirmDelivery (JObj [("toString", JNum 1%float)]) (JStr buyerAddr) (JStr sig65)))
  = (Throw (TypeError "Cannot convert object to primitive value"), [])
  /\ run (relay goodWorld sampleEnv
            (StoreDocument (JArr [JObj [("toString", JNum 1%float)]]) (JStr sampleHash)
                           (JStr sellerAddr) (JStr sig65)))
     = (Throw (TypeError "Cannot convert object to primitive value"), []).
Proof. split; vm_compute; reflexivity. Qed.

(** ** Missing fields *)

Lemma routes_post w env ep req :
  reqMethod req = "POST" ->
  reqPath req = endpointPath ep ->
  routes w env req = handler w env ep (reqBody req).
Proof.
  intros Hm Hp. unfold routes. rewrite Hm, Hp. destruct ep; reflexivity.
Qed.

(** C10. In each POST handler a required field that is falsy, absent or
    not, ends the request with 400 ['Missing required fields'] before any
    call of the service, with the same outcome as when the field is
    removed from the body; and this is the response of the endpoint once
    the request is past the API-key and rate-limiting middleware. *)
Theorem falsy_field_is_missing w env ep body k :
  k ∈ required ep ->
  falsy (field body k) = true ->
  run (handler w env ep body)
  = (Ok (status_json 400 (ErrorBody "Missing required fields")), [])
  /\ run (handler w env ep body) = run (handler w env ep (delete k body))
  /\ (forall st req,
        reqMethod req = "POST" -> reqPath req = endpointPath ep -> reqBody req = body ->
        api_key_rejected env req = false ->
        fst (consume env st (reqIp req) (date_now w)) = Resolved ->
        fst (app w env st req)
        = (status_json 400 (ErrorBody "Missing required fields"), [])).
Proof.
  intros Hk Hfalsy.
  assert (Hdel : falsy (field (delete k body) k) = true).
  { unfold field. now rewrite lookup_delete_eq. }
  assert (H400 : forall b, falsy (field b k) = true ->
            run (handler w env ep b)
            = (Ok (status_json 400 (ErrorBody "Missing required fields")), [])).
  { intros b Hb. destruct ep; cbn [required] in Hk; trace_mem;
      cbn [handler];
      unfold createEscrowHandler, fundEscrowHandler, confirmDeliveryHandler,
        storeDocumentHandler, missing_fields;
      unfold_monad; rewrite Hb;
      repeat match goal with
             | |- context [falsy ?x] => destruct (falsy x)
             end;
      reflexivity. }
  split; [now apply H400|]. split; [now rewrite !H400|].
  intros st req Hm Hp Hbody Hkey Hres. unfold app. cbn [incomingMethod].
  rewrite Hm at 1. change (is_options "POST") with false. cbv iota.
  rewrite Hkey, andb_false_r.
  destruct (consume env st (reqIp req) (date_now w)) as [v st'].
  cbn [fst] in Hres. subst v.
  rewrite (routes_post w env ep req Hm Hp), Hbody, (H400 body Hfalsy).
  reflexivity.
Qed.

Lemma falsy_field_is_missing_witness :
  run (handler goodWorld sampleEnv CreateEscrowEndpoint createBody)
  = (Ok (status_json 400 (ErrorBody "Missing required fields")), [])
  /\ run (handler goodWorld sampleEnv CreateEscrowEndpoint createBody)
     = run (handler goodWorld sampleEnv CreateEscrowEndpoint (delete "amount" createBody))
  /\ (forall st req,
        reqMethod req = "POST" -> reqPath req = endpointPath CreateEscrowEndpoint ->
        reqBody req = createBody ->
        api_key_rejected sampleEnv req = false ->
        fst (consume sampleEnv st (reqIp req) (date_now goodWorld)) = Resolved ->
        fst (app goodWorld sampleEnv st req)
        = (status_json 400 (ErrorBody "Missing required fields"), [])).
Proof.
  apply (falsy_field_is_missing goodWorld sampleEnv CreateEscrowEndpoint createBody "amount").
  - cbn [required]. apply list_elem_of_further, list_elem_of_here.
  - vm_compute. reflexivity.
Defined.

Example zero_amount_answered_400 :
  fst (app goodWorld sampleEnv ∅ (postRequest CreateEscrowEndpoint createBody))
  = (status_json 400 (ErrorBody "Missing required fields"), []).
Proof. vm_compute. reflexivity. Qed.

Example empty_escrow_id_is_missing :
  run (handler goodWorld sampleEnv StoreDocumentEndpoint storeBody)
  = (Ok (status_json 400 (ErrorBody "Missing required fields")), []).
Proof. vm_compute. reflexivity. Qed.

Example falsy_values :
  falsy (JNum 0%float) = true /\ falsy (JNum (-0)%float) = true
  /\ falsy (JStr "") = true /\ falsy JNull = true /\ falsy (JBool false) = true
  /\ falsy (JStr "0") = false /\ falsy (JArr []) = false.
Proof. vm_compute. repeat split. Qed.

(** ** Endpoints and their service methods *)

Lemma falsy_truthy v : falsy v = negb (truthy v).
Proof. reflexivity. Qed.

(** X1. With every required field truthy, a POST handler hands the fields
    of the body to its service method, makes exactly the calls the method
    makes, and answers 200 with the method's result or 500 with the
    message of the error it threw. *)
Theorem handler_relays_outcome w env ep body :
  forallb (fun k => truthy (field body k)) (required ep) = true ->
  run (handler w env ep body)
  = (Ok (relayResponse (fst (run (relay w env (requestOf ep body))))),
     snd (run (relay w env (requestOf ep body)))).
Proof.
  intros H. destruct ep; cbn [required forallb] in H;
    repeat (apply andb_prop in H; destruct H as [? H]);
    cbn [handler requestOf relay];
    unfold createEscrowHandler, fundEscrowHandler, confirmDeliveryHandler,
      storeDocumentHandler, relay_failed;
    rewrite !falsy_truthy;
    repeat match goal with Ht : truthy _ = true |- _ => rewrite Ht; clear Ht end;
    cbn [negb orb];
    unfold run, try_catch, mbind, M_bind, mret, M_ret.
  - destruct (relayCreateEscrow _ _ _ _ _ _ _ _ []) as [[r|e] tr]; reflexivity.
  - destruct (relayFundEscrow _ _ _ _ _ []) as [[r|e] tr]; reflexivity.
  - destruct (relayConfirmDelivery _ _ _ _ _ []) as [[r|e] tr]; reflexivity.
  - destruct (relayStoreDocument _ _ _ _ _ _ []) as [[r|e] tr]; reflexivity.
Qed.

Lemma handler_relays_outcome_witness :
  run (handler goodWorld sampleEnv FundEscrowEndpoint fundBody)
  = (Ok (relayResponse (fst (run (relay goodWorld sampleEnv
                                    (requestOf FundEscrowEndpoint fundBody))))),
     snd (run (relay goodWorld sampleEnv (requestOf FundEscrowEndpoint fundBody)))).
Proof.
  apply (handler_relays_outcome goodWorld sampleEnv FundEscrowEndpoint fundBody).
  vm_compute. reflexivity.
Defined.

(** ** Status codes *)

Lemma handler_answers w env ep body :
  exists res tr, run (handler w env ep body) = (Ok res, tr)
                 /\ In (statusCode res) [200; 400; 500]
                 /\ responseBody res <> ErrorBody "Internal server error".
Proof.
  destruct ep; cbn [handler];
    unfold createEscrowHandler, fundEscrowHandler, confirmDeliveryHandler,
      storeDocumentHandler, relay_failed, missing_fields;
    match goal with
    | |- context [if ?c then _ else _] => destruct c
    end;
    unfold run, try_catch, mbind, M_bind, mret, M_ret;
    try (do 2 eexists; split; [reflexivity | split; [cbn; tauto | discriminate]]).
  - destruct (relayCreateEscrow _ _ _ _ _ _ _ _ []) as [[r|e] tr];
      do 2 eexists; (split; [reflexivity | split; [cbn; tauto | discriminate]]).
  - destruct (relayFundEscrow _ _ _ _ _ []) as [[r|e] tr];
      do 2 eexists; (split; [reflexivity | split; [cbn; tauto | discriminate]]).
  - destruct (relayConfirmDelivery _ _ _ _ _ []) as [[r|e] tr];
      do 2 eexists; (split; [reflexivity | split; [cbn; tauto | discriminate]]).
  - destruct (relayStoreDocument _ _ _ _ _ _ []) as [[r|e] tr];
      do 2 eexists; (split; [reflexivity | split; [cbn; tauto | discriminate]]).
Qed.

Lemma nonceHandler_answers w address :
  exists res tr, run (nonceHandler w address) = (Ok res, tr)
                 /\ In (statusCode res) [200; 400; 500]
                 /\ responseBody res <> ErrorBody "Internal server error".
Proof.
  unfold nonceHandler, getNonce. unfold_monad.
  destruct (is_address address); cbn [negb].
  - destruct (readNonces w (JStr address));
      do 2 eexists; (split; [reflexivity | split; [cbn; tauto | discriminate]]).
  - do 2 eexists; (split; [reflexivity | split; [cbn; tauto | discriminate]]).
Qed.

(** The routes answer themselves, but for a parameter that does not
    decode. *)
Lemma routes_answer w env req :
  (exists res tr, run (routes w env req) = (Ok res, tr)
                  /\ In (statusCode res) [200; 400; 404; 500]
                  /\ responseBody res <> ErrorBody "Internal server error")
  \/ (undecodable (reqPath req) /\ exists e, run (routes w env req) = (Throw e, [])).
Proof.
  unfold routes, undecodable, nonce_route_param, not_found.
  destruct (is_get (reqMethod req) && route_matches "/health" (reqPath req)).
  { left. do 2 eexists. split; [reflexivity | split; [cbn; tauto | discriminate]]. }
  destruct (nonce_route_segment (reqPath req)) as [seg|]; cbn [fmap option_fmap option_map].
  - destruct (decodeURIComponent seg) as [address|e] eqn:Hdec.
    + left. unfold run, lift, mbind, M_bind. cbn beta iota.
      destruct (is_get (reqMethod req)).
      * destruct (nonceHandler_answers w address) as (res & tr & Hrun & Hin & Hbody).
        unfold run in Hrun. rewrite Hrun. do 2 eexists.
        split; [reflexivity | split; [cbn in *; tauto | exact Hbody]].
      * do 2 eexists. split; [reflexivity | split; [cbn; tauto | discriminate]].
    + right. split; [eauto|]. exists e. reflexivity.
  - left.
    repeat match goal with
           | |- context [if ?c then _ else _] => destruct c
           end.
    + destruct (handler_answers w env CreateEscrowEndpoint (reqBody req))
        as (res & tr & H1 & H & Hbody). cbn [handler] in H1. rewrite H1.
      do 2 eexists. split; [reflexivity | split; [cbn in *; tauto | exact Hbody]].
    + destruct (handler_answers w env FundEscrowEndpoint (reqBody req))
        as (res & tr & H1 & H & Hbody). cbn [handler] in H1. rewrite H1.
      do 2 eexists. split; [reflexivity | split; [cbn in *; tauto | exact Hbody]].
    + destruct (handler_answers w env ConfirmDeliveryEndpoint (reqBody req))
        as (res & tr & H1 & H & Hbody). cbn [handler] in H1. rewrite H1.
      do 2 eexists. split; [reflexivity | split; [cbn in *; tauto | exact Hbody]].
    + destruct (handler_answers w env StoreDocumentEndpoint (reqBody req))
        as (res & tr & H1 & H & Hbody). cbn [handler] in H1. rewrite H1.
      do 2 eexists. split; [reflexivity | split; [cbn in *; tauto | exact Hbody]].
    + do 2 eexists. split; [reflexivity | split; [cbn; tauto | discriminate]].
Qed.

(** X2. Every request is answered with one of 200, 204, 400, 401, 404, 429
    and 500.  A preflight ([OPTIONS]) is answered 204 by [cors()] before
    anything else, and a body the parser refuses is answered 500
    ['Internal server error'] before the key check, both without a point
    of the limiter and without a call.  No route handler lets an
    exception escape: ['Internal server error'] is the answer only to such
    a body and to a path [/nonce/:address] whose parameter does not
    decode. *)
Theorem app_status_codes w env st (x : Incoming) :
  let res := fst (fst (app w env st x)) in
  In (statusCode res) [200; 204; 400; 401; 404; 429; 500]
  /\ (is_options (incomingMethod x) = true -> app w env st x = (no_content, [], st))
  /\ (is_options (incomingMethod x) = false -> is_malformed x = true ->
      app w env st x = (internal_error, [], st))
  /\ (responseBody res = ErrorBody "Internal server error" ->
      is_options (incomingMethod x) = false
      /\ (is_malformed x = true \/ undecodable (incomingPath x))).
Proof.
  unfold app. destruct (is_options (incomingMethod x)) eqn:Hopt.
  { cbn. repeat split; try tauto; try discriminate. }
  destruct x as [req|method path headers ip]; cbn [is_malformed incomingPath];
    [|cbn; repeat split; try tauto; try discriminate; auto].
  destruct (negb (String.eqb (reqPath req) "/health") && api_key_rejected env req).
  { cbn. repeat split; try tauto; discriminate. }
  destruct (consume env st (reqIp req) (date_now w)) as [[|ms] st'];
    [|cbn; repeat split; try tauto; discriminate].
  destruct (routes_answer w env req) as [(res & tr & Hrun & Hin & Hbody)|(Hdec & e & Hrun)];
    rewrite Hrun; cbn [fst].
  - split; [cbn in *; tauto|]. split; [discriminate|]. split; [discriminate|].
    intros H. contradiction.
  - split; [cbn; tauto|]. split; [discriminate|]. split; [discriminate|].
    intros _. split; [reflexivity | right; exact Hdec].
Qed.

Example preflight_answered_by_cors :
  app goodWorld keyedEnv fullWindow preflightRequest = (no_content, [], fullWindow).
Proof. vm_compute. reflexivity. Qed.

Example unparsable_body_internal_error :
  app goodWorld keyedEnv fullWindow
      (Malformed "POST" "/relay/fund-escrow" ∅ "203.0.113.9")
  = (internal_error, [], fullWindow).
Proof. vm_compute. reflexivity. Qed.

Example bad_escape_internal_error :
  fst (app goodWorld sampleEnv ∅ badEscapeRequest) = (internal_error, [])
  /\ fst (app goodWorld sampleEnv ∅ escapedNonceRequest)
     = (json (NonceBody "7"), [ReadNonces (JStr buyerAddr)]).
Proof. split; vm_compute; reflexivity. Qed.

(** ** The API key *)

Lemma api_key_rejected_iff env req :
  api_key_rejected env req = true <-> wrong_api_key env req.
Proof.
  unfold api_key_rejected, wrong_api_key. destruct (API_KEY env) as [key|].
  - rewrite andb_true_iff, !negb_true_iff, String.eqb_neq, bool_decide_eq_false.
    split.
    + intros [Hne Hhdr]. exists key. auto.
    + intros (k & Hk & Hne & Hhdr). injection Hk as <-. auto.
  - split; [discriminate|]. intros (k & Hk & _). discriminate.
Qed.

(** X3. A request is answered 401 exactly when it is no preflight, its
    body was accepted by the parser, its path is not [/health], a
    non-empty API key is configured and the [x-api-key] header differs
    from it; it is then turned away before the rate limiter, which keeps
    its state, and before any chain call. *)
Theorem api_key_gate w env st (x : Incoming) :
  (forall req, x = Accepted req ->
     is_options (reqMethod req) = false ->
     reqPath req <> "/health" -> wrong_api_key env req ->
     app w env st x = (status_json 401 (ErrorBody "Invalid API key"), [], st))
  /\ (statusCode (fst (fst (app w env st x))) = 401 ->
      exists req, x = Accepted req
                  /\ is_options (reqMethod req) = false
                  /\ reqPath req <> "/health" /\ wrong_api_key env req).
Proof.
  split.
  - intros req -> Hopt Hpath Hkey. unfold app. cbn [incomingMethod].
    apply String.eqb_neq in Hpath. apply api_key_rejected_iff in Hkey.
    now rewrite Hopt, Hpath, Hkey.
  - unfold app. destruct (is_options (incomingMethod x)) eqn:Hopt; [cbn; discriminate|].
    destruct x as [req|method path headers ip]; [|cbn; discriminate].
    cbn [incomingMethod] in Hopt.
    destruct (negb (String.eqb (reqPath req) "/health") && api_key_rejected env req)
      eqn:Hgate.
    + intros _. apply andb_prop in Hgate as [Hpath Hkey].
      apply negb_true_iff, String.eqb_neq in Hpath.
      apply api_key_rejected_iff in Hkey. eauto.
    + destruct (consume env st (reqIp req) (date_now w)) as [[|ms] st'];
        [|cbn; discriminate].
      destruct (routes_answer w env req)
        as [(res & tr & -> & Hin & _)|(_ & e & ->)]; cbn [fst].
      * intros H401. rewrite H401 in Hin. cbn in Hin.
        repeat destruct Hin as [Hin|Hin]; try discriminate; contradiction.
      * cbn. discriminate.
Qed.

Lemma api_key_gate_witness :
  app goodWorld keyedEnv ∅ keylessFundRequest
  = (status_json 401 (ErrorBody "Invalid API key"), [], ∅).
Proof.
  apply (proj1 (api_key_gate goodWorld keyedEnv ∅ keylessFundRequest) keylessFundRequest).
  - reflexivity.
  - reflexivity.
  - discriminate.
  - exists "s3cret". repeat split; discriminate.
Defined.

(** The same request as a preflight, and with a body the parser refuses,
    is answered before its key is looked at. *)
Example key_not_reached :
  statusCode (fst (fst (app goodWorld keyedEnv ∅ preflightRequest))) = 204
  /\ statusCode (fst (fst (app goodWorld keyedEnv ∅
                             (Malformed "POST" "/relay/fund-escrow" ∅ "203.0.113.9"))))
     = 500.
Proof. split; vm_compute; reflexivity. Qed.

(** ** The rate limiter *)

Lemma consume_lookup_other env st key key' now :
  key <> key' -> snd (consume env st key now) !! key' = st !! key'.
Proof.
  intros Hne. unfold consume. destruct (incrby st key now) as [r ms].
  cbn [snd]. now rewrite lookup_insert_ne.
Qed.

Lemma consume_verdict_local env st1 st2 key now :
  st1 !! key = st2 !! key ->
  fst (consume env st1 key now) = fst (consume env st2 key now).
Proof.
  intros H. unfold consume, incrby. rewrite H.
  destruct (st2 !! key) as [r|]; [destruct (0 <? expiresAt r - now)|]; reflexivity.
Qed.

Lemma app_state w env st (x : Incoming) :
  snd (app w env st x) = st
  \/ snd (app w env st x) = snd (consume env st (incomingIp x) (date_now w)).
Proof.
  unfold app. destruct (is_options (incomingMethod x)); [now left|].
  destruct x as [req|method path headers ip]; [|now left]. cbn [incomingIp].
  destruct (negb (String.eqb (reqPath req) "/health") && api_key_rejected env req);
    [now left|].
  destruct (consume env st (reqIp req) (date_now w)) as [[|ms] st'];
    [destruct (run (routes w env req)) as [[res|e] tr]|]; now right.
Qed.

Lemma app_answer_local w env st1 st2 (x : Incoming) :
  st1 !! incomingIp x = st2 !! incomingIp x ->
  fst (app w env st1 x) = fst (app w env st2 x).
Proof.
  intros H. unfold app. destruct (is_options (incomingMethod x)); [reflexivity|].
  destruct x as [req|method path headers ip]; [|reflexivity]. cbn [incomingIp] in H.
  destruct (negb (String.eqb (reqPath req) "/health") && api_key_rejected env req);
    [reflexivity|].
  pose proof (consume_verdict_local env st1 st2 (reqIp req) (date_now w) H) as Hv.
  destruct (consume env st1 (reqIp req) (date_now w)) as [v1 st1'].
  destruct (consume env st2 (reqIp req) (date_now w)) as [v2 st2'].
  cbn [fst] in Hv. subst v2. destruct v1; [|reflexivity].
  destruct (run (routes w env req)) as [[res|e] tr]; reflexivity.
Qed.

(** X4. The limiter is keyed by the client's IP: the answer to a request
    (response and chain calls) is the same whether or not a request from
    another IP was served before it, at whatever time. *)
Theorem rate_limit_per_ip w1 w2 env st req1 req2 :
  reqIp req1 <> reqIp req2 ->
  fst (app w2 env (snd (app w1 env st req1)) req2) = fst (app w2 env st req2).
Proof.
  intros Hne. apply app_answer_local.
  destruct (app_state w1 env st req1) as [-> | ->]; [reflexivity|].
  now apply consume_lookup_other.
Qed.

Lemma rate_limit_per_ip_witness :
  fst (app goodWorld sampleEnv (snd (app goodWorld sampleEnv ∅ healthRequest))
           otherIpRequest)
  = fst (app goodWorld sampleEnv ∅ otherIpRequest).
Proof.
  apply (rate_limit_per_ip goodWorld goodWorld sampleEnv ∅ healthRequest otherIpRequest).
  discriminate.
Defined.

Lemma consume_all_live env st key n exp ts :
  st !! key = Some {| consumedPoints := n; expiresAt := exp |} ->
  Forall (fun t => t < exp) ts ->
  fst (consume_all env st key ts)
  = imap (fun i t => window_verdict env exp (n + i) t) ts.
Proof.
  revert st n. induction ts as [|t ts IH]; intros st n Hst Hts; [reflexivity|].
  apply Forall_cons in Hts as [Ht Hts].
  cbn [consume_all]. unfold consume at 1. unfold incrby. rewrite Hst. cbn [expiresAt].
  assert (Hlive : (0 <? exp - t) = true) by (apply Z.ltb_lt; lia).
  rewrite Hlive. cbn [consumedPoints expiresAt].
  specialize (IH (<[key := {| consumedPoints := S n; expiresAt := exp |}]> st) (S n)
                 (lookup_insert_eq _ _ _) Hts).
  destruct (consume_all env _ key ts) as [vs st''] eqn:Hrest.
  cbn [fst] in *. subst vs. cbn [imap]. f_equal.
  - unfold window_verdict. rewrite Nat.add_0_r.
    destruct (Nat.ltb_spec (limiterPoints env) (S n)), (Nat.ltb_spec n (limiterPoints env));
      try reflexivity; lia.
  - apply imap_ext. intros i x _. cbn. f_equal. lia.
Qed.

(** X5. For a key with no record, or with an expired one, the request at
    [t0] opens a window of one hour; of the requests made before it
    expires, the first [points] (100 by default) are admitted and every
    later one is rejected with the time left until [t0 + 3600000]. *)
Theorem rate_window env st key t0 ts :
  st !! key = None \/ (exists r, st !! key = Some r /\ expiresAt r <= t0) ->
  Forall (fun t => t < t0 + 3600000) ts ->
  fst (consume_all env st key (t0 :: ts))
  = imap (fun i t => window_verdict env (t0 + 3600000) i t) (t0 :: ts).
Proof.
  intros Hfresh Hts. cbn [consume_all].
  assert (Hfirst : consume env st key t0
                   = (window_verdict env (t0 + 3600000) 0 t0,
                      <[key := {| consumedPoints := 1; expiresAt := t0 + 3600000 |}]> st)).
  { unfold consume, incrby, window_verdict, duration.
    assert (Hv : (if (limiterPoints env <? 1)%nat then Rejected (3600 * 1000) else Resolved)
                 = if (0 <? limiterPoints env)%nat then Resolved
                   else Rejected (t0 + 3600000 - t0)).
    { replace (t0 + 3600000 - t0) with (3600 * 1000) by lia.
      destruct (Nat.ltb_spec (limiterPoints env) 1), (Nat.ltb_spec 0 (limiterPoints env));
        try reflexivity; lia. }
    destruct Hfresh as [-> | (r & -> & Hexp)].
    - cbn [consumedPoints]. now rewrite Hv.
    - assert (Hdead : (0 <? expiresAt r - t0) = false) by (apply Z.ltb_ge; lia).
      rewrite Hdead. cbn [consumedPoints]. now rewrite Hv. }
  rewrite Hfirst.
  pose proof (consume_all_live env
                (<[key := {| consumedPoints := 1; expiresAt := t0 + 3600000 |}]> st)
                key 1 (t0 + 3600000) ts (lookup_insert_eq _ _ _) Hts) as Hrest.
  destruct (consume_all env _ key ts) as [vs st''].
  cbn [fst] in *. subst vs. cbn [imap]. f_equal.
Qed.

Lemma rate_window_witness :
  fst (consume_all sampleEnv ∅ "203.0.113.9"
         (1700000000000 :: replicate 100 1700000001000))
  = imap (fun i t => window_verdict sampleEnv (1700000000000 + 3600000) i t)
         (1700000000000 :: replicate 100 1700000001000).
Proof.
  apply (rate_window sampleEnv ∅ "203.0.113.9" 1700000000000
           (replicate 100 1700000001000)).
  - left. reflexivity.
  - apply Forall_forall. intros t Ht.
    apply elem_of_replicate in Ht as [-> _]. lia.
Defined.

Example hundred_and_first_rejected :
  fst (consume_all sampleEnv ∅ "203.0.113.9"
         (1700000000000 :: replicate 100 1700000001000)) !! 100%nat
  = Some (Rejected 3599000).
Proof. vm_compute. reflexivity. Qed.

(** X6. As long as the clock does not run backwards, no record outlives
    its window, so a rejection carries between 1 and 3600000 milliseconds
    and the [retryAfter] of a 429 lies between 0 and 3600 seconds. *)
Theorem retry_after_bounds env st key now now' :
  limiter_wf st now ->
  now <= now' ->
  limiter_wf (snd (consume env st key now')) now'
  /\ (forall ms, fst (consume env st key now') = Rejected ms ->
        0 < ms <= 3600000 /\ 0 <= round_seconds ms <= 3600).
Proof.
  intros Hwf Hle. unfold limiter_wf in *. unfold consume, incrby, duration in *.
  assert (Hround : forall ms, 0 < ms <= 3600000 -> 0 <= round_seconds ms <= 3600).
  { intros ms Hms. unfold round_seconds. split.
    - apply Z.div_pos; lia.
    - assert ((ms + 500) / 1000 < 3601) by (apply Z.div_lt_upper_bound; lia). lia. }
  destruct (st !! key) as [r|] eqn:Hkey.
  - pose proof (Hwf key r Hkey) as Hr.
    destruct (0 <? expiresAt r - now') eqn:Hlive; cbn [fst snd consumedPoints].
    + apply Z.ltb_lt in Hlive. split.
      * intros k r' Hk. destruct (decide (key = k)) as [<-|Hne].
        -- rewrite lookup_insert_eq in Hk. injection Hk as <-. cbn. lia.
        -- rewrite lookup_insert_ne in Hk by done. specialize (Hwf k r' Hk). lia.
      * intros ms Hms. destruct (_ <? _)%nat; [|discriminate].
        injection Hms as <-. split; [lia|]. apply Hround. lia.
    + split.
      * intros k r' Hk. destruct (decide (key = k)) as [<-|Hne].
        -- rewrite lookup_insert_eq in Hk. injection Hk as <-. cbn. lia.
        -- rewrite lookup_insert_ne in Hk by done. specialize (Hwf k r' Hk). lia.
      * intros ms Hms. destruct (_ <? _)%nat; [|discriminate].
        injection Hms as <-. split; [lia|]. apply Hround. lia.
  - cbn [fst snd consumedPoints]. split.
    + intros k r' Hk. destruct (decide (key = k)) as [<-|Hne].
      * rewrite lookup_insert_eq in Hk. injection Hk as <-. cbn. lia.
      * rewrite lookup_insert_ne in Hk by done. specialize (Hwf k r' Hk). lia.
    + intros ms Hms. destruct (_ <? _)%nat; [|discriminate].
      injection Hms as <-. split; [lia|]. apply Hround. lia.
Qed.

Lemma retry_after_bounds_witness :
  fst (consume sampleEnv fullWindow "203.0.113.9" 1700000001000) = Rejected 3599000
  /\ limiter_wf (snd (consume sampleEnv fullWindow "203.0.113.9" 1700000001000))
                1700000001000
  /\ 0 < 3599000 <= 3600000 /\ 0 <= round_seconds 3599000 <= 3600.
Proof.
  assert (Hrej : fst (consume sampleEnv fullWindow "203.0.113.9" 1700000001000)
                 = Rejected 3599000) by (vm_compute; reflexivity).
  split; [exact Hrej|].
  destruct (retry_after_bounds sampleEnv fullWindow "203.0.113.9"
              1700000000000 1700000001000) as [Hwf Hms].
  - intros key r H. unfold fullWindow in H.
    apply lookup_singleton_Some in H as [_ <-]. unfold duration. cbn. lia.
  - lia.
  - split; [exact Hwf | exact (Hms _ Hrej)].
Defined.

Example retry_after_may_be_zero : round_seconds 499 = 0.
Proof. reflexivity. Qed.

(** ** The nonce endpoint *)

Lemma substring_all s : String.substring 0 (String.length s) s = s.
Proof. induction s as [|c s IH]; [reflexivity|]. cbn. now rewrite IH. Qed.

Lemma is_address_spec s : is_address s = true <-> hex_address s.
Proof.
  unfold is_address, hex_address. split.
  - intros H. apply andb_prop in H as [H Hhex]. apply andb_prop in H as [Hpre Hlen].
    apply Nat.eqb_eq in Hlen.
    destruct s as [|c1 [|c2 h]]; try discriminate.
    cbn [String.prefix] in Hpre.
    destruct (ascii_dec "0" c1) as [<-|]; [|discriminate].
    destruct (ascii_dec "x" c2) as [<-|]; [|discriminate].
    exists h. cbn in Hlen. assert (Hl : String.length h = 40%nat) by lia.
    repeat split; [exact Hl|].
    cbn [String.substring] in Hhex. rewrite <- Hl, substring_all in Hhex. exact Hhex.
  - intros (h & -> & Hl & Hhex).
    change (String.append "0x" h) with (String "0" (String "x" h)).
    assert (Hsub : String.substring 2 40 (String "0" (String "x" h)) = h).
    { cbn [String.substring]. rewrite <- Hl. apply substring_all. }
    rewrite Hsub, Hhex. cbn. rewrite Hl.
    destruct h; [discriminate Hl | reflexivity].
Qed.

(** X7. [GET /nonce/:address] reads the chain only for [0x] followed by
    exactly 40 hex digits: any other parameter is answered 400 without a
    call; a well-formed one costs one [nonces] read and is answered with
    the nonce in decimal, or with 500 ['Failed to get nonce'] when the read
    fails. *)
Theorem nonce_endpoint w address :
  (~ hex_address address ->
   run (nonceHandler w address)
   = (Ok (status_json 400 (ErrorBody "Invalid address format")), []))
  /\ (hex_address address ->
      run (nonceHandler w address)
      = (Ok match readNonces w (JStr address) with
            | Ok nonce => json (NonceBody (pretty nonce))
            | Throw _ => status_json 500 (ErrorBody "Failed to get nonce")
            end,
         [ReadNonces (JStr address)])).
Proof.
  unfold nonceHandler, getNonce. unfold_monad. split.
  - intros H. destruct (is_address address) eqn:Ha; [|reflexivity].
    apply is_address_spec in Ha. contradiction.
  - intros H. apply is_address_spec in H. rewrite H. cbn [negb Datatypes.app].
    destruct (readNonces w (JStr address)); reflexivity.
Qed.

Lemma nonce_endpoint_witness :
  run (nonceHandler goodWorld buyerAddr)
  = (Ok (json (NonceBody "7")), [ReadNonces (JStr buyerAddr)]).
Proof.
  apply (proj2 (nonce_endpoint goodWorld buyerAddr)).
  exists "70997970C51812dc3A010C7d01b50e0d17dc79C8". repeat split.
Defined.

Example nonce_endpoint_rejects :
  run (nonceHandler goodWorld "0xZZZ")
  = (Ok (status_json 400 (ErrorBody "Invalid address format")), [])
  /\ run (nonceHandler goodWorld "70997970C51812dc3A010C7d01b50e0d17dc79C8")
     = (Ok (status_json 400 (ErrorBody "Invalid address format")), [])
  /\ run (nonceHandler goodWorld "0X70997970C51812dc3A010C7d01b50e0d17dc79C8")
     = (Ok (status_json 400 (ErrorBody "Invalid address format")), []).
Proof. vm_compute. repeat split. Qed.

(** ** The pipeline, step to step *)

Ltac trace_in :=
  repeat first [apply list_elem_of_here | apply list_elem_of_further].

(** X8. Whatever is simulated was estimated: the call given to
    [simulateContract] has the method and arguments of the gas estimation
    of the same request, the gas that estimation returned, and the
    adjusted price of the gas price just read. *)
Theorem simulation_matches_estimate w env req :
  let '(r, tr) := run (relay w env req) in
  forall c, SimulateContract c ∈ tr ->
    functionName c = methodName req
    /\ callArgs c = params req
    /\ EstimateContractGas (methodName req) (params req) ∈ tr
    /\ estimateContractGas w (methodName req) (params req) = Ok (callGas c)
    /\ exists gp, getGasPrice w = Ok gp /\ adjustedGasPrice env gp = Ok (callGasPrice c).
Proof.
  destruct req; unfold_service; unfold_monad; known_constants;
    repeat step; intros c Hin; trace_mem;
    cbn [functionName callArgs callGas callGasPrice methodName params];
    (split; [reflexivity|]); (split; [reflexivity|]);
    (split; [trace_in|]); (split; [assumption|]); eauto.
Qed.

(** X9. What is written is what was simulated, and the receipt awaited is
    that of the hash the write returned: [writeContract] receives the
    request a successful simulation of this run produced, and
    [waitForTransactionReceipt] the hash of a successful write. *)
Theorem submission_chain w env req :
  let '(r, tr) := run (relay w env req) in
  (forall c', WriteContract c' ∈ tr ->
     exists c, SimulateContract c ∈ tr /\ simulateContract w c = Ok c')
  /\ (forall h, WaitForTransactionReceipt h ∈ tr ->
        exists c', WriteContract c' ∈ tr /\ writeContract w c' = Ok h).
Proof.
  destruct req; unfold_service; unfold_monad; known_constants;
    repeat step;
    (split; [intros c' Hin | intros h Hin]); trace_mem;
    eexists; (split; [trace_in | eassumption]).
Qed.

(** X10. A relay operation returns a result only after the receipt of its
    transaction arrived: the last call is the wait for that receipt, and
    the result reports [success: true] with the hash and the gas used of
    that receipt.  Only [relayCreateEscrow] adds an [escrowId]. *)
Theorem success_reports_receipt w env req res :
  fst (run (relay w env req)) = Ok res ->
  exists h receipt,
    last (snd (run (relay w env req))) = Some (WaitForTransactionReceipt h)
    /\ waitForTransactionReceipt w h = Ok receipt
    /\ success res = true
    /\ resultTransactionHash res = transactionHash receipt
    /\ resultGasUsed res = pretty (gasUsed receipt)
    /\ match req with
       | CreateEscrow _ _ _ _ _ _ => is_Some (escrowId res)
       | _ => escrowId res = None
       end.
Proof.
  destruct req; unfold_service; unfold_monad; known_constants;
    repeat step_inside; cbn [fst snd]; intros H; try discriminate H;
    injection H as <-; do 2 eexists; cbn [last];
    (split; [reflexivity|]); (split; [eassumption|]);
    cbn; repeat split; eauto.
Qed.

Lemma success_reports_receipt_witness :
  exists h receipt,
    last (snd (run (relay goodWorld sampleEnv sampleConfirm)))
    = Some (WaitForTransactionReceipt h)
    /\ waitForTransactionReceipt goodWorld h = Ok receipt
    /\ success {| success := true; escrowId := None;
                  resultTransactionHash := sampleHash; resultGasUsed := "120000" |} = true
    /\ sampleHash = transactionHash receipt
    /\ "120000" = pretty (gasUsed receipt)
    /\ None = @None JsVal.
Proof.
  apply (success_reports_receipt goodWorld sampleEnv sampleConfirm
           {| success := true; escrowId := None;
              resultTransactionHash := sampleHash; resultGasUsed := "120000" |}).
  vm_compute. reflexivity.
Defined.

(** X11. Nothing is spent on an unverified request: a preflight read, a
    gas estimation, a simulation, a write or a wait only ever follows, in
    the same run, a verification of the request's signature against its
    actor that returned true. *)
Theorem spending_needs_verification w env req :
  let '(r, tr) := run (relay w env req) in
  forall c, c ∈ tr -> after_verification c = true ->
    exists m, tr !! 1%nat = Some (VerifyTypedData (actor req) m (signatureOf req))
              /\ verifyTypedData w (actor req) (domain env) m (signatureOf req) = Ok true.
Proof.
  destruct req; cbn [actor signatureOf]; unfold_service; unfold_monad; known_constants;
    repeat step; intros c Hin Hc; trace_mem; try discriminate Hc;
    eexists; (split; [reflexivity | eassumption]).
Qed.

(** ** Receipt logs *)



(** ** Misconfiguration and ill-typed fields *)

(** X13. When the gas price multiplier times 100 is not a finite number,
    no relay request succeeds: [BigInt] throws after the gas price is
    read, so nothing is simulated or written, though the request was
    verified, preflighted and estimated as usual. *)
Theorem bad_multiplier_blocks_relay w env req :
  floorZ (default default_multiplier (GAS_PRICE_MULTIPLIER env) * 100)%float = None ->
  let '(r, tr) := run (relay w env req) in
  (exists e, r = Throw e)
  /\ existsb is_simulate tr = false
  /\ submissions tr = 0%nat.
Proof.
  intros Hnan.
  assert (Hadj : forall gp, adjustedGasPrice env gp
                 = Throw (RangeError "cannot be converted to a BigInt because it is not an integer")).
  { intros gp. unfold adjustedGasPrice, BigInt_floor. now rewrite Hnan. }
  destruct req; unfold_service; unfold_monad; known_constants;
    repeat (step; rewrite ?Hadj; cbn beta iota);
    repeat split; eauto.
Qed.

Lemma bad_multiplier_blocks_relay_witness :
  let '(r, tr) := run (relay goodWorld nanEnv sampleFund) in
  (exists e, r = Throw e)
  /\ existsb is_simulate tr = false
  /\ submissions tr = 0%nat.
Proof.
  apply (bad_multiplier_blocks_relay goodWorld nanEnv sampleFund).
  vm_compute. reflexivity.
Defined.

(** X14. A signature that is not a string makes [relayCreateEscrow] throw
    a [TypeError] before any call, and so does a document hash that is not
    a string in [relayStoreDocument]: a truthy number, boolean, array or
    object in that field passes the handler's missing-field test and is
    answered 500. *)
Theorem non_string_field_type_error w env seller amount token deadline actor id
    signature v :
  is_string v = false ->
  (exists e, run (relayCreateEscrow w env seller amount token deadline actor v)
             = (Throw e, []) /\ errName e = "TypeError")
  /\ (exists e, run (relayStoreDocument w env id v actor signature)
                = (Throw e, []) /\ errName e = "TypeError").
Proof.
  intros Hv. unfold_service. unfold_monad. unfold bad_hex_format.
  destruct v; try discriminate Hv; cbn; (split; [|destruct (has_string id)]);
    eexists; split; reflexivity.
Qed.

Lemma non_string_field_type_error_witness :
  (exists e, run (relayCreateEscrow goodWorld sampleEnv (JStr sellerAddr)
                    (JStr "1000000000") (JStr tokenAddr) (JNum 1900000000%float)
                    (JStr buyerAddr) (JNum 12345%float))
             = (Throw e, []) /\ errName e = "TypeError")
  /\ (exists e, run (relayStoreDocument goodWorld sampleEnv (JStr sampleId)
                       (JNum 12345%float) (JStr buyerAddr) (JStr sig65))
                = (Throw e, []) /\ errName e = "TypeError").
Proof.
  apply (non_string_field_type_error goodWorld sampleEnv (JStr sellerAddr)
           (JStr "1000000000") (JStr tokenAddr) (JNum 1900000000%float)
           (JStr buyerAddr) (JStr sampleId) (JStr sig65) (JNum 12345%float)).
  reflexivity.
Defined.

Example parseEther_floor : parseEther "0.01" = Some 10000000000000000.
Proof. reflexivity. Qed.

(** ** The contracts: what every history preserves *)

Module ContractFacts.
Import Contracts.

Ltac unfold_contracts :=
  unfold exec, stateOf, onToken,
    relayCreateEscrow, relayFundEscrow, relayConfirmDelivery, relayStoreDocument,
    relayerTransferOwnership, authorizeRelayer, revokeRelayer,
    createEscrow, fundEscrow, storeDocumentHash, confirmDelivery, initiateDispute,
    cancelEscrow, resolveDispute, createEscrowMeta, fundEscrowMeta,
    confirmDeliveryMeta, storeDocumentHashMeta, updateTrustedForwarder,
    transferOwnership, renounceOwnership, requireSigner,
    safeTransfer, safeTransferFrom, faucet, mint,
    erc20_transferFrom, erc20_approve, erc20_transfer, erc20_mint,
    checked_add, require in *;
  unfold mbind, outcome_bind, mret, outcome_ret in *;
  cbn beta iota in *.

(** Split a successful run on every test it passed. *)
Ltac passed H :=
  repeat (match type of H with
          | context [match ?x with _ => _ end] =>
              lazymatch x with
              | context [match _ with _ => _ end] => fail
              | _ => destruct x eqn:?; try discriminate H
              end
          end; cbn beta iota in H).

(** *** Nonces and signatures *)

Lemma exec_nonce d sender now tx st st' :
  exec d sender now tx st = Done st' ->
  forall a, nonceOf st' a
            = nonceOf st a + (if decide (metaActor tx = Some a) then 1 else 0).
Proof.
  intros H a. destruct tx; unfold_contracts; passed H;
    inversion H; subst st'; clear H;
    destruct (decide (_ = Some a)) as [Ha|Ha]; cbn [metaActor] in Ha;
    try discriminate Ha; unfold nonceOf; cbn; try lia.
  all: try (injection Ha as <-; rewrite lookup_insert_eq; cbn; unfold nonceOf; lia).
  all: rewrite lookup_insert_ne by congruence; lia.
Qed.

(** X15. The nonce of an account counts its meta-transactions: over any
    history it grows by the number of successful transactions signed by
    that account, and by nothing else. *)
Theorem nonce_counts_meta_transactions d txs st a :
  nonceOf (replay d txs st) a = nonceOf st a + consumed d txs st a.
Proof.
  revert st. induction txs as [|[[sender now] tx] txs IH]; intros st; cbn [replay consumed];
    [lia|].
  destruct (exec d sender now tx st) as [st'|] eqn:H; [|apply IH].
  rewrite IH, (exec_nonce d sender now tx st st' H a). lia.
Qed.

Lemma relay_needs_authorization d sender now tx st :
  isRelay tx = true -> isAuthorized st sender = false ->
  exec d sender now tx st = Revert "Not authorized relayer".
Proof.
  intros Hr Hs. destruct tx; try discriminate Hr; unfold_contracts; now rewrite Hs.
Qed.

(** X16. Access to the signed entry points: the escrow contract serves its
    meta functions to the trusted forwarder only, and the relayer contract
    serves authorized relayers only, and only while it is itself the
    trusted forwarder. *)
Theorem meta_requires_forwarder d sender now tx st :
  (isMeta tx = true -> sender <> trustedForwarder st ->
   exec d sender now tx st = Revert "Only trusted forwarder")
  /\ (isRelay tx = true -> isAuthorized st sender = false ->
      exec d sender now tx st = Revert "Not authorized relayer")
  /\ (isRelay tx = true -> isAuthorized st sender = true ->
      relayerAddress d <> trustedForwarder st ->
      exec d sender now tx st = Revert "Only trusted forwarder").
Proof.
  split; [|split].
  - intros Hm Hs. apply Z.eqb_neq in Hs.
    destruct tx; try discriminate Hm; unfold_contracts; now rewrite Hs.
  - apply relay_needs_authorization.
  - intros Hr Hs Hf. apply Z.eqb_neq in Hf.
    destruct tx; try discriminate Hr; unfold_contracts; now rewrite Hs, Hf.
Qed.

Lemma replay_nonce_grows d txs st a : nonceOf st a <= nonceOf (replay d txs st) a.
Proof.
  revert st. induction txs as [|[[sender now] tx] txs IH]; intros st; [reflexivity|].
  cbn [replay]. destruct (exec d sender now tx st) as [st'|] eqn:H; [|apply IH].
  pose proof (exec_nonce d sender now tx st st' H a) as Ha.
  specialize (IH st'). case_decide; lia.
Qed.

Lemma meta_signed d sender now tx st st' a :
  exec d sender now tx st = Done st' ->
  metaActor tx = Some a ->
  exists m, metaData tx (nonceOf st a) = Some m
            /\ recoverSigner d m (metaSignature tx) = Some a.
Proof.
  intros H Ha. destruct tx; try discriminate Ha; injection Ha as <-;
    unfold_contracts; passed H;
    cbn [metaData metaSignature]; eexists; (split; [reflexivity|]);
    match goal with
    | Hr : recoverSigner _ _ _ = Some ?z, Hz : (?z =? _) = true |- _ =>
        apply Z.eqb_eq in Hz; subst z; exact Hr
    end.
Qed.

Lemma meta_unsigned d sender now tx st a m :
  metaActor tx = Some a ->
  metaData tx (nonceOf st a) = Some m ->
  recoverSigner d m (metaSignature tx) <> Some a ->
  exists reason, exec d sender now tx st = Revert reason.
Proof.
  intros Ha Hm Hr. destruct tx; try discriminate Ha; injection Ha as <-;
    cbn [metaData metaSignature] in *; injection Hm as <-;
    unfold_contracts;
    repeat match goal with
           | |- context [if ?c then _ else _] => destruct c eqn:?; cbn beta iota
           end; eauto;
    destruct (recoverSigner d _ _) as [z|] eqn:Hz; cbn beta iota; eauto;
    destruct (z =? _) eqn:Heq; cbn beta iota; eauto;
    apply Z.eqb_eq in Heq; subst z; contradiction.
Qed.

Lemma metaData_nonce tx n m : metaData tx n = Some m -> dataNonce m = n.
Proof. destruct tx; intros H; try discriminate H; injection H as <-; reflexivity. Qed.

Lemma metaData_some tx a n : metaActor tx = Some a -> is_Some (metaData tx n).
Proof. destruct tx; intros H; try discriminate H; cbn; eauto. Qed.

Lemma sample_nonce_bound : nonce_bound sampleDeployment.
Proof.
  intros m1 m2 sig a. unfold sampleDeployment, sampleRecover. cbn [recoverSigner].
  generalize (dataNonce m1) (dataNonce m2). intros n1 n2.
  repeat match goal with
         | |- context [String.eqb sig ?s] =>
             destruct (String.eqb_spec sig s); [subst sig; cbn [String.eqb]|]
         end;
    cbn [andb]; try discriminate;
    repeat match goal with
           | |- context [?n =? ?k] => destruct (Z.eqb_spec n k)
           | |- context [?n <? ?k] => destruct (Z.ltb_spec n k)
           end;
    cbn [andb]; intros H1 H2; try congruence;
    try (injection H1 as H1; injection H2 as H2; lia).
Qed.

(** X17. No replay: once a signed transaction has succeeded, the same
    transaction reverts whoever sends it, whenever, and whatever happened
    in between, provided signatures commit to their nonce. *)
Theorem meta_tx_never_replays d sender now tx st st1 actor txs sender' now' :
  nonce_bound d ->
  metaActor tx = Some actor ->
  exec d sender now tx st = Done st1 ->
  exists reason, exec d sender' now' tx (replay d txs st1) = Revert reason.
Proof.
  intros Hbound Ha Hexec.
  destruct (meta_signed d sender now tx st st1 actor Hexec Ha) as (m & Hm & Hsig).
  pose proof (exec_nonce d sender now tx st st1 Hexec actor) as Hn.
  rewrite decide_True in Hn by done.
  pose proof (replay_nonce_grows d txs st1 actor) as Hgrow.
  destruct (metaData_some tx actor (nonceOf (replay d txs st1) actor) Ha) as [m' Hm'].
  apply (meta_unsigned d sender' now' tx _ actor m' Ha Hm').
  intros Hsig'. pose proof (Hbound m m' _ _ Hsig Hsig') as Heq.
  apply metaData_nonce in Hm, Hm'. lia.
Qed.

Lemma meta_tx_never_replays_witness :
  exists reason,
    exec sampleDeployment 3 100060
      (RelayCreateEscrow 1002 (500 * 10 ^ 6) 7000 200000 1001 "buyer-signature-0")
      (replay sampleDeployment
         [ (2, 100030, RelayFundEscrow sampleEscrowId 1001 "buyer-signature-1") ]
         escrow_created)
    = Revert reason.
Proof.
  apply (meta_tx_never_replays sampleDeployment 2 100020
           (RelayCreateEscrow 1002 (500 * 10 ^ 6) 7000 200000 1001 "buyer-signature-0")
           funded_buyer escrow_created 1001).
  - exact sample_nonce_bound.
  - reflexivity.
  - vm_compute. reflexivity.
Defined.

(** Read an escrow back after the writes of a transaction. *)
Ltac read_escrow id :=
  unfold escrowOf in *; cbn in *;
  repeat match goal with
         | |- context [(<[?k := _]> _) !! id] =>
             let Hk := fresh "Hk" in
             destruct (decide (k = id)) as [Hk|Hk];
             [rewrite ?Hk in *; rewrite !lookup_insert_eq
             |rewrite !lookup_insert_ne by done]; cbn
         end.

Ltac decided :=
  repeat match goal with
         | H : bool_decide _ = true |- _ => apply bool_decide_eq_true in H
         | H : bool_decide _ = false |- _ => apply bool_decide_eq_false in H
         | H : (_ || _) = true |- _ => apply orb_prop in H; destruct H as [H|H]
         end.

(** *** The life of an escrow *)

Lemma exec_escrow d sender now tx st st' id :
  exec d sender now tx st = Done st' ->
  buyer (escrowOf st id) <> 0 ->
  terms (escrowOf st' id) = terms (escrowOf st id)
  /\ (status (escrowOf st' id) = status (escrowOf st id)
      \/ status_step (status (escrowOf st id)) (status (escrowOf st' id))).
Proof.
  intros H Hb. destruct tx; unfold_contracts; passed H;
    inversion H; subst st'; clear H; decided; read_escrow id;
    repeat match goal with
           | Hz : (_ =? 0) = true |- _ => apply Z.eqb_eq in Hz
           end;
    try contradiction;
    (split; [reflexivity|]);
    first [ left; reflexivity
          | match goal with
            | Hs : status _ = _ |- _ =>
                rewrite Hs; first [left; reflexivity | right; constructor]
            end ].
Qed.

(** X18. A settled or cancelled escrow is final: no history changes its
    terms or its status. *)
Theorem settled_is_final d txs st id :
  buyer (escrowOf st id) <> 0 ->
  status (escrowOf st id) = SETTLED \/ status (escrowOf st id) = CANCELLED ->
  terms (escrowOf (replay d txs st) id) = terms (escrowOf st id)
  /\ status (escrowOf (replay d txs st) id) = status (escrowOf st id).
Proof.
  revert st. induction txs as [|[[sender now] tx] txs IH]; intros st Hb Hs;
    [split; reflexivity|].
  cbn [replay]. destruct (exec d sender now tx st) as [st'|] eqn:H; [|now apply IH].
  destruct (exec_escrow d sender now tx st st' id H Hb) as [Ht Hstep].
  assert (Hsame : status (escrowOf st' id) = status (escrowOf st id)).
  { destruct Hstep as [Heq|Hstep]; [exact Heq|].
    destruct Hs as [Hs|Hs]; rewrite Hs in Hstep; inversion Hstep. }
  assert (Hb' : buyer (escrowOf st' id) <> 0).
  { unfold terms in Ht. injection Ht as -> _ _ _ _ _. exact Hb. }
  destruct (IH st' Hb') as [IHt IHs]; [now rewrite Hsame|].
  split; congruence.
Qed.

Lemma settled_is_final_witness :
  terms (escrowOf (replay sampleDeployment
                     [ (1001, 100060, CancelEscrow sampleEscrowId);
                       (1002, 100070, InitiateDispute sampleEscrowId "late") ]
                     escrow_settled) sampleEscrowId)
  = terms (escrowOf escrow_settled sampleEscrowId)
  /\ status (escrowOf (replay sampleDeployment
                         [ (1001, 100060, CancelEscrow sampleEscrowId);
                           (1002, 100070, InitiateDispute sampleEscrowId "late") ]
                         escrow_settled) sampleEscrowId)
     = status (escrowOf escrow_settled sampleEscrowId).
Proof.
  apply (settled_is_final sampleDeployment).
  - vm_compute. discriminate.
  - left. vm_compute. reflexivity.
Defined.

Lemma default_lookup_insert {A} (m : gmap Z A) k v i (x : A) :
  default x (<[k := v]> m !! i) = if decide (k = i) then v else default x (m !! i).
Proof.
  case_decide as Hk; [subst; now rewrite lookup_insert_eq
                     |now rewrite lookup_insert_ne].
Qed.

Lemma default_lookup_insert_pair {A} (m : gmap (Z * Z) A) k v i (x : A) :
  default x (<[k := v]> m !! i) = if decide (k = i) then v else default x (m !! i).
Proof.
  case_decide as Hk; [subst; now rewrite lookup_insert_eq
                     |now rewrite lookup_insert_ne].
Qed.

Lemma documents_step d sender now tx st st' id :
  exec d sender now tx st = Done st' ->
  documentsOf st' id = documentsOf st id
  \/ exists h, h <> 0 /\ documentsOf st' id = (documentsOf st id ++ [h])%list.
Proof.
  intros H. destruct tx; unfold_contracts; passed H;
    inversion H; subst st'; clear H; unfold documentsOf; cbn;
    try (left; reflexivity).
  all: rewrite default_lookup_insert;
    destruct (decide (_ = id)) as [Hk|Hk]; [rewrite ?Hk in *|left; reflexivity].
  all: right; eexists; split; [|reflexivity];
    match goal with
    | Hh : negb (_ =? 0) = true |- _ =>
        apply negb_true_iff, Z.eqb_neq in Hh; exact Hh
    end.
Qed.

(** X19. The documents of an escrow are append-only: a history leaves the
    stored hashes in place and in order, and adds non-zero hashes only. *)
Theorem documents_append_only d txs st id :
  exists added,
    documentsOf (replay d txs st) id = (documentsOf st id ++ added)%list
    /\ Forall (fun h => h <> 0) added.
Proof.
  revert st. induction txs as [|[[sender now] tx] txs IH]; intros st.
  - exists []. split; [now rewrite app_nil_r | constructor].
  - cbn [replay]. destruct (exec d sender now tx st) as [st'|] eqn:H; [|apply IH].
    destruct (IH st') as (added & Hadded & Hnz).
    destruct (documents_step d sender now tx st st' id H) as [Hsame|(h & Hh & Hpush)].
    + exists added. split; [congruence | exact Hnz].
    + exists (h :: added). split; [|now constructor].
      rewrite Hadded, Hpush, <- app_assoc. reflexivity.
Qed.

Lemma balance_after_transfer tk from to value a :
  default 0 (<[to := default 0 (<[from := balanceOf tk from - value]> (balances tk) !! to)
                     + value]>
               (<[from := balanceOf tk from - value]> (balances tk)) !! a)
  = balanceOf tk a - (if decide (a = from) then value else 0)
    + (if decide (a = to) then value else 0).
Proof.
  rewrite !default_lookup_insert. unfold balanceOf.
  repeat case_decide; subst; try congruence; lia.
Qed.

(** What a successful [_transfer] does. *)
Lemma erc20_transfer_done tk from to value tk' :
  erc20_transfer tk from to value = Done tk' ->
  from <> 0 /\ to <> 0 /\ value <= balanceOf tk from
  /\ (forall a, balanceOf tk' a
                = balanceOf tk a - (if decide (a = from) then value else 0)
                  + (if decide (a = to) then value else 0))
  /\ allowances tk' = allowances tk /\ totalSupply tk' = totalSupply tk
  /\ lastFaucetClaim tk' = lastFaucetClaim tk /\ tokenOwner tk' = tokenOwner tk.
Proof.
  intros H. unfold erc20_transfer, require in H.
  unfold mbind, outcome_bind, mret, outcome_ret in H. passed H.
  inversion H; subst tk'; clear H.
  repeat match goal with
         | Hz : negb (_ =? _) = true |- _ => apply negb_true_iff, Z.eqb_neq in Hz
         | Hz : (_ <=? _) = true |- _ => apply Z.leb_le in Hz
         end.
  repeat (split; [assumption || reflexivity|]).
  split; [|repeat split].
  intros a. unfold balanceOf at 1. cbn [balances set_balances].
  apply balance_after_transfer.
Qed.

(** What a successful [transferFrom] by [spender] does. *)
Lemma erc20_transferFrom_done tk spender from to value tk' :
  erc20_transferFrom tk spender from to value = Done tk' ->
  from <> 0 /\ to <> 0 /\ value <= balanceOf tk from
  /\ (allowance tk from spender < MAX_UINT256 -> value <= allowance tk from spender)
  /\ (forall a, balanceOf tk' a
                = balanceOf tk a - (if decide (a = from) then value else 0)
                  + (if decide (a = to) then value else 0))
  /\ (forall h s, allowance tk' h s
                  = if decide ((h, s) = (from, spender)
                               /\ allowance tk from spender < MAX_UINT256)
                    then allowance tk from spender - value
                    else allowance tk h s)
  /\ totalSupply tk' = totalSupply tk
  /\ lastFaucetClaim tk' = lastFaucetClaim tk /\ tokenOwner tk' = tokenOwner tk.
Proof.
  intros H. unfold erc20_transferFrom in H.
  unfold mbind, outcome_bind in H.
  destruct (allowance tk from spender <? MAX_UINT256) eqn:Hmax.
  - apply Z.ltb_lt in Hmax.
    unfold require, erc20_approve, require in H.
    unfold mbind, outcome_bind, mret, outcome_ret in H.
    destruct (value <=? allowance tk from spender) eqn:Hal; [|discriminate H].
    apply Z.leb_le in Hal.
    destruct (negb (from =? 0)); [|discriminate H].
    destruct (negb (spender =? 0)); [|discriminate H].
    apply erc20_transfer_done in H.
    destruct H as (Hf & Ht & Hb & Hbal & Hall & Hsup & Hl & Ho).
    cbn in Hall, Hsup, Hl, Ho.
    split; [exact Hf|]. split; [exact Ht|]. split; [exact Hb|].
    split; [intros _; exact Hal|]. split; [exact Hbal|].
    split; [|repeat split; assumption].
    intros h s. unfold allowance at 1. rewrite Hall, default_lookup_insert_pair.
    destruct (decide ((from, spender) = (h, s))) as [Heq|Hne];
      case_decide as Hc; try reflexivity.
    + exfalso. apply Hc. split; [congruence | exact Hmax].
    + exfalso. apply Hne. destruct Hc as [Hc _]. congruence.
  - apply Z.ltb_ge in Hmax.
    unfold mret, outcome_ret in H.
    apply erc20_transfer_done in H.
    destruct H as (Hf & Ht & Hb & Hbal & Hall & Hsup & Hl & Ho).
    split; [exact Hf|]. split; [exact Ht|]. split; [exact Hb|].
    split; [intros Hlt; lia|]. split; [exact Hbal|].
    split; [|repeat split; assumption].
    intros h s. case_decide as Hc; [lia|]. unfold allowance. now rewrite Hall.
Qed.

(** The escrow contract's steps, the token's own left folded. *)
Ltac unfold_escrow :=
  unfold exec, stateOf, onToken,
    relayCreateEscrow, relayFundEscrow, relayConfirmDelivery, relayStoreDocument,
    relayerTransferOwnership, authorizeRelayer, revokeRelayer,
    createEscrow, fundEscrow, storeDocumentHash, confirmDelivery, initiateDispute,
    cancelEscrow, resolveDispute, createEscrowMeta, fundEscrowMeta,
    confirmDeliveryMeta, storeDocumentHashMeta, updateTrustedForwarder,
    transferOwnership, renounceOwnership, requireSigner,
    safeTransfer, safeTransferFrom, checked_add, require in *;
  unfold mbind, outcome_bind, mret, outcome_ret in *;
  cbn beta iota in *.

Ltac to_Prop :=
  repeat match goal with
         | Hz : (_ =? _) = true |- _ => apply Z.eqb_eq in Hz
         | Hz : (_ =? _) = false |- _ => apply Z.eqb_neq in Hz
         | Hz : (_ <=? _) = true |- _ => apply Z.leb_le in Hz
         | Hz : (_ <? _) = true |- _ => apply Z.ltb_lt in Hz
         | Hz : negb (_ =? _) = true |- _ => apply negb_true_iff, Z.eqb_neq in Hz
         | Hz : bool_decide _ = true |- _ => apply bool_decide_eq_true in Hz
         | Hz : bool_decide _ = false |- _ => apply bool_decide_eq_false in Hz
         end.

(** *** Token movements *)

(** X20. Funding, direct or relayed, moves exactly the escrow's amount
    from the buyer to the contract: it needs the buyer's balance and
    allowance to cover the amount, an escrow just created and a deadline
    not passed, and it leaves the escrow [FUNDED]. *)
Theorem funding_moves_amount d sender now tx st st' id who tk :
  exec d sender now tx st = Done st' ->
  funding tx sender = Some (id, who) ->
  tokens st !! token (escrowOf st id) = Some tk ->
  who <> escrowAddress d ->
  buyer (escrowOf st id) = who
  /\ status (escrowOf st id) = CREATED
  /\ now <= deliveryDeadline (escrowOf st id)
  /\ amount (escrowOf st id) <= balanceOf tk who
  /\ (allowance tk who (escrowAddress d) < MAX_UINT256 ->
      amount (escrowOf st id) <= allowance tk who (escrowAddress d))
  /\ status (escrowOf st' id) = FUNDED
  /\ fundedAt (escrowOf st' id) = now
  /\ exists tk',
       tokens st' !! token (escrowOf st id) = Some tk'
       /\ balanceOf tk' (escrowAddress d)
          = balanceOf tk (escrowAddress d) + amount (escrowOf st id)
       /\ balanceOf tk' who = balanceOf tk who - amount (escrowOf st id)
       /\ totalSupply tk' = totalSupply tk.
Proof.
  intros H Hf Htk Hwho.
  destruct tx; try discriminate Hf; injection Hf as <- <-;
    unfold_escrow; passed H; inversion H; subst st'; clear H; to_Prop;
    unfold escrowOf in *; cbn [set_nonce escrows tokens] in *;
    try match goal with
        | Ht : tokens st !! _ = Some ?t |- _ =>
            lazymatch t with tk => fail | _ => rewrite Ht in Htk end
        end;
    injection Htk as ->;
    match goal with
    | Ht : erc20_transferFrom _ _ _ _ _ = Done _ |- _ =>
        apply erc20_transferFrom_done in Ht;
        destruct Ht as (_ & _ & Hle & Hal & Hbal & _ & Hsup & _)
    end;
    cbn; rewrite ?lookup_insert_eq; cbn;
    repeat (split; [first [assumption | reflexivity | lia]|]);
    eexists; (split; [reflexivity|]);
    rewrite !Hbal; repeat case_decide; try congruence;
    repeat split; try lia; assumption.
Qed.

Lemma funding_moves_amount_witness :
  status (escrowOf escrow_created sampleEscrowId) = CREATED
  /\ status (escrowOf escrow_funded sampleEscrowId) = FUNDED
  /\ fundedAt (escrowOf escrow_funded sampleEscrowId) = 100030.
Proof.
  pose proof (funding_moves_amount sampleDeployment 2 100030
                (RelayFundEscrow sampleEscrowId 1001 "buyer-signature-1")
                escrow_created escrow_funded sampleEscrowId 1001
                (default (mockUSDC_deployed 1) (tokens escrow_created !! 7000))) as H.
  destruct H as (_ & Hcreated & _ & _ & _ & Hfunded & Hat & _).
  - vm_compute. reflexivity.
  - reflexivity.
  - vm_compute. reflexivity.
  - vm_compute. discriminate.
  - exact (conj Hcreated (conj Hfunded Hat)).
Defined.

Lemma erc20_mint_done tk account value tk' :
  erc20_mint tk account value = Done tk' ->
  account <> 0 /\ totalSupply tk + value <= MAX_UINT256
  /\ (forall a, balanceOf tk' a
                = balanceOf tk a + (if decide (a = account) then value else 0))
  /\ allowances tk' = allowances tk /\ totalSupply tk' = totalSupply tk + value
  /\ lastFaucetClaim tk' = lastFaucetClaim tk /\ tokenOwner tk' = tokenOwner tk.
Proof.
  intros H. unfold erc20_mint, checked_add, require in H.
  unfold mbind, outcome_bind, mret, outcome_ret in H. passed H.
  inversion H; subst tk'; clear H. to_Prop.
  split; [assumption|]. split; [assumption|]. split; [|repeat split].
  intros a. unfold balanceOf at 1. cbn [balances].
  rewrite default_lookup_insert. unfold balanceOf.
  repeat case_decide; subst; try congruence; lia.
Qed.

Lemma faucet_done sender now tk tk' :
  faucet sender now tk = Done tk' ->
  lastClaimOf tk sender + FAUCET_COOLDOWN <= now
  /\ (forall a, balanceOf tk' a
                = balanceOf tk a + (if decide (a = sender) then FAUCET_AMOUNT else 0))
  /\ allowances tk' = allowances tk
  /\ totalSupply tk' = totalSupply tk + FAUCET_AMOUNT
  /\ (forall a, lastClaimOf tk' a = if decide (a = sender) then now else lastClaimOf tk a).
Proof.
  intros H. unfold faucet, checked_add, require in H.
  unfold mbind, outcome_bind, mret, outcome_ret in H.
  destruct (_ <=? MAX_UINT256); [|discriminate H].
  destruct (_ <=? now) eqn:Hdue; [|discriminate H]. apply Z.leb_le in Hdue.
  apply erc20_mint_done in H.
  destruct H as (_ & _ & Hbal & Hall & Hsup & Hl & _). cbn in Hall, Hsup, Hl.
  split; [exact Hdue|]. split; [exact Hbal|]. split; [exact Hall|].
  split; [exact Hsup|].
  intros a. unfold lastClaimOf at 1. rewrite Hl, default_lookup_insert.
  unfold lastClaimOf. repeat case_decide; subst; congruence.
Qed.

(** X21. A successful faucet claim credits the caller 1000 USDC and starts
    the caller's cooldown, and nobody else's: until a day has passed every
    further claim of the caller reverts. *)
Theorem faucet_once_a_day sender now tk tk' :
  faucet sender now tk = Done tk' ->
  now + FAUCET_COOLDOWN <= MAX_UINT256 ->
  balanceOf tk' sender = balanceOf tk sender + 1000000000
  /\ totalSupply tk' = totalSupply tk + 1000000000
  /\ (forall later, later < now + 86400 ->
        faucet sender later tk' = Revert "Faucet cooldown not met")
  /\ (forall other, other <> sender ->
        lastClaimOf tk' other = lastClaimOf tk other
        /\ balanceOf tk' other = balanceOf tk other).
Proof.
  intros H Hmax. pose proof (faucet_done _ _ _ _ H) as (Hdue & Hbal & Hall & Hsup & Hl).
  split; [|split; [|split]].
  - rewrite Hbal, decide_True by done. reflexivity.
  - exact Hsup.
  - intros later Hlater. unfold faucet, checked_add, require.
    unfold mbind, outcome_bind. rewrite Hl, decide_True by done.
    destruct (_ <=? MAX_UINT256) eqn:Hm; [|apply Z.leb_gt in Hm; lia].
    destruct (_ <=? later) eqn:Hd; [|reflexivity].
    apply Z.leb_le in Hd. unfold FAUCET_COOLDOWN in *. lia.
  - intros other Hother. rewrite Hl, Hbal, !decide_False by done. lia.
Qed.



Lemma faucet_once_a_day_witness :
  exists tk',
    faucet 1001 100000 (mockUSDC_deployed 1) = Done tk'
    /\ balanceOf tk' 1001 = balanceOf (mockUSDC_deployed 1) 1001 + 1000000000
    /\ totalSupply tk' = totalSupply (mockUSDC_deployed 1) + 1000000000
    /\ (forall later, later < 100000 + 86400 ->
          faucet 1001 later tk' = Revert "Faucet cooldown not met")
    /\ (forall other, other <> 1001 ->
          lastClaimOf tk' other = lastClaimOf (mockUSDC_deployed 1) other
          /\ balanceOf tk' other = balanceOf (mockUSDC_deployed 1) other).
Proof.
  eexists. split; [vm_compute; reflexivity|].
  apply (faucet_once_a_day 1001 100000); [vm_compute; reflexivity|].
  vm_compute. discriminate.
Defined.

(** X22. A confirmed delivery or a resolved dispute moves exactly the
    escrow's amount from the contract to the recipient. *)
Theorem payout_moves_amount d sender now tx st st' id to tk :
  exec d sender now tx st = Done st' ->
  payout tx st = Some (id, to) ->
  tokens st !! token (escrowOf st id) = Some tk ->
  to <> escrowAddress d ->
  holding (status (escrowOf st id)) = true
  /\ status (escrowOf st' id) = SETTLED
  /\ amount (escrowOf st id) <= balanceOf tk (escrowAddress d)
  /\ exists tk',
       tokens st' !! token (escrowOf st id) = Some tk'
       /\ balanceOf tk' to = balanceOf tk to + amount (escrowOf st id)
       /\ balanceOf tk' (escrowAddress d)
          = balanceOf tk (escrowAddress d) - amount (escrowOf st id)
       /\ totalSupply tk' = totalSupply tk.
Proof.
  intros H Hp Htk Hto.
  destruct tx; try discriminate Hp; injection Hp as <- <-;
    unfold_escrow; passed H; inversion H; subst st'; clear H; to_Prop;
    unfold escrowOf in *;
    cbn [set_nonce set_escrow escrows tokens] in *;
    try match goal with
        | Ht : tokens st !! _ = Some ?t |- _ =>
            lazymatch t with tk => fail | _ => rewrite Ht in Htk end
        end;
    injection Htk as ->;
    match goal with
    | Ht : erc20_transfer _ _ _ _ = Done _ |- _ =>
        apply erc20_transfer_done in Ht;
        destruct Ht as (_ & _ & Hle & Hbal & _ & Hsup & _)
    end;
    cbn; rewrite ?lookup_insert_eq; cbn;
    match goal with
    | Hs : status _ = _ |- _ => rewrite Hs
    end;
    (split; [reflexivity|]); (split; [reflexivity|]); (split; [exact Hle|]);
    eexists; (split; [reflexivity|]);
    rewrite !Hbal; repeat case_decide; try congruence;
    repeat split; try lia; assumption.
Qed.

Lemma payout_moves_amount_witness :
  holding (status (escrowOf escrow_documented sampleEscrowId)) = true
  /\ status (escrowOf escrow_settled sampleEscrowId) = SETTLED
  /\ amount (escrowOf escrow_documented sampleEscrowId)
     <= balanceOf (default (mockUSDC_deployed 1) (tokens escrow_documented !! 7000)) 5000.
Proof.
  pose proof (payout_moves_amount sampleDeployment 2 100050
                (RelayConfirmDelivery sampleEscrowId 1001 "buyer-signature-2")
                escrow_documented escrow_settled sampleEscrowId 1002
                (default (mockUSDC_deployed 1) (tokens escrow_documented !! 7000))) as H.
  destruct H as (Hheld & Hsettled & Hcover & _).
  - vm_compute. reflexivity.
  - vm_compute. reflexivity.
  - vm_compute. reflexivity.
  - vm_compute. discriminate.
  - exact (conj Hheld (conj Hsettled Hcover)).
Defined.

(** *** The relayer contract *)

(** X23. A relayed creation can be read back: the escrow is stored under the
    returned id with the signed terms, the buyer's nonce is used up, and
    the two events are logged in order. *)
Theorem relayed_create_reads_back d sender now s a t dl b sig st id st' :
  relayCreateEscrow d sender now s a t dl b sig st = Done (id, st') ->
  id = escrowIdOf d b s a now
  /\ getEscrowDetails st' id = (b, s, a, dl, CREATED, t, now, 0, false)
  /\ events st' = (events st ++ [EscrowCreated id b s a dl;
                                  TransactionRelayed b "createEscrow"])%list
  /\ nonceOf st' b = nonceOf st b + 1
  /\ tokens st' = tokens st.
Proof.
  intros H. unfold_escrow. passed H. inversion H; subst id st'; clear H.
  unfold getEscrowDetails, escrowOf, nonceOf. cbn.
  rewrite !lookup_insert_eq, <- app_assoc. cbn. repeat split.
Qed.

Lemma relayed_create_reads_back_witness :
  sampleEscrowId = escrowIdOf sampleDeployment 1001 1002 (500 * 10 ^ 6) 100020
  /\ getEscrowDetails escrow_created sampleEscrowId
     = (1001, 1002, 500 * 10 ^ 6, 200000, CREATED, 7000, 100020, 0, false)
  /\ events escrow_created
     = (events funded_buyer
        ++ [EscrowCreated sampleEscrowId 1001 1002 (500 * 10 ^ 6) 200000;
            TransactionRelayed 1001 "createEscrow"])%list
  /\ nonceOf escrow_created 1001 = nonceOf funded_buyer 1001 + 1
  /\ tokens escrow_created = tokens funded_buyer.
Proof.
  apply (relayed_create_reads_back sampleDeployment 2 100020 1002 (500 * 10 ^ 6) 7000
           200000 1001 "buyer-signature-0" funded_buyer).
  vm_compute. reflexivity.
Defined.

(** X24. The relayed creation checks none of the terms: with a good
    signature it stores an escrow that the direct entry point refuses. *)
Theorem relayed_create_unvalidated d relayer now s a t dl b sig st :
  isAuthorized st relayer = true ->
  relayerAddress d = trustedForwarder st ->
  recoverSigner d (CreateEscrowData s a t dl (nonceOf st b)) sig = Some b ->
  nonceOf st b + 1 <= MAX_UINT256 ->
  buyer (escrowOf st (escrowIdOf d b s a now)) = 0 ->
  s = 0 \/ s = b \/ a <= 0 \/ dl <= now ->
  (exists st', relayCreateEscrow d relayer now s a t dl b sig st
               = Done (escrowIdOf d b s a now, st'))
  /\ (exists reason, createEscrow d b now s a t dl st = Revert reason).
Proof.
  intros Hauth Hfwd Hsig Hn Hfresh Hbad. split.
  - unfold_escrow. rewrite Hauth, Hfwd, Z.eqb_refl, Hsig, Z.eqb_refl.
    apply Z.leb_le in Hn. rewrite Hn.
    unfold escrowOf in *. cbn [set_nonce escrows]. rewrite Hfresh. cbn. eauto.
  - unfold_escrow.
    destruct (s =? 0) eqn:H0; cbn; [eauto|].
    destruct (s =? b) eqn:Hb; cbn; [eauto|].
    destruct (0 <? a) eqn:Ha; cbn; [|eauto].
    destruct (now <? dl) eqn:Hd; cbn; [|eauto].
    to_Prop. lia.
Qed.

Lemma relayed_create_unvalidated_witness :
  (exists st', relayCreateEscrow sampleDeployment 2 100020 1001 0 7000 0 1001
                 "buyer-signature-0" funded_buyer
               = Done (escrowIdOf sampleDeployment 1001 1001 0 100020, st'))
  /\ (exists reason, createEscrow sampleDeployment 1001 100020 1001 0 7000 0 funded_buyer
                     = Revert reason).
Proof.
  apply (relayed_create_unvalidated sampleDeployment 2 100020 1001 0 7000 0 1001
           "buyer-signature-0" funded_buyer).
  - vm_compute. reflexivity.
  - vm_compute. reflexivity.
  - vm_compute. reflexivity.
  - vm_compute. discriminate.
  - vm_compute. reflexivity.
  - right. left. reflexivity.
Defined.

Lemma exec_authorized d sender now tx st st' a :
  exec d sender now tx st = Done st' ->
  isAuthorized st' a = isAuthorized st a
  \/ sender = relayerOwner st
     /\ (tx = AuthorizeRelayer a /\ isAuthorized st' a = true
         \/ tx = RevokeRelayer a /\ isAuthorized st' a = false).
Proof.
  intros H. destruct tx; unfold_escrow; passed H; inversion H; subst st'; clear H;
    to_Prop; unfold isAuthorized; cbn; try (left; reflexivity);
    rewrite default_lookup_insert; case_decide; subst; auto.
Qed.

(** X25. A revoked relayer stays locked out: until [authorizeRelayer] is
    called for it again, each of its relay calls reverts. *)
Theorem revoked_relayer_locked_out d owner now relayer st st1 txs now' tx :
  exec d owner now (RevokeRelayer relayer) st = Done st1 ->
  Forall (fun x => x.2 <> AuthorizeRelayer relayer) txs ->
  isRelay tx = true ->
  exec d relayer now' tx (replay d txs st1) = Revert "Not authorized relayer".
Proof.
  intros Hrev Htxs Hrelay.
  assert (H1 : isAuthorized st1 relayer = false).
  { unfold_escrow. passed Hrev. inversion Hrev; subst st1.
    unfold isAuthorized. cbn. now rewrite lookup_insert_eq. }
  clear Hrev. revert st1 H1.
  induction Htxs as [|[[s n] t] txs Ht _ IH]; intros st1 H1.
  - now apply relay_needs_authorization.
  - cbn [replay]. destruct (exec d s n t st1) as [st2|] eqn:H; [|now apply IH].
    apply IH.
    destruct (exec_authorized d s n t st1 st2 relayer H) as [->|(_ & [[-> _]|[_ ->]])];
      [exact H1 | now cbn in Ht | reflexivity].
Qed.

Lemma revoked_relayer_locked_out_witness :
  exec sampleDeployment 2 100090
    (RelayFundEscrow sampleEscrowId 1001 "buyer-signature-1")
    (replay sampleDeployment
       [ (2, 100070, AuthorizeRelayer 3);
         (3, 100080, RelayFundEscrow sampleEscrowId 1001 "buyer-signature-1") ]
       (replay sampleDeployment [ (2, 100060, RevokeRelayer 2) ] escrow_created))
  = Revert "Not authorized relayer".
Proof.
  apply (revoked_relayer_locked_out sampleDeployment 2 100060 2 escrow_created).
  - vm_compute. reflexivity.
  - repeat constructor; discriminate.
  - reflexivity.
Defined.

(** X26. Escrowed funds are released by the buyer or by the owner only: an
    escrow leaves a holding status for [SETTLED] through the buyer's
    confirmation, direct or signed, or through the owner's resolution. *)
Theorem release_needs_buyer_or_owner d sender now tx st st' id :
  exec d sender now tx st = Done st' ->
  buyer (escrowOf st id) <> 0 ->
  holding (status (escrowOf st id)) = true ->
  status (escrowOf st' id) = SETTLED ->
  (tx = ConfirmDelivery id /\ sender = buyer (escrowOf st id))
  \/ (exists sig,
        (tx = ConfirmDeliveryMeta id (buyer (escrowOf st id)) sig
         \/ tx = RelayConfirmDelivery id (buyer (escrowOf st id)) sig)
        /\ recoverSigner d (ConfirmDeliveryData id (nonceOf st (buyer (escrowOf st id))))
                         sig = Some (buyer (escrowOf st id)))
  \/ (exists refundBuyer, tx = ResolveDispute id refundBuyer /\ sender = owner st).
Proof.
  intros H Hb Hh Hs. destruct tx; unfold_escrow; passed H;
    inversion H; subst st'; clear H; to_Prop.
  all: unfold escrowOf in *;
    cbn [set_nonce set_escrow set_token set_documents set_disputeReason emit
         set_trustedForwarder set_owner set_relayerOwner set_authorized
         escrows tokens] in *.
  all: try (rewrite Hs in Hh; discriminate Hh).
  all: rewrite ?default_lookup_insert in *.
  all: repeat match type of Hs with
              | context [decide ?P] => destruct (decide P); [try subst id|]
              end;
    cbn in Hs; try discriminate Hs; try (rewrite Hs in Hh; discriminate Hh).
  all: repeat match goal with
              | Hd : context [if documentsUploaded ?e then _ else _] |- _ =>
                  destruct (documentsUploaded e)
              end;
    cbn in Hs; rewrite ?default_lookup_insert in Hs;
    repeat case_decide; cbn in Hs;
    try discriminate Hs; try (rewrite Hs in Hh; discriminate Hh); try congruence.
  all: subst.
  all: try solve [left; split; [reflexivity|congruence]].
  all: try solve [right; left; eexists; split; [(left + right); reflexivity | assumption]].
  all: try solve [right; right; eexists; split; [reflexivity | reflexivity]].
Qed.

Lemma release_needs_buyer_or_owner_witness :
  (RelayConfirmDelivery sampleEscrowId 1001 "buyer-signature-2"
   = ConfirmDelivery sampleEscrowId
   /\ 2 = buyer (escrowOf escrow_documented sampleEscrowId))
  \/ (exists sig,
        (RelayConfirmDelivery sampleEscrowId 1001 "buyer-signature-2"
         = ConfirmDeliveryMeta sampleEscrowId
             (buyer (escrowOf escrow_documented sampleEscrowId)) sig
         \/ RelayConfirmDelivery sampleEscrowId 1001 "buyer-signature-2"
            = RelayConfirmDelivery sampleEscrowId
                (buyer (escrowOf escrow_documented sampleEscrowId)) sig)
        /\ recoverSigner sampleDeployment
             (ConfirmDeliveryData sampleEscrowId
                (nonceOf escrow_documented
                   (buyer (escrowOf escrow_documented sampleEscrowId))))
             sig
           = Some (buyer (escrowOf escrow_documented sampleEscrowId)))
  \/ (exists refundBuyer,
        RelayConfirmDelivery sampleEscrowId 1001 "buyer-signature-2"
        = ResolveDispute sampleEscrowId refundBuyer
        /\ 2 = owner escrow_documented).
Proof.
  apply (release_needs_buyer_or_owner sampleDeployment 2 100050
           (RelayConfirmDelivery sampleEscrowId 1001 "buyer-signature-2")
           escrow_documented escrow_settled sampleEscrowId).
  - vm_compute. reflexivity.
  - vm_compute. discriminate.
  - vm_compute. reflexivity.
  - vm_compute. reflexivity.
Defined.

(** X27. Over any history the parties and terms of an escrow stay as
    created, and its status moves along the contract's transitions only. *)
Theorem escrow_history d txs st id :
  buyer (escrowOf st id) <> 0 ->
  terms (escrowOf (replay d txs st) id) = terms (escrowOf st id)
  /\ rtc status_step (status (escrowOf st id)) (status (escrowOf (replay d txs st) id)).
Proof.
  revert st. induction txs as [|[[sender now] tx] txs IH]; intros st Hb;
    [split; [reflexivity | apply rtc_refl]|].
  cbn [replay]. destruct (exec d sender now tx st) as [st'|] eqn:H; [|now apply IH].
  destruct (exec_escrow d sender now tx st st' id H Hb) as [Ht Hstep].
  assert (Hb' : buyer (escrowOf st' id) <> 0).
  { unfold terms in Ht. injection Ht as -> _ _ _ _ _. exact Hb. }
  destruct (IH st' Hb') as [IHt IHs]. split; [congruence|].
  destruct Hstep as [Heq|Hstep]; [now rewrite <- Heq | now apply (rtc_l _ _ _ _ Hstep)].
Qed.

Lemma escrow_history_witness :
  terms (escrowOf (replay sampleDeployment
                     [ (2, 100030, RelayFundEscrow sampleEscrowId 1001 "buyer-signature-1");
                       (1002, 100040, StoreDocumentHash sampleEscrowId 77);
                       (1001, 100050, InitiateDispute sampleEscrowId "damaged");
                       (1, 100060, ResolveDispute sampleEscrowId true) ]
                     escrow_created) sampleEscrowId)
  = terms (escrowOf escrow_created sampleEscrowId)
  /\ rtc status_step
       (status (escrowOf escrow_created sampleEscrowId))
       (status (escrowOf (replay sampleDeployment
                            [ (2, 100030,
                               RelayFundEscrow sampleEscrowId 1001 "buyer-signature-1");
                              (1002, 100040, StoreDocumentHash sampleEscrowId 77);
                              (1001, 100050, InitiateDispute sampleEscrowId "damaged");
                              (1, 100060, ResolveDispute sampleEscrowId true) ]
                            escrow_created) sampleEscrowId)).
Proof.
  apply (escrow_history sampleDeployment). vm_compute. discriminate.
Defined.

Lemma total_frame (f g : Z -> Z) id ids :
  NoDup ids -> (forall i, i <> id -> g i = f i) ->
  total g ids = total f ids + (if decide (id ∈ ids) then g id - f id else 0).
Proof.
  intros Hnd Hfg. induction Hnd as [|i ids Hi Hnd IH]; [reflexivity|].
  unfold total in *. cbn [map fold_right]. rewrite IH.
  destruct (decide (i = id)) as [->|Hne].
  - rewrite (decide_True (P := id ∈ id :: ids)) by apply list_elem_of_here.
    rewrite decide_False by exact Hi. lia.
  - rewrite (Hfg i Hne).
    destruct (decide (id ∈ ids)) as [Hin|Hin].
    + rewrite decide_True by (now apply list_elem_of_further). lia.
    + rewrite decide_False; [lia|].
      intros Hc. apply elem_of_cons in Hc. destruct Hc; [congruence|contradiction].
Qed.

(** What the contract owes stays covered when one escrow's share moves
    with the balance. *)
Lemma custody_step (f g : Z -> Z) id B B' :
  (forall ids, NoDup ids -> total f ids <= B) ->
  (forall i, i <> id -> g i = f i) ->
  0 <= g id -> g id - f id <= B' - B ->
  forall ids, NoDup ids -> total g ids <= B'.
Proof.
  intros Hf Hfg Hg Hd ids Hnd. rewrite (total_frame f g id ids Hnd Hfg).
  destruct (decide (id ∈ ids)) as [Hin|Hin].
  - specialize (Hf ids Hnd). lia.
  - assert (Hnd' : NoDup (id :: ids)) by (now constructor).
    specialize (Hf _ Hnd'). unfold total in *. cbn [map fold_right] in Hf. lia.
Qed.

Lemma mint_done sender to value tk tk' :
  mint sender to value tk = Done tk' ->
  sender = tokenOwner tk
  /\ (forall a, balanceOf tk' a = balanceOf tk a + (if decide (a = to) then value else 0))
  /\ allowances tk' = allowances tk.
Proof.
  intros H. unfold mint, require in H. unfold mbind, outcome_bind in H.
  destruct (sender =? tokenOwner tk) eqn:Ho; [|discriminate H]. to_Prop.
  apply erc20_mint_done in H. destruct H as (_ & _ & Hbal & Hall & _).
  auto.
Qed.

Lemma erc20_approve_done tk holder spender value tk' :
  erc20_approve tk holder spender value = Done tk' ->
  balances tk' = balances tk
  /\ (forall h s, allowance tk' h s
                  = if decide ((h, s) = (holder, spender)) then value else allowance tk h s).
Proof.
  intros H. unfold erc20_approve, require in H.
  unfold mbind, outcome_bind, mret, outcome_ret in H. passed H.
  inversion H; subst tk'; clear H. split; [reflexivity|].
  intros h s. unfold allowance. cbn [allowances].
  rewrite default_lookup_insert_pair. repeat case_decide; congruence.
Qed.

Lemma held_nonneg st tok id : (forall i, 0 <= amount (escrowOf st i)) -> 0 <= held st tok id.
Proof. intros H. unfold held. specialize (H id). destruct (_ && _); lia. Qed.

Lemma custody_escrow d st st' tok tk tk' K :
  (forall ids, NoDup ids -> total (held st tok) ids <= balanceOf tk (escrowAddress d)) ->
  (forall i, i <> K -> escrowOf st' i = escrowOf st i) ->
  0 <= held st' tok K ->
  held st' tok K - held st tok K
  <= balanceOf tk' (escrowAddress d) - balanceOf tk (escrowAddress d) ->
  forall ids, NoDup ids -> total (held st' tok) ids <= balanceOf tk' (escrowAddress d).
Proof.
  intros Hf Hfg Hg Hd. apply (custody_step (held st tok) (held st' tok) K _ _ Hf);
    [|exact Hg|exact Hd].
  intros i Hi. unfold held. now rewrite (Hfg i Hi).
Qed.

Ltac touched_escrow :=
  lazymatch goal with
  | |- context [set_escrow _ ?k _] => constr:(k)
  | _ => constr:(0)
  end.

Lemma exec_solvent d sender now tx st st' :
  exec d sender now tx st = Done st' ->
  sender <> escrowAddress d ->
  amounts_valid tx ->
  solvent d st -> solvent d st'.
Proof.
  intros H Hs Hv (Hheld & Hallow & Hamt).
  assert (Hamt' : forall id, 0 <= amount (escrowOf st' id)).
  { intros id. specialize (Hamt id).
    destruct tx; unfold_escrow; passed H; inversion H; subst st'; clear H; to_Prop;
      unfold escrowOf in *;
      cbn [set_nonce set_escrow set_token set_documents set_disputeReason emit
           set_trustedForwarder set_owner set_relayerOwner set_authorized
           escrows tokens] in *;
      try exact Hamt;
      repeat match goal with
             | |- context [if documentsUploaded ?e then _ else _] =>
                 destruct (documentsUploaded e)
             end;
      cbn [set_nonce set_escrow set_token set_documents set_disputeReason emit
           set_trustedForwarder set_owner set_relayerOwner set_authorized
           escrows tokens] in *;
      rewrite ?default_lookup_insert; repeat case_decide; subst; cbn;
      first [exact Hamt | lia | idtac]. 
    all: cbn in Hv; try lia. }
  assert (Hallow' : forall tok tk' spender, tokens st' !! tok = Some tk' ->
                      allowance tk' (escrowAddress d) spender = 0).
  { intros tok tk' sp Htk'.
    destruct tx; unfold_escrow; unfold faucet, mint, checked_add, require in *;
      unfold mbind, outcome_bind, mret, outcome_ret in *;
      passed H; inversion H; subst st'; clear H; to_Prop;
      repeat match goal with
             | |- context [if documentsUploaded ?e then _ else _] =>
                 destruct (documentsUploaded e)
             | H : context [if documentsUploaded ?e then _ else _] |- _ =>
                 destruct (documentsUploaded e)
             end;
      cbn [set_nonce set_escrow set_token set_documents set_disputeReason emit
           set_trustedForwarder set_owner set_relayerOwner set_authorized
           escrows tokens] in *;
      try (exact (Hallow _ _ _ Htk'));
      (apply lookup_insert_Some in Htk' as [[<- <-]|[_ Htk']];
       [|exact (Hallow _ _ _ Htk')]);
      repeat match goal with
             | Ht : erc20_transfer _ _ _ _ = Done _ |- _ =>
                 apply erc20_transfer_done in Ht;
                 destruct Ht as (_ & _ & _ & _ & Hall & _)
             | Ht : erc20_mint _ _ _ = Done _ |- _ =>
                 apply erc20_mint_done in Ht;
                 destruct Ht as (_ & _ & _ & Hall & _)
             | Ht : erc20_approve _ _ _ _ = Done _ |- _ =>
                 apply erc20_approve_done in Ht;
                 destruct Ht as (_ & Hall)
             | Ht : erc20_transferFrom _ _ _ _ _ = Done _ |- _ =>
                 apply erc20_transferFrom_done in Ht;
                 destruct Ht as (_ & _ & _ & Hle & _ & Hall & _)
             end.
    all: try solve [unfold allowance; rewrite Hall; cbn [allowances];
                    eapply Hallow; eassumption].
    all: rewrite Hall;
      match goal with
      | |- context [decide ?P] => destruct (decide P) as [Hc|Hc]
      end; [|eapply Hallow; eassumption].
    all: try lazymatch type of Hc with
             | _ /\ _ => destruct Hc as [Hc Hlt]
             end;
      injection Hc as Hc1 Hc2; try congruence.
    all: match goal with
         | |- allowance ?t ?h ?s - _ = 0 =>
             assert (H0 : allowance t h s = 0)
               by (rewrite <- Hc1; eapply Hallow; eassumption)
         end.
    all: specialize (Hle Hlt); cbn in Hv;
      try match goal with
          | |- context [amount ?e] => assert (0 <= amount e) by apply Hamt
          end; lia. }
  split; [|split; assumption]. intros tok tk' ids Htk' Hnd.
  assert (Hnn : forall id, 0 <= held st' tok id)
    by (intros; apply held_nonneg, Hamt').
  clear Hamt' Hallow'.
  destruct tx; unfold_escrow; unfold faucet, mint, checked_add, require in *;
    unfold mbind, outcome_bind, mret, outcome_ret in *;
    passed H; inversion H; subst st'; clear H; to_Prop;
    repeat match goal with
           | |- context [if documentsUploaded ?e then _ else _] =>
               destruct (documentsUploaded e) eqn:?
           | H : context [if documentsUploaded ?e then _ else _] |- _ =>
               destruct (documentsUploaded e) eqn:?
           end;
    cbn [set_nonce set_token set_escrow set_documents set_disputeReason emit
         set_trustedForwarder set_owner set_relayerOwner set_authorized
         escrows tokens] in Htk';
    try exact (Hheld tok tk' ids Htk' Hnd);
    repeat match goal with
           | Ht : erc20_transfer _ _ _ _ = Done _ |- _ =>
               apply erc20_transfer_done in Ht;
               destruct Ht as (_ & _ & Hle & Hbal & _)
           | Ht : erc20_mint _ _ _ = Done _ |- _ =>
               apply erc20_mint_done in Ht;
               destruct Ht as (_ & _ & Hbal & _)
           | Ht : erc20_approve _ _ _ _ = Done _ |- _ =>
               apply erc20_approve_done in Ht;
               destruct Ht as (Hbal & _)
           | Ht : erc20_transferFrom _ _ _ _ _ = Done _ |- _ =>
               apply erc20_transferFrom_done in Ht;
               destruct Ht as (_ & _ & Hle & Hal & Hbal & _)
           end;
    try (apply lookup_insert_Some in Htk' as [[Htok <-]|[Htok Htk']];
         [subst tok|]);
    (let k := touched_escrow in
       match goal with
       | Ht : _ !! _ = Some ?tk |- _ =>
           apply (custody_escrow d st _ _ tk _ k (fun ids => Hheld _ tk ids Ht));
           [ | apply Hnn | | exact Hnd]
       end).
  all: try solve [intros i Hi; unfold escrowOf;
                  cbn [set_nonce set_token set_escrow set_documents set_disputeReason
                       emit escrows];
                  rewrite ?default_lookup_insert, ?decide_False by congruence;
                  reflexivity].
  all: clear Hnn; unfold held, escrowOf in *;
    cbn [set_nonce set_token set_escrow set_documents set_disputeReason
         emit escrows tokens] in *;
    rewrite ?default_lookup_insert, ?decide_True by reflexivity;
    cbn [status token amount with_status with_fundedAt with_documentsUploaded holding
         andb].
  all: decided;
    repeat match goal with
           | Hst : status _ = _ |- _ => rewrite !Hst; clear Hst
           end;
    cbn [holding andb];
    repeat match goal with
           | |- context [amount ?e] =>
               lazymatch goal with
               | _ : 0 <= amount e |- _ => fail
               | _ => assert (0 <= amount e) by apply Hamt
               end
           end;
    repeat match goal with
           | Ht : tokens _ !! _ = Some ?t |- _ =>
               lazymatch goal with
               | _ : forall sp, allowance t _ sp = 0 |- _ => fail
               | _ => pose proof (fun sp => Hallow _ t sp Ht)
               end
           end;
    clear Hheld Hallow Hamt;
    try (unfold balanceOf; rewrite Hbal; lia);
    rewrite ?Hbal;
    repeat match goal with
           | |- context [decide ?P] =>
               destruct (decide P) as [He|He]; [try rewrite <- He in *|]
           end;
    repeat match goal with
           | |- context [if ?c then _ else _] => destruct c eqn:?
           end;
    to_Prop; try congruence;
    repeat match goal with
           | Ha : forall sp, allowance ?t ?h sp = 0, Hi : context [allowance ?t ?h ?s] |- _ =>
               rewrite (Ha s) in Hi
           end;
    unfold balanceOf in *; cbn [balances] in *;
    unfold MAX_UINT256, FAUCET_AMOUNT in *; cbn in Hv; try lia.
Qed.

Lemma total_zero (f : Z -> Z) ids : (forall i, f i = 0) -> total f ids = 0.
Proof.
  intros Hf. unfold total. induction ids as [|i ids IH]; [reflexivity|].
  cbn [map fold_right]. rewrite Hf, IH. reflexivity.
Qed.

Lemma genesis_solvent : solvent sampleDeployment genesis.
Proof.
  split; [|split].
  - intros tok tk ids Htk _. rewrite total_zero by reflexivity.
    unfold genesis in Htk. cbn [set_token tokens deployed] in Htk.
    apply lookup_insert_Some in Htk as [[_ <-]|[_ Htk]];
      [|rewrite lookup_empty in Htk; discriminate Htk].
    vm_compute. discriminate.
  - intros tok tk spender Htk.
    unfold genesis in Htk. cbn [set_token tokens deployed] in Htk.
    apply lookup_insert_Some in Htk as [[_ <-]|[_ Htk]];
      [|rewrite lookup_empty in Htk; discriminate Htk].
    reflexivity.
  - intros id. vm_compute. discriminate.
Qed.

(** X28. Custody: over any history in which the escrow contract's own
    address sends nothing, the contract's balance of every token covers
    the amounts of all escrows it holds in that token. *)
Theorem escrow_stays_solvent d txs st :
  solvent d st ->
  Forall (fun x => x.1.1 <> escrowAddress d /\ amounts_valid x.2) txs ->
  solvent d (replay d txs st).
Proof.
  intros Hsolv Htxs. revert st Hsolv.
  induction Htxs as [|[[sender now] tx] txs [Hs Hv] _ IH]; intros st Hsolv;
    [exact Hsolv|].
  cbn [replay]. destruct (exec d sender now tx st) as [st'|] eqn:H; [|now apply IH].
  apply IH. exact (exec_solvent d sender now tx st st' H Hs Hv Hsolv).
Qed.

Lemma escrow_stays_solvent_witness :
  solvent sampleDeployment (replay sampleDeployment sampleHistory genesis).
Proof.
  apply (escrow_stays_solvent sampleDeployment sampleHistory genesis).
  - exact genesis_solvent.
  - repeat constructor; cbn; try discriminate; lia.
Defined.

Lemma escrow_documented_solvent : solvent sampleDeployment escrow_documented.
Proof.
  apply (exec_solvent sampleDeployment 2 100040
           (RelayStoreDocument sampleEscrowId 77 1002 "seller-signature-0") escrow_funded);
    [vm_compute; reflexivity | discriminate | exact I |].
  apply (exec_solvent sampleDeployment 2 100030
           (RelayFundEscrow sampleEscrowId 1001 "buyer-signature-1") escrow_created);
    [vm_compute; reflexivity | discriminate | exact I |].
  apply (exec_solvent sampleDeployment 2 100020
           (RelayCreateEscrow 1002 (500 * 10 ^ 6) 7000 200000 1001 "buyer-signature-0")
           funded_buyer);
    [vm_compute; reflexivity | discriminate | cbn; lia |].
  apply (exec_solvent sampleDeployment 1001 100010 (TokenApprove 7000 5000 (600 * 10 ^ 6))
           (replay sampleDeployment [ (1001, 100000, TokenFaucet 7000) ] genesis));
    [vm_compute; reflexivity | discriminate | cbn; lia |].
  apply (exec_solvent sampleDeployment 1001 100000 (TokenFaucet 7000) genesis);
    [vm_compute; reflexivity | discriminate | exact I |].
  exact genesis_solvent.
Qed.

(** X29. In a solvent state the buyer's confirmation of an escrow with
    documents pending cannot fail for lack of funds: it succeeds whenever
    the escrow's token exists and its seller is not the zero address. *)
Theorem solvent_confirm_succeeds d now st id tk :
  solvent d st ->
  status (escrowOf st id) = DOCUMENTS_PENDING ->
  tokens st !! token (escrowOf st id) = Some tk ->
  seller (escrowOf st id) <> 0 ->
  escrowAddress d <> 0 ->
  exists st', exec d (buyer (escrowOf st id)) now (ConfirmDelivery id) st = Done st'
              /\ status (escrowOf st' id) = SETTLED.
Proof.
  intros (Hheld & _ & _) Hst Htk Hseller Hself.
  assert (Hcover : amount (escrowOf st id) <= balanceOf tk (escrowAddress d)).
  { assert (Hnd : NoDup [id]) by (apply NoDup_singleton).
    specialize (Hheld _ _ [id] Htk Hnd).
    unfold total, held in Hheld. cbn [map fold_right] in Hheld.
    rewrite Hst, Z.eqb_refl in Hheld. cbn in Hheld. lia. }
  unfold exec, confirmDelivery, safeTransfer, erc20_transfer, require.
  unfold mbind, outcome_bind, mret, outcome_ret.
  rewrite Z.eqb_refl, Hst, bool_decide_eq_true_2 by reflexivity.
  cbn [set_escrow tokens]. rewrite Htk.
  apply Z.eqb_neq in Hself, Hseller. rewrite Hself, Hseller. cbn [negb].
  apply Z.leb_le in Hcover. rewrite Hcover.
  eexists. split; [reflexivity|].
  unfold escrowOf. cbn. now rewrite lookup_insert_eq.
Qed.

Lemma solvent_confirm_succeeds_witness :
  exists st',
    exec sampleDeployment (buyer (escrowOf escrow_documented sampleEscrowId)) 100050
      (ConfirmDelivery sampleEscrowId) escrow_documented = Done st'
    /\ status (escrowOf st' sampleEscrowId) = SETTLED.
Proof.
  apply (solvent_confirm_succeeds sampleDeployment 100050 escrow_documented sampleEscrowId
           (default (mockUSDC_deployed 1) (tokens escrow_documented !! 7000))).
  - exact escrow_documented_solvent.
  - vm_compute. reflexivity.
  - vm_compute. reflexivity.
  - vm_compute. discriminate.
  - vm_compute. discriminate.
Defined.

End ContractFacts.
